(** * IDE monitor: event-correlation core

    A shallow embedding of the event-correlation pipeline of the IDE
    monitor ([normalizer.py], [burst_detector.py], [confidence.py],
    [correlator.py], and the pipeline and the debouncing of [watcher.py])
    and the proofs of its testable properties.

    Conventions of the embedding.
    - Confidence values are binary64 floats, as in the source; they are
      modelled with the primitive floats of the kernel, so that
      [0.2 + 0.2] is computed, not idealised.
    - [time.monotonic()] is an input.  A reading is the binary64 float
      that the call returns, and ages are computed as the source computes
      them, by binary64 subtraction and comparison.  The definitions
      assume nothing about the readings; a property that needs the clock
      never to go back says so ([clock_ordered]), and that binary64
      subtraction and comparison keep the order of such readings is
      proved from the standard library's specification of binary64
      ([Binary64Facts]).  A method that reads the clock once takes
      [now]; a method that reads it several times takes
      [clk : nat -> float], where [clk i] is the i-th reading made by
      that call.
    - Window lengths are binary64 floats.  Where the source declares one
      as an [int] ([FileBurstDetector.window_secs]) the comparison of a
      float with it is that with its binary64 value, which is exact for
      integers below 2^53.
    - [uuid.uuid4()], the wall clock, the host name, the working directory
      and SHA-256 are inputs of [WorkflowEvent.make], gathered in [MakeEnv].
    - Objects mutated in place are passed and returned explicitly. *)

From Stdlib Require Import ZArith Floats.
From stdpp Require Import base decidable option list strings gmap sorting.

Set Warnings "-inexact-float".
Set Default Proof Using "Type".

Local Open Scope string_scope.
Local Open Scope list_scope.
Local Open Scope Z_scope.

(** ** Python values *)

Module Py.

(** Truthiness of an [Optional[str]]: [None] and [""] are falsy. *)
Definition truthy_str (s : option string) : bool :=
  match s with
  | Some s => negb (bool_decide (s = ""))
  | None => false
  end.

(** Truthiness of an [Optional[List]]: [None] and [[]] are falsy. *)
Definition truthy_list {A} (l : option (list A)) : bool :=
  match l with
  | Some (_ :: _) => true
  | _ => false
  end.

(** [x or d] on an [Optional[int]]: [None] and [0] are falsy. *)
Definition or_int (x : option Z) (d : Z) : Z :=
  match x with
  | Some v => if bool_decide (v = 0) then d else v
  | None => d
  end.

(** [x or d] on an [Optional[float]]: [None], [0.0] and [-0.0] are falsy. *)
Definition or_float (x : option float) (d : float) : float :=
  match x with
  | Some v => if PrimFloat.eqb v 0 then d else v
  | None => d
  end.

(** [n / d] rounded to the nearest integer, ties to the even one ([0 < d]). *)
Definition half_even (n d : Z) : Z :=
  let q := n / d in
  let r := n mod d in
  if 2 * r <? d then q
  else if d <? 2 * r then q + 1
  else if Z.even q then q else q + 1.

(** [round(x, 1)] of the builtins on a float: the exact value of [x] is
    rounded to the nearest multiple of 1/10, ties to the even multiple,
    and the result is the binary64 nearest to that decimal; integers,
    infinities and NaN are returned as they are. *)
Definition round1 (x : float) : float :=
  match Prim2SF x with
  | S754_finite s m e =>
      if 0 <=? e then x
      else
        match half_even (10 * Z.pos m) (2 ^ (- e)) with
        | Z.pos k => SF2Prim (SFdiv prec emax (S754_finite s k 0) (S754_finite false 10 0))
        | _ => SF2Prim (S754_zero s)
        end
  | _ => x
  end.

(** [a / b] on two [int]s: the binary64 nearest to the exact quotient;
    [None] stands for the ZeroDivisionError and the OverflowError. *)
Definition int_truediv (a b : Z) : option float :=
  let sf z :=
    match z with
    | Z0 => S754_zero false
    | Z.pos p => S754_finite false p 0
    | Z.neg p => S754_finite true p 0
    end in
  if bool_decide (b = 0) then None
  else
    let q := SF2Prim (SFdiv prec emax (sf a) (sf b)) in
    if PrimFloat.is_infinity q then None else Some q.

(** [min(a, b)] of the builtins: [b] when [b < a], else [a]. *)
Definition min (a b : float) : float :=
  if PrimFloat.ltb b a then b else a.

(** [len(l)] as an integer. *)
Definition len {A} (l : list A) : Z := Z.of_nat (length l).

(** [l[:n]]. *)
Definition slice_to {A} (n : nat) (l : list A) : list A := take n l.

(** [0 <= x <= 1] on floats. *)
Definition in_unit (x : float) : bool :=
  PrimFloat.leb 0 x && PrimFloat.leb x 1.

End Py.

(** ** normalizer.py *)

Definition SPEC_VERSION : string := "1.0".

Module EventType.
Definition COPILOT_PROMPT : string := "copilot.prompt".
Definition COPILOT_COMPLETION : string := "copilot.completion".
Definition COPILOT_ERROR : string := "copilot.error".
Definition COPILOT_BURST_START : string := "copilot.burst_start".
Definition COPILOT_BURST_END : string := "copilot.burst_end".
Definition AG_TASK_CREATED : string := "antigravity.task.created".
Definition AG_TASK_UPDATED : string := "antigravity.task.updated".
Definition AG_TASK_PROGRESS : string := "antigravity.task.progress".
Definition AG_TASK_COMPLETED : string := "antigravity.task.completed".
Definition AG_TASK_FAILED : string := "antigravity.task.failed".
Definition AG_TASK_WALKTHROUGH : string := "antigravity.task.walkthrough_added".
Definition AG_TASK_PLAN_READY : string := "antigravity.task.plan_ready".
Definition AG_TASK_ITERATED : string := "antigravity.task.iterated".
Definition AG_SKILL_UPDATED : string := "antigravity.skill.updated".
Definition AG_ARTIFACT_UNKNOWN : string := "antigravity.artifact.unknown".
Definition GIT_COMMIT : string := "git.commit".
Definition GIT_COMMIT_LINKED : string := "git.commit_linked_to_task".
Definition FS_BATCH_MODIFIED : string := "filesystem.batch_modified".
Definition WORKFLOW_TASK_INFERRED : string := "workflow.task_inferred".
Definition WORKFLOW_ACTIVITY_CLUSTERED : string := "workflow.activity_clustered".
Definition WORKFLOW_CONFLICT_DETECTED : string := "workflow.conflict_detected".
End EventType.

Record FileChange := {
  path : string;
  change_type : string;
  size_bytes : option Z;
}.

(** The fields of the dataclass that the core reads or writes.  Left out:
    [event_version], [task_status], [iteration], [artifact_type],
    [artifact_path], [model], [raw] (never touched by the core) and
    [summary] (a rendering of values already carried by other fields). *)
Record WorkflowEvent := {
  id : string;
  spec_version : string;
  source : string;
  event_type : string;
  timestamp : string;
  hostname : option string;
  workspace_id : option string;
  confidence : float;
  task_id : option string;
  task_title : option string;
  external_ref : option string;
  tokens_prompt : option Z;
  tokens_completion : option Z;
  burst_id : option string;
  burst_token_total : option Z;
  burst_duration_secs : option float;
  burst_entry_count : option Z;
  files_changed : option (list FileChange);
  workspace_root : option string;
  git_commit_sha : option string;
  git_branch : option string;
  correlated_events : option (list string);
  correlation_type : option string;
}.

(** What [WorkflowEvent.make] draws from its environment. *)
Record MakeEnv := {
  env_uuid : string;
  env_utcnow : string;
  env_hostname : string;
  env_cwd : string;
  env_sha256_hex : string -> string;
}.

(** The keyword arguments the core passes to [make]; an absent keyword
    leaves the dataclass default. *)
Record MakeArgs := {
  kw_confidence : float;
  kw_task_id : option string;
  kw_task_title : option string;
  kw_burst_id : option string;
  kw_burst_token_total : option Z;
  kw_burst_duration_secs : option float;
  kw_burst_entry_count : option Z;
  kw_files_changed : option (list FileChange);
  kw_workspace_root : option string;
  kw_git_commit_sha : option string;
  kw_git_branch : option string;
  kw_correlated_events : option (list string);
  kw_correlation_type : option string;
}.

Module WorkflowEvent_.

(** [WorkflowEvent.make(source, event_type, **kwargs)]. *)
Definition make (env : MakeEnv) (src ety : string) (kw : MakeArgs) : WorkflowEvent :=
  let ws_root :=
    if Py.truthy_str (kw_workspace_root kw)
    then default "" (kw_workspace_root kw) else env_cwd env in
  let wsid := String.substring 0 12 (env_sha256_hex env ws_root) in
  let ext :=
    if Py.truthy_str (kw_task_id kw)
    then Some (String.append wsid (String.append ":" (default "" (kw_task_id kw))))
    else None in
  {| id := env_uuid env;
     spec_version := SPEC_VERSION;
     source := src;
     event_type := ety;
     timestamp := env_utcnow env;
     hostname := Some (env_hostname env);
     workspace_id := Some wsid;
     confidence := kw_confidence kw;
     task_id := kw_task_id kw;
     task_title := kw_task_title kw;
     external_ref := ext;
     tokens_prompt := None;
     tokens_completion := None;
     burst_id := kw_burst_id kw;
     burst_token_total := kw_burst_token_total kw;
     burst_duration_secs := kw_burst_duration_secs kw;
     burst_entry_count := kw_burst_entry_count kw;
     files_changed := kw_files_changed kw;
     workspace_root := kw_workspace_root kw;
     git_commit_sha := kw_git_commit_sha kw;
     git_branch := kw_git_branch kw;
     correlated_events := kw_correlated_events kw;
     correlation_type := kw_correlation_type kw |}.

(** In-place writes of the scorer, the burst detector and the correlator. *)
Definition set_confidence (c : float) (e : WorkflowEvent) : WorkflowEvent :=
  {| id := id e; spec_version := spec_version e; source := source e;
     event_type := event_type e; timestamp := timestamp e;
     hostname := hostname e; workspace_id := workspace_id e;
     confidence := c;
     task_id := task_id e; task_title := task_title e;
     external_ref := external_ref e;
     tokens_prompt := tokens_prompt e; tokens_completion := tokens_completion e;
     burst_id := burst_id e; burst_token_total := burst_token_total e;
     burst_duration_secs := burst_duration_secs e;
     burst_entry_count := burst_entry_count e;
     files_changed := files_changed e; workspace_root := workspace_root e;
     git_commit_sha := git_commit_sha e; git_branch := git_branch e;
     correlated_events := correlated_events e;
     correlation_type := correlation_type e |}.

Definition set_burst (bid : option string) (tot cnt : Z) (e : WorkflowEvent) : WorkflowEvent :=
  {| id := id e; spec_version := spec_version e; source := source e;
     event_type := event_type e; timestamp := timestamp e;
     hostname := hostname e; workspace_id := workspace_id e;
     confidence := confidence e;
     task_id := task_id e; task_title := task_title e;
     external_ref := external_ref e;
     tokens_prompt := tokens_prompt e; tokens_completion := tokens_completion e;
     burst_id := bid; burst_token_total := Some tot;
     burst_duration_secs := burst_duration_secs e;
     burst_entry_count := Some cnt;
     files_changed := files_changed e; workspace_root := workspace_root e;
     git_commit_sha := git_commit_sha e; git_branch := git_branch e;
     correlated_events := correlated_events e;
     correlation_type := correlation_type e |}.

Definition set_link (tid ttitle : option string) (cty : string) (linked : list string)
    (e : WorkflowEvent) : WorkflowEvent :=
  {| id := id e; spec_version := spec_version e; source := source e;
     event_type := event_type e; timestamp := timestamp e;
     hostname := hostname e; workspace_id := workspace_id e;
     confidence := confidence e;
     task_id := tid; task_title := ttitle;
     external_ref := external_ref e;
     tokens_prompt := tokens_prompt e; tokens_completion := tokens_completion e;
     burst_id := burst_id e; burst_token_total := burst_token_total e;
     burst_duration_secs := burst_duration_secs e;
     burst_entry_count := burst_entry_count e;
     files_changed := files_changed e; workspace_root := workspace_root e;
     git_commit_sha := git_commit_sha e; git_branch := git_branch e;
     correlated_events := Some linked;
     correlation_type := Some cty |}.

End WorkflowEvent_.

(** ** Sliding windows

    Every window is a deque of pairs whose first component is the clock
    reading at insertion.  All eviction loops of the source have the shape
    [while w and (now - w[0][0]) > max_age: w.popleft()]. *)

Fixpoint evict {A} (now max_age : float) (w : list (float * A)) : list (float * A) :=
  match w with
  | [] => []
  | (t, x) :: rest =>
      if (max_age <? now - t)%float then evict now max_age rest else w
  end.

(** ** burst_detector.py: FileBurstDetector *)

Module FileBurstDetector.

Record t := {
  window_secs : float;
  threshold : Z;
  _recent : list (float * string);
}.

(** [__init__(window_secs=5, threshold=3)]. *)
Definition init (window_secs : float) (threshold : Z) : t :=
  {| window_secs := window_secs; threshold := threshold; _recent := [] |}.

Definition defaults : t := init 5%float 3.

Definition with_recent (r : list (float * string)) (d : t) : t :=
  {| window_secs := window_secs d; threshold := threshold d; _recent := r |}.

Definition observe (now : float) (env : MakeEnv) (p : string) (workspace_root : option string)
    (d : t) : option WorkflowEvent * t :=
  let recent := evict now (window_secs d) (_recent d ++ [(now, p)]) in
  if bool_decide (Py.len recent >= threshold d) then
    let paths_in_window := map snd recent in
    (Some (WorkflowEvent_.make env "filesystem" EventType.FS_BATCH_MODIFIED
             {| kw_confidence := 0.4%float;
                kw_task_id := None; kw_task_title := None;
                kw_burst_id := None; kw_burst_token_total := None;
                kw_burst_duration_secs := None; kw_burst_entry_count := None;
                kw_files_changed :=
                  Some (map (fun p => {| path := p; change_type := "modified";
                                         size_bytes := None |}) paths_in_window);
                kw_workspace_root := workspace_root;
                kw_git_commit_sha := None; kw_git_branch := None;
                kw_correlated_events := None; kw_correlation_type := None |}),
     with_recent [] d)
  else (None, with_recent recent d).

End FileBurstDetector.

(** ** burst_detector.py: CopilotBurstDetector *)

Module CopilotBurstDetector.

(** A window entry: (monotonic time, (tokens_prompt, tokens_completion, event id)). *)
Definition entry : Type := float * (Z * Z * string).

Record t := {
  window_secs : float;
  token_threshold : Z;
  count_threshold : Z;
  _window : list entry;
  _active_burst_id : option string;
  _burst_start_time : option float;
  _burst_token_total : Z;
  _burst_entry_count : Z;
}.

(** [__init__(window_secs=120.0, token_threshold=500, count_threshold=5)]. *)
Definition init (window_secs : float) (token_threshold count_threshold : Z) : t :=
  {| window_secs := window_secs;
     token_threshold := token_threshold;
     count_threshold := count_threshold;
     _window := [];
     _active_burst_id := None;
     _burst_start_time := None;
     _burst_token_total := 0;
     _burst_entry_count := 0 |}.

Definition defaults : t := init 120%float 500 5.

(** [sum(tp + tc for _, tp, tc, _ in self._window)]. *)
Definition window_tokens (w : list entry) : Z :=
  fold_left (fun acc (x : entry) => let '(_, (tp, tc, _)) := x in acc + (tp + tc)) w 0.

Definition window_count (w : list entry) : Z := Py.len w.

(** The trigger condition computed by [observe]. *)
Definition trigger (d : t) (w : list entry) : bool :=
  bool_decide (window_tokens w >= token_threshold d)
  || bool_decide (window_count w >= count_threshold d).

Definition is_in_burst (d : t) : bool :=
  match _active_burst_id d with Some _ => true | None => false end.

Definition active_burst_id (d : t) : option string := _active_burst_id d.

Definition burst_event (env : MakeEnv) (ety : string) (bid : option string)
    (tot : Z) (dur : option float) (cnt : Z) : WorkflowEvent :=
  WorkflowEvent_.make env "copilot" ety
    {| kw_confidence := 0.4%float;
       kw_task_id := None; kw_task_title := None;
       kw_burst_id := bid; kw_burst_token_total := Some tot;
       kw_burst_duration_secs := dur; kw_burst_entry_count := Some cnt;
       kw_files_changed := None; kw_workspace_root := None;
       kw_git_commit_sha := None; kw_git_branch := None;
       kw_correlated_events := None; kw_correlation_type := None |}.

(** [observe(event)].  [uid] is the [uuid4] drawn for a new burst; the
    result is the emitted list, the (annotated) input event and the new
    detector. *)
Definition observe (now : float) (uid : string) (env : MakeEnv) (event : WorkflowEvent)
    (d : t) : list WorkflowEvent * WorkflowEvent * t :=
  let w := evict now (window_secs d)
             (_window d ++ [(now, (Py.or_int (tokens_prompt event) 0,
                                   Py.or_int (tokens_completion event) 0,
                                   id event))]) in
  let wt := window_tokens w in
  let wc := window_count w in
  let in_burst := bool_decide (wt >= token_threshold d)
                  || bool_decide (wc >= count_threshold d) in
  let '(emitted, d') :=
    match in_burst, _active_burst_id d with
    | true, None =>
        ([burst_event env EventType.COPILOT_BURST_START (Some uid) wt None wc],
         {| window_secs := window_secs d; token_threshold := token_threshold d;
            count_threshold := count_threshold d; _window := w;
            _active_burst_id := Some uid; _burst_start_time := Some now;
            _burst_token_total := wt; _burst_entry_count := wc |})
    | true, Some bid =>
        ([],
         {| window_secs := window_secs d; token_threshold := token_threshold d;
            count_threshold := count_threshold d; _window := w;
            _active_burst_id := Some bid; _burst_start_time := _burst_start_time d;
            _burst_token_total := wt; _burst_entry_count := wc |})
    | false, Some bid =>
        let duration := (now - Py.or_float (_burst_start_time d) now)%float in
        ([burst_event env EventType.COPILOT_BURST_END (Some bid)
            (_burst_token_total d) (Some (Py.round1 duration)) (_burst_entry_count d)],
         {| window_secs := window_secs d; token_threshold := token_threshold d;
            count_threshold := count_threshold d; _window := w;
            _active_burst_id := None; _burst_start_time := None;
            _burst_token_total := 0; _burst_entry_count := 0 |})
    | false, None =>
        ([],
         {| window_secs := window_secs d; token_threshold := token_threshold d;
            count_threshold := count_threshold d; _window := w;
            _active_burst_id := None; _burst_start_time := _burst_start_time d;
            _burst_token_total := _burst_token_total d;
            _burst_entry_count := _burst_entry_count d |})
    end in
  let event' :=
    if Py.truthy_str (_active_burst_id d')
    then WorkflowEvent_.set_burst (_active_burst_id d')
           (_burst_token_total d') (_burst_entry_count d') event
    else event in
  (emitted, event', d').

(** [flush()].  [clk 0] is the reading on the left of the subtraction,
    [clk 1] the one taken when [_burst_start_time] is falsy. *)
Definition flush (clk : nat -> float) (env : MakeEnv) (d : t) : option WorkflowEvent * t :=
  match _active_burst_id d with
  | None => (None, d)
  | Some bid =>
      let duration := (clk 0%nat - Py.or_float (_burst_start_time d) (clk 1%nat))%float in
      (Some (burst_event env EventType.COPILOT_BURST_END (Some bid)
               (_burst_token_total d) (Some (Py.round1 duration)) (_burst_entry_count d)),
       {| window_secs := window_secs d; token_threshold := token_threshold d;
          count_threshold := count_threshold d; _window := _window d;
          _active_burst_id := None; _burst_start_time := None;
          _burst_token_total := _burst_token_total d;
          _burst_entry_count := _burst_entry_count d |})
  end.

End CopilotBurstDetector.

(** ** confidence.py *)

Module ConfidenceScorer.

Definition FS_PROXIMITY_SECS : float := 30%float.
Definition GIT_PROXIMITY_SECS : float := 120%float.
Definition TASK_PROXIMITY_SECS : float := 300%float.

Definition BASE : float := 0.2%float.
Definition BURST_BONUS : float := 0.2%float.
Definition FS_PROXIMITY_BONUS : float := 0.2%float.
Definition GIT_PROXIMITY_BONUS : float := 0.2%float.
Definition TASK_CONTEXT_BONUS : float := 0.2%float.

(** Recency windows of (monotonic time, reference). *)
Record t := {
  _recent_fs : list (float * string);
  _recent_git : list (float * string);
  _recent_tasks : list (float * string);
}.

Definition init : t := {| _recent_fs := []; _recent_git := []; _recent_tasks := [] |}.

Definition nonempty {A} (w : list A) : bool :=
  match w with [] => false | _ :: _ => true end.

Definition record_signal (now : float) (event : WorkflowEvent) (s : t) : t :=
  if bool_decide (source event = "filesystem")
     || bool_decide (event_type event = EventType.FS_BATCH_MODIFIED) then
    {| _recent_fs := _recent_fs s ++ [(now, id event)];
       _recent_git := _recent_git s; _recent_tasks := _recent_tasks s |}
  else if bool_decide (source event = "git")
          || bool_decide (event_type event = EventType.GIT_COMMIT) then
    {| _recent_fs := _recent_fs s;
       _recent_git := _recent_git s ++ [(now, id event)];
       _recent_tasks := _recent_tasks s |}
  else if bool_decide (source event = "antigravity") && Py.truthy_str (task_id event) then
    {| _recent_fs := _recent_fs s; _recent_git := _recent_git s;
       _recent_tasks := _recent_tasks s ++ [(now, default "" (task_id event))] |}
  else s.

Definition _score_antigravity (event : WorkflowEvent) : float :=
  if bool_decide (event_type event = EventType.AG_TASK_COMPLETED)
     || bool_decide (event_type event = EventType.AG_TASK_WALKTHROUGH) then 1.0%float
  else if bool_decide (event_type event = EventType.AG_TASK_CREATED)
          || bool_decide (event_type event = EventType.AG_TASK_PLAN_READY) then 0.9%float
  else if bool_decide (event_type event = EventType.AG_TASK_FAILED) then 0.9%float
  else if bool_decide (event_type event = EventType.AG_ARTIFACT_UNKNOWN) then 0.3%float
  else 0.8%float.

(** [for _, tid in self._recent_tasks: if tid == event.task_id: return ...] *)
Definition task_known (tid : option string) (w : list (float * string)) : bool :=
  existsb (fun x : float * string => bool_decide (Some (snd x) = tid)) w.

Definition _score_git (clk : nat -> float) (event : WorkflowEvent) (s : t) : float * t :=
  let base := 0.6%float in
  let '(hit, tasks1, next) :=
    if Py.truthy_str (task_id event) then
      let w := evict (clk 0%nat) TASK_PROXIMITY_SECS (_recent_tasks s) in
      (task_known (task_id event) w, w, 1%nat)
    else (false, _recent_tasks s, 0%nat) in
  if hit then
    (Py.min 1.0 (base + TASK_CONTEXT_BONUS),
     {| _recent_fs := _recent_fs s; _recent_git := _recent_git s;
        _recent_tasks := tasks1 |})
  else
    let tasks2 := evict (clk next) TASK_PROXIMITY_SECS tasks1 in
    let base := if nonempty tasks2 then (base + 0.1)%float else base in
    (Py.min 1.0 base,
     {| _recent_fs := _recent_fs s; _recent_git := _recent_git s;
        _recent_tasks := tasks2 |}).

Definition _score_copilot (clk : nat -> float) (event : WorkflowEvent) (s : t) : float * t :=
  let score := BASE in
  let score := if Py.truthy_str (burst_id event) then (score + BURST_BONUS)%float else score in
  let fs := evict (clk 0%nat) FS_PROXIMITY_SECS (_recent_fs s) in
  let score := if nonempty fs then (score + FS_PROXIMITY_BONUS)%float else score in
  let git := evict (clk 1%nat) GIT_PROXIMITY_SECS (_recent_git s) in
  let score := if nonempty git then (score + GIT_PROXIMITY_BONUS)%float else score in
  if Py.truthy_str (task_id event) then
    (Py.min 1.0 (score + TASK_CONTEXT_BONUS),
     {| _recent_fs := fs; _recent_git := git; _recent_tasks := _recent_tasks s |})
  else
    let tasks := evict (clk 2%nat) TASK_PROXIMITY_SECS (_recent_tasks s) in
    let score :=
      if nonempty tasks then (score + TASK_CONTEXT_BONUS * 0.5)%float else score in
    (Py.min 1.0 score,
     {| _recent_fs := fs; _recent_git := git; _recent_tasks := tasks |}).

Definition _score_filesystem (clk : nat -> float) (event : WorkflowEvent) (s : t) : float * t :=
  let base := 0.4%float in
  let tasks := evict (clk 0%nat) TASK_PROXIMITY_SECS (_recent_tasks s) in
  let base := if nonempty tasks then (base + 0.2)%float else base in
  let git := evict (clk 1%nat) GIT_PROXIMITY_SECS (_recent_git s) in
  let base := if nonempty git then (base + 0.1)%float else base in
  (Py.min 1.0 base,
   {| _recent_fs := _recent_fs s; _recent_git := git; _recent_tasks := tasks |}).

(** [score(event)]: the value returned and the windows as the evictions
    left them. *)
Definition score (clk : nat -> float) (event : WorkflowEvent) (s : t) : float * t :=
  if bool_decide (source event = "antigravity") then (_score_antigravity event, s)
  else if bool_decide (source event = "git") then _score_git clk event s
  else if bool_decide (source event = "copilot") then _score_copilot clk event s
  else if bool_decide (source event = "filesystem") then _score_filesystem clk event s
  else (confidence event, s).

(** [score_and_record(event)]: [clk] serves the readings of [score],
    [now_rec] is the reading of [record_signal]. *)
Definition score_and_record (clk : nat -> float) (now_rec : float) (event : WorkflowEvent) (s : t)
    : WorkflowEvent * t :=
  let '(c, s1) := score clk event s in
  let event' := WorkflowEvent_.set_confidence c event in
  (event', record_signal now_rec event' s1).

End ConfidenceScorer.

(** ** correlator.py *)

Module TemporalCorrelator.

Definition MAX_EVENTS : Z := 200.

(** Sliding windows of (monotonic time, event).  Entries are values: the
    annotation that [_correlate_commit] writes on a commit is returned as
    the annotated commit and not threaded into the entry of that commit
    in [_commits].  Window entries are read for [source] and [id]
    (clustering) and, in [_tasks] only, for [task_id], [task_title] and
    [files_changed] (linking); the annotation writes none of these on a
    task entry unless one event is both a recorded planning task and a
    commit. *)
Record t := {
  TASK_COMMIT_WINDOW : float;
  CLUSTER_WINDOW : float;
  _tasks : list (float * WorkflowEvent);
  _commits : list (float * WorkflowEvent);
  _fs_events : list (float * WorkflowEvent);
  _copilot_events : list (float * WorkflowEvent);
}.

(** [__init__(task_commit_window=300.0, cluster_window=180.0)]. *)
Definition init (task_commit_window cluster_window : float) : t :=
  {| TASK_COMMIT_WINDOW := task_commit_window;
     CLUSTER_WINDOW := cluster_window;
     _tasks := []; _commits := []; _fs_events := []; _copilot_events := [] |}.

Definition defaults : t := init 300%float 180%float.

Definition with_windows (tasks commits fs cop : list (float * WorkflowEvent)) (c : t) : t :=
  {| TASK_COMMIT_WINDOW := TASK_COMMIT_WINDOW c;
     CLUSTER_WINDOW := CLUSTER_WINDOW c;
     _tasks := tasks; _commits := commits; _fs_events := fs; _copilot_events := cop |}.

(** [w.append(entry); if len(w) > MAX_EVENTS: w.popleft()]. *)
Definition push (x : float * WorkflowEvent) (w : list (float * WorkflowEvent))
    : list (float * WorkflowEvent) :=
  let w' := w ++ [x] in
  if bool_decide (Py.len w' > MAX_EVENTS) then tail w' else w'.

Definition _evict_all (now max_age : float) (c : t) : t :=
  with_windows (evict now max_age (_tasks c)) (evict now max_age (_commits c))
               (evict now max_age (_fs_events c)) (evict now max_age (_copilot_events c)) c.

Definition record (now : float) (event : WorkflowEvent) (c : t) : t :=
  if bool_decide (source event = "antigravity") && Py.truthy_str (task_id event) then
    with_windows (push (now, event) (_tasks c)) (_commits c) (_fs_events c)
                 (_copilot_events c) c
  else if bool_decide (source event = "git") then
    with_windows (_tasks c) (push (now, event) (_commits c)) (_fs_events c)
                 (_copilot_events c) c
  else if bool_decide (source event = "filesystem") then
    with_windows (_tasks c) (_commits c) (push (now, event) (_fs_events c))
                 (_copilot_events c) c
  else if bool_decide (source event = "copilot") then
    with_windows (_tasks c) (_commits c) (_fs_events c)
                 (push (now, event) (_copilot_events c)) c
  else c.

(** [{"task_match": 1.0, "file_overlap": 0.8, "time_proximity": 0.5}.get(t, 0.3)]. *)
Definition _link_confidence (correlation_type : string) : float :=
  if bool_decide (correlation_type = "task_match") then 1.0%float
  else if bool_decide (correlation_type = "file_overlap") then 0.8%float
  else if bool_decide (correlation_type = "time_proximity") then 0.5%float
  else 0.3%float.

(** [{f.path for f in files}]. *)
Definition path_set (files : list FileChange) : gset string :=
  list_to_set (map path files).

(** Strategy 1: the most recent task whose id equals the commit's. *)
Definition find_task_match (commit : WorkflowEvent) (tasks : list (float * WorkflowEvent))
    : option WorkflowEvent :=
  if Py.truthy_str (task_id commit) then
    snd <$> find (fun x : float * WorkflowEvent =>
                    bool_decide (task_id (snd x) = task_id commit))
                 (reverse tasks)
  else None.

(** Strategy 2: the most recent task whose changed files meet the commit's. *)
Definition find_file_overlap (commit : WorkflowEvent) (tasks : list (float * WorkflowEvent))
    : option WorkflowEvent :=
  if Py.truthy_list (files_changed commit) then
    let commit_files := path_set (default [] (files_changed commit)) in
    snd <$> find (fun x : float * WorkflowEvent =>
                    Py.truthy_list (files_changed (snd x))
                    && bool_decide (commit_files ∩ path_set (default [] (files_changed (snd x))) ≠ ∅))
                 (reverse tasks)
  else None.

(** The choice made by [_correlate_commit] on a non-empty task window;
    [last_task] is [self._tasks[-1]]. *)
Definition choose_task (commit : WorkflowEvent) (tasks : list (float * WorkflowEvent))
    (last_task : WorkflowEvent) : WorkflowEvent * string :=
  match find_task_match commit tasks with
  | Some tk => (tk, "task_match")
  | None =>
      match find_file_overlap commit tasks with
      | Some tk => (tk, "file_overlap")
      | None => (last_task, "time_proximity")
      end
  end.

(** [_correlate_commit(commit)]: the derived link event, the annotated
    commit and the correlator with its task window evicted. *)
Definition _correlate_commit (now : float) (env : MakeEnv) (commit : WorkflowEvent) (c : t)
    : option WorkflowEvent * WorkflowEvent * t :=
  let tasks := evict now (TASK_COMMIT_WINDOW c) (_tasks c) in
  let c' := with_windows tasks (_commits c) (_fs_events c) (_copilot_events c) c in
  match last tasks with
  | None => (None, commit, c')
  | Some (_, last_task) =>
      let '(best_task, best_type) := choose_task commit tasks last_task in
      let commit' :=
        WorkflowEvent_.set_link (task_id best_task) (task_title best_task)
          best_type [id best_task] commit in
      (Some (WorkflowEvent_.make env "git" EventType.GIT_COMMIT_LINKED
               {| kw_confidence := _link_confidence best_type;
                  kw_task_id := task_id best_task;
                  kw_task_title := task_title best_task;
                  kw_burst_id := None; kw_burst_token_total := None;
                  kw_burst_duration_secs := None; kw_burst_entry_count := None;
                  kw_files_changed := None; kw_workspace_root := None;
                  kw_git_commit_sha := git_commit_sha commit';
                  kw_git_branch := git_branch commit';
                  kw_correlated_events := Some [id commit'; id best_task];
                  kw_correlation_type := Some best_type |}),
       commit', c')
  end.

Definition window_events (c : t) : list WorkflowEvent :=
  map snd (_tasks c ++ _commits c ++ _fs_events c ++ _copilot_events c).

(** [_check_cluster(trigger)]: the derived cluster event, if any, and the
    correlator with all four windows evicted. *)
Definition _check_cluster (now : float) (env : MakeEnv) (trigger : WorkflowEvent) (c : t)
    : option WorkflowEvent * t :=
  let c' := _evict_all now (CLUSTER_WINDOW c) c in
  let sources : gset string := list_to_set (map source (window_events c')) in
  let event_ids := map id (window_events c') in
  if bool_decide (size sources < 3)%nat then (None, c')
  else if bool_decide (source trigger ∉ sources) then (None, c')
  else
    (Some (WorkflowEvent_.make env "agent" EventType.WORKFLOW_ACTIVITY_CLUSTERED
             {| kw_confidence := 0.7%float;
                kw_task_id := None; kw_task_title := None;
                kw_burst_id := None; kw_burst_token_total := None;
                kw_burst_duration_secs := None; kw_burst_entry_count := None;
                kw_files_changed := None; kw_workspace_root := None;
                kw_git_commit_sha := None; kw_git_branch := None;
                kw_correlated_events := Some (Py.slice_to 50 event_ids);
                kw_correlation_type := Some "temporal_cluster" |}),
     c').

Definition opt_to_list {A} (o : option A) : list A :=
  match o with Some x => [x] | None => [] end.

(** [correlate(event)]: [now_link] and [env_link] serve the linking step,
    [now_cluster] and [env_cluster] the cluster check. *)
Definition correlate (now_link now_cluster : float) (env_link env_cluster : MakeEnv)
    (event : WorkflowEvent) (c : t) : list WorkflowEvent * WorkflowEvent * t :=
  let '(linked, event1, c1) :=
    if bool_decide (event_type event = EventType.GIT_COMMIT)
    then _correlate_commit now_link env_link event c
    else (None, event, c) in
  let '(cluster, c2) := _check_cluster now_cluster env_cluster event1 c1 in
  (opt_to_list linked ++ opt_to_list cluster, event1, c2).

End TemporalCorrelator.

(** ** Binary64 on one integer scale

    The readings of the clock and the horizons are binary64 floats; the
    standard library specifies their operations on [spec_float].  Every
    finite binary64 value is an integer multiple of [2 ^ -1074]: [rank]
    is that integer, the infinities sit at [± huge], and [round_rank] is
    rounding to nearest, ties to even, on that scale. *)

Module Binary64.

(** The last step of a rounding: overflow to infinity. *)
Definition finish (s : bool) (m e : Z) : spec_float :=
  match m with
  | Z0 => S754_zero s
  | Z.pos p => if e <=? emax - prec then S754_finite s p e else S754_infinity s
  | Z.neg _ => S754_nan
  end.

(** Rounding of [m * 2 ^ e] for a mantissa [0 < m] and [emin <= e]. *)
Definition round_pos (s : bool) (m e : Z) : spec_float :=
  let d := Zdigits2 m in
  if d <=? prec then
    finish s (m * 2 ^ (e - fexp prec emax (d + e))) (fexp prec emax (d + e))
  else
    let n := d - prec in
    let q := Py.half_even m (2 ^ n) in
    if q =? 2 ^ prec then finish s (2 ^ (prec - 1)) (e + n + 1) else finish s q (e + n).

Definition huge : Z := 2 ^ 2098.

Definition rank (x : spec_float) : Z :=
  match x with
  | S754_zero _ | S754_nan => 0
  | S754_infinity s => cond_Zopp s huge
  | S754_finite s m e => cond_Zopp s (Z.pos m * 2 ^ (e + 1074))
  end.

Definition is_nan (x : spec_float) : bool :=
  match x with S754_nan => true | _ => false end.

Definition is_fin (x : spec_float) : bool :=
  match x with S754_zero _ | S754_finite _ _ _ => true | _ => false end.

(** Round to nearest, ties to even, keeping 53 significant bits. *)
Definition nearest (w : Z) : Z :=
  let d := Zdigits2 w in
  if d <=? 53 then w else Py.half_even w (2 ^ (d - 53)) * 2 ^ (d - 53).

Definition round_rank (w : Z) : Z :=
  match w with
  | Z0 => 0
  | Z.pos _ => Z.min (nearest w) huge
  | Z.neg p => - Z.min (nearest (Z.pos p)) huge
  end.

End Binary64.

(** * Runs and reference definitions *)

(** ** Ages as the code measures them *)

(** The test of every eviction loop: [(now - t) > max_age] on binary64. *)
Definition stale (now max_age t : float) : bool := (max_age <? now - t)%float.

(** The entries that the test does not call stale at [now]. *)
Definition fresh {A} (now max_age : float) (w : list (float * A)) : list (float * A) :=
  filter (λ x, stale now max_age x.1 = false) w.

(** The readings of a clock that never goes back, as [time.monotonic()]
    is: each entry carries a reading that is [<=] the next one's. *)
Definition clock_ordered {A} (w : list (float * A)) : Prop :=
  Sorted (λ x y, (x.1 <=? y.1)%float = true) w.

(** At [now] no stale entry of the window comes after a fresh one.  The
    loops stop at the first fresh entry; on a window of this kind that
    leaves no stale entry behind.  A [clock_ordered] window is of this
    kind at every reading, binary64 subtraction and comparison keeping
    the order. *)
Definition age_closed {A} (now max_age : float) (w : list (float * A)) : Prop :=
  StronglySorted (λ x y, stale now max_age y.1 = true → stale now max_age x.1 = true) w.

(** Observations whose ages are in the order of their arrival, [past]
    being the ones made before: at each observation the window of all
    observations so far is [age_closed], and what the test called stale
    at the observation before it still calls stale. *)
Fixpoint ages_ordered {A} (max_age : float) (past obs : list (float * A)) : Prop :=
  match obs with
  | [] => True
  | o :: rest =>
      age_closed o.1 max_age (past ++ [o])
      ∧ match last past with
        | Some prev =>
            Forall (λ y, stale prev.1 max_age y.1 = true → stale o.1 max_age y.1 = true) past
        | None => True
        end
      ∧ ages_ordered max_age (past ++ [o]) rest
  end.


(** ** File burst detector *)

(** One call [observe(path, workspace_root)] with what it draws from its
    environment. *)
Record FileObs := {
  fo_now : float;
  fo_env : MakeEnv;
  fo_path : string;
  fo_root : option string;
}.

Definition fo_entry (o : FileObs) : float * string := (fo_now o, fo_path o).

(** The results and detector states of successive [observe] calls. *)
Fixpoint file_run (d : FileBurstDetector.t) (obs : list FileObs)
    : list (option WorkflowEvent * FileBurstDetector.t) :=
  match obs with
  | [] => []
  | o :: rest =>
      let r := FileBurstDetector.observe (fo_now o) (fo_env o) (fo_path o) (fo_root o) d in
      r :: file_run r.2 rest
  end.

(** The paths carried by a returned event. *)
Definition fired_paths (r : option WorkflowEvent) : option (list string) :=
  (λ ev, map path (default [] (files_changed ev))) <$> r.

(** Reference for the detector, after the specification: [pending] holds
    the observations not consumed by a prior fire; an observation fires
    exactly when the number of pending observations within the trailing
    window reaches the threshold, and the fire carries all of them. *)
Fixpoint spec_file_fires (window : float) (thr : Z) (pending : list (float * string))
    (obs : list (float * string)) : list (option (list string)) :=
  match obs with
  | [] => []
  | (now, p) :: rest =>
      let pending' := pending ++ [(now, p)] in
      let in_window := filter (λ x, stale now window x.1 = false) pending' in
      if bool_decide (Py.len in_window >= thr)
      then Some (map snd in_window) :: spec_file_fires window thr [] rest
      else None :: spec_file_fires window thr pending' rest
  end.


(** ** Sample inputs used by the scenarios *)

(** An environment for [make]: the event id is given, the digest is a
    stand-in (no property depends on it). *)
Definition sample_env (uuid : string) : MakeEnv :=
  {| env_uuid := uuid;
     env_utcnow := "2026-01-01T00:00:00+00:00";
     env_hostname := "devbox";
     env_cwd := "/ws";
     env_sha256_hex := λ root, String.append "0123456789abcdef" root |}.

(** Five paths observed one second apart. *)
Definition five_paths : list FileObs :=
  [ {| fo_now := 1%float; fo_env := sample_env "ev-1"; fo_path := "a.py"; fo_root := Some "/ws" |};
    {| fo_now := 2%float; fo_env := sample_env "ev-2"; fo_path := "b.py"; fo_root := Some "/ws" |};
    {| fo_now := 3%float; fo_env := sample_env "ev-3"; fo_path := "c.py"; fo_root := Some "/ws" |};
    {| fo_now := 3%float; fo_env := sample_env "ev-4"; fo_path := "d.py"; fo_root := Some "/ws" |};
    {| fo_now := 3%float; fo_env := sample_env "ev-5"; fo_path := "e.py"; fo_root := Some "/ws" |} ].


(** ** Completion burst detector *)

(** One call [observe(event)] with what it draws from its environment. *)
Record CopilotObs := {
  co_now : float;
  co_uid : string;
  co_env : MakeEnv;
  co_event : WorkflowEvent;
}.

(** One step of a run: the detector before, what [observe] returned, the
    input event as annotated, and the detector after. *)
Record CopilotStep := {
  cs_before : CopilotBurstDetector.t;
  cs_emitted : list WorkflowEvent;
  cs_event : WorkflowEvent;
  cs_after : CopilotBurstDetector.t;
}.

Definition copilot_step (d : CopilotBurstDetector.t) (o : CopilotObs) : CopilotStep :=
  let r := CopilotBurstDetector.observe (co_now o) (co_uid o) (co_env o) (co_event o) d in
  {| cs_before := d; cs_emitted := r.1.1; cs_event := r.1.2; cs_after := r.2 |}.

Fixpoint copilot_run (d : CopilotBurstDetector.t) (obs : list CopilotObs) : list CopilotStep :=
  match obs with
  | [] => []
  | o :: rest =>
      let s := copilot_step d o in
      s :: copilot_run (cs_after s) rest
  end.

(** The detector after a run. *)
Definition copilot_final (d : CopilotBurstDetector.t) (obs : list CopilotObs)
    : CopilotBurstDetector.t :=
  fold_left (λ d o, cs_after (copilot_step d o)) obs d.

(** The trigger condition, as the specification words it. *)
Definition burst_condition (d : CopilotBurstDetector.t) : Prop :=
  CopilotBurstDetector.window_tokens (CopilotBurstDetector._window d)
    >= CopilotBurstDetector.token_threshold d
  ∨ CopilotBurstDetector.window_count (CopilotBurstDetector._window d)
    >= CopilotBurstDetector.count_threshold d.

(** What one [observe] call must emit for the transition it makes. *)
Definition transition_events (s : CopilotStep) : Prop :=
  match CopilotBurstDetector.is_in_burst (cs_before s),
        CopilotBurstDetector.is_in_burst (cs_after s) with
  | false, true =>
      ∃ ev, cs_emitted s = [ev]
            ∧ event_type ev = EventType.COPILOT_BURST_START
            ∧ burst_id ev = CopilotBurstDetector.active_burst_id (cs_after s)
  | true, false =>
      ∃ ev, cs_emitted s = [ev]
            ∧ event_type ev = EventType.COPILOT_BURST_END
            ∧ burst_id ev = CopilotBurstDetector.active_burst_id (cs_before s)
  | _, _ => cs_emitted s = []
  end.

(** A completion event with the given id and token counts. *)
Definition completion (i : string) (tp tc : option Z) : WorkflowEvent :=
  {| id := i; spec_version := SPEC_VERSION; source := "copilot";
     event_type := EventType.COPILOT_COMPLETION; timestamp := "2026-01-01T00:00:00+00:00";
     hostname := Some "devbox"; workspace_id := Some "0123456789ab";
     confidence := 0%float; task_id := None; task_title := None;
     external_ref := None; tokens_prompt := tp; tokens_completion := tc;
     burst_id := None; burst_token_total := None; burst_duration_secs := None;
     burst_entry_count := None; files_changed := None; workspace_root := None;
     git_commit_sha := None; git_branch := None; correlated_events := None;
     correlation_type := None |}.

(** Three completions of 10+10 tokens, one second apart. *)
Definition three_completions : list CopilotObs :=
  [ {| co_now := 1%float; co_uid := "burst-1"; co_env := sample_env "ev-1";
       co_event := completion "c-1" (Some 10) (Some 10) |};
    {| co_now := 2%float; co_uid := "burst-2"; co_env := sample_env "ev-2";
       co_event := completion "c-2" (Some 10) (Some 10) |};
    {| co_now := 3%float; co_uid := "burst-3"; co_env := sample_env "ev-3";
       co_event := completion "c-3" (Some 10) (Some 10) |} ].

(** Count threshold 3, token threshold out of reach. *)
Definition count_only_detector : CopilotBurstDetector.t :=
  CopilotBurstDetector.init 120%float 99999 3.


(** ** Confidence scorer *)

(** The sources that have a scoring rule of their own. *)
Definition scored_source (e : WorkflowEvent) : bool :=
  bool_decide (source e = "antigravity") || bool_decide (source e = "git")
  || bool_decide (source e = "copilot") || bool_decide (source e = "filesystem").

(** Successive [record_signal] calls, each with its clock reading. *)
Definition record_all (signals : list (float * WorkflowEvent)) (s : ConfidenceScorer.t)
    : ConfidenceScorer.t :=
  fold_left (λ s x, ConfidenceScorer.record_signal x.1 x.2 s) signals s.

(** Reference for the ai-assist rule, after the specification: base 0.2,
    plus 0.2 for a burst id, plus 0.2 for a non-empty filesystem window,
    plus 0.2 for a non-empty commit window, plus 0.2 for the event's own
    task id, else plus 0.1 for a non-empty task window. *)
Definition spec_ai_assist (has_burst fs_recent commit_recent own_task task_recent : bool)
    : float :=
  (0.2 + (if has_burst then 0.2 else 0)
       + (if fs_recent then 0.2 else 0)
       + (if commit_recent then 0.2 else 0)
       + (if own_task then 0.2 else if task_recent then 0.1 else 0))%float.

(** An event with the given identity and nothing else set. *)
Definition bare_event (i src ety : string) (conf : float) : WorkflowEvent :=
  {| id := i; spec_version := SPEC_VERSION; source := src;
     event_type := ety; timestamp := "2026-01-01T00:00:00+00:00";
     hostname := Some "devbox"; workspace_id := Some "0123456789ab";
     confidence := conf; task_id := None; task_title := None;
     external_ref := None; tokens_prompt := None; tokens_completion := None;
     burst_id := None; burst_token_total := None; burst_duration_secs := None;
     burst_entry_count := None; files_changed := None; workspace_root := None;
     git_commit_sha := None; git_branch := None; correlated_events := None;
     correlation_type := None |}.

(** The event with task id and title as given. *)
Definition with_task (tid : option string) (title : option string) (e : WorkflowEvent)
    : WorkflowEvent :=
  {| id := id e; spec_version := spec_version e; source := source e;
     event_type := event_type e; timestamp := timestamp e;
     hostname := hostname e; workspace_id := workspace_id e;
     confidence := confidence e;
     task_id := tid; task_title := title;
     external_ref := external_ref e;
     tokens_prompt := tokens_prompt e; tokens_completion := tokens_completion e;
     burst_id := burst_id e; burst_token_total := burst_token_total e;
     burst_duration_secs := burst_duration_secs e;
     burst_entry_count := burst_entry_count e;
     files_changed := files_changed e; workspace_root := workspace_root e;
     git_commit_sha := git_commit_sha e; git_branch := git_branch e;
     correlated_events := correlated_events e;
     correlation_type := correlation_type e |}.

(** The event with the burst id as given. *)
Definition with_burst_id (bid : option string) (e : WorkflowEvent) : WorkflowEvent :=
  {| id := id e; spec_version := spec_version e; source := source e;
     event_type := event_type e; timestamp := timestamp e;
     hostname := hostname e; workspace_id := workspace_id e;
     confidence := confidence e;
     task_id := task_id e; task_title := task_title e;
     external_ref := external_ref e;
     tokens_prompt := tokens_prompt e; tokens_completion := tokens_completion e;
     burst_id := bid; burst_token_total := burst_token_total e;
     burst_duration_secs := burst_duration_secs e;
     burst_entry_count := burst_entry_count e;
     files_changed := files_changed e; workspace_root := workspace_root e;
     git_commit_sha := git_commit_sha e; git_branch := git_branch e;
     correlated_events := correlated_events e;
     correlation_type := correlation_type e |}.

(** A completion event that already carries a burst id. *)
Definition bursty_completion : WorkflowEvent :=
  with_burst_id (Some "burst-001")
    (bare_event "c-1" "copilot" EventType.COPILOT_COMPLETION 0).

(** The same event carrying its own task id as well. *)
Definition bursty_completion_with_task : WorkflowEvent :=
  with_task (Some "guid-1") None bursty_completion.

Definition fs_signal : WorkflowEvent :=
  bare_event "fs-1" "filesystem" EventType.FS_BATCH_MODIFIED 0.
Definition git_signal : WorkflowEvent :=
  bare_event "git-1" "git" EventType.GIT_COMMIT 0.
Definition task_signal : WorkflowEvent :=
  with_task (Some "guid-1") None
    (bare_event "ag-1" "antigravity" EventType.AG_TASK_COMPLETED 0).

(** A derived event minted with a confidence above 1. *)
Definition overconfident_derived : WorkflowEvent :=
  bare_event "d-1" "agent" EventType.WORKFLOW_TASK_INFERRED 1.5.

(** A clock that reads [t] throughout a call. *)
Definition at_time (t : float) : nat → float := λ _, t.


(** Ten rounds of a filesystem, a commit and a task signal, one round per
    second. *)
Definition redundant_signals : list (float * WorkflowEvent) :=
  flat_map (λ t : float, [(t, fs_signal); (t, git_signal); (t, task_signal)])
           [1; 2; 3; 4; 5; 6; 7; 8; 9; 10]%float.


(** An event of source copilot whose kind routes it to the filesystem
    window of the scorer. *)
Definition copilot_batch : WorkflowEvent :=
  bare_event "cb-1" "copilot" EventType.FS_BATCH_MODIFIED 0.

(** ** Temporal correlator *)

(** The distinct sources present in the four windows. *)
Definition window_sources (c : TemporalCorrelator.t) : gset string :=
  list_to_set (map source (TemporalCorrelator.window_events c)).

(** The ids of the events in the four windows, in window order. *)
Definition window_ids (c : TemporalCorrelator.t) : list string :=
  map id (TemporalCorrelator.window_events c).

(** Neither of the four routed sources. *)
Definition unrouted_source (e : WorkflowEvent) : Prop :=
  source e ≠ "antigravity" ∧ source e ≠ "git"
  ∧ source e ≠ "filesystem" ∧ source e ≠ "copilot".

(** A cluster event as [_check_cluster] mints it. *)
Definition cluster_event : WorkflowEvent :=
  WorkflowEvent_.make (sample_env "cl-1") "agent" EventType.WORKFLOW_ACTIVITY_CLUSTERED
    {| kw_confidence := 0.7%float;
       kw_task_id := None; kw_task_title := None;
       kw_burst_id := None; kw_burst_token_total := None;
       kw_burst_duration_secs := None; kw_burst_entry_count := None;
       kw_files_changed := None; kw_workspace_root := None;
       kw_git_commit_sha := None; kw_git_branch := None;
       kw_correlated_events := Some ["ag-1"; "git-1"; "fs-1"];
       kw_correlation_type := Some "temporal_cluster" |}.

(** A correlator that has recorded a task and a commit (two sources). *)
Definition two_sources : TemporalCorrelator.t :=
  TemporalCorrelator.record 2%float git_signal
    (TemporalCorrelator.record 1%float task_signal TemporalCorrelator.defaults).

(** A correlator that has recorded a task, a filesystem batch and a commit
    (three sources). *)
Definition three_sources : TemporalCorrelator.t :=
  TemporalCorrelator.record 3%float git_signal
    (TemporalCorrelator.record 2%float fs_signal
       (TemporalCorrelator.record 1%float task_signal TemporalCorrelator.defaults)).


(** The commit names a task id and the task event carries the same id. *)
Definition id_match (commit tk : WorkflowEvent) : Prop :=
  Py.truthy_str (task_id commit) = true ∧ task_id tk = task_id commit.

(** The commit and the task event both list changed files, and some path
    occurs in both lists. *)
Definition files_overlap (commit tk : WorkflowEvent) : Prop :=
  Py.truthy_list (files_changed commit) = true
  ∧ Py.truthy_list (files_changed tk) = true
  ∧ TemporalCorrelator.path_set (default [] (files_changed commit))
    ∩ TemporalCorrelator.path_set (default [] (files_changed tk)) ≠ ∅.

(** [tk] is the most recent event of the window that satisfies [P]. *)
Definition most_recent (P : WorkflowEvent → Prop) (w : list (float * WorkflowEvent))
    (tk : WorkflowEvent) : Prop :=
  ∃ older newer ts,
    w = older ++ (ts, tk) :: newer ∧ P tk ∧ Forall (λ x, ¬ P x.2) newer.

(** Task guid-1, and a later task guid-2 that touched src/auth.py. *)
Definition task_one : WorkflowEvent :=
  {| id := "ag-1"; spec_version := SPEC_VERSION; source := "antigravity";
     event_type := EventType.AG_TASK_COMPLETED;
     timestamp := "2026-01-01T00:00:00+00:00";
     hostname := Some "devbox"; workspace_id := Some "0123456789ab";
     confidence := 1.0%float; task_id := Some "guid-1";
     task_title := Some "Implement feature X";
     external_ref := Some "0123456789ab:guid-1";
     tokens_prompt := None; tokens_completion := None;
     burst_id := None; burst_token_total := None; burst_duration_secs := None;
     burst_entry_count := None; files_changed := None; workspace_root := None;
     git_commit_sha := None; git_branch := None; correlated_events := None;
     correlation_type := None |}.

Definition task_two : WorkflowEvent :=
  {| id := "ag-2"; spec_version := SPEC_VERSION; source := "antigravity";
     event_type := EventType.AG_TASK_COMPLETED;
     timestamp := "2026-01-01T00:00:01+00:00";
     hostname := Some "devbox"; workspace_id := Some "0123456789ab";
     confidence := 1.0%float; task_id := Some "guid-2";
     task_title := Some "Fix bug";
     external_ref := Some "0123456789ab:guid-2";
     tokens_prompt := None; tokens_completion := None;
     burst_id := None; burst_token_total := None; burst_duration_secs := None;
     burst_entry_count := None;
     files_changed := Some [ {| path := "src/auth.py"; change_type := "modified";
                               size_bytes := None |} ];
     workspace_root := None;
     git_commit_sha := None; git_branch := None; correlated_events := None;
     correlation_type := None |}.

(** A commit with sha, branch, task id and changed paths as given. *)
Definition commit_event (tid : option string) (files : option (list FileChange))
    : WorkflowEvent :=
  {| id := "git-1"; spec_version := SPEC_VERSION; source := "git";
     event_type := EventType.GIT_COMMIT;
     timestamp := "2026-01-01T00:00:02+00:00";
     hostname := Some "devbox"; workspace_id := Some "0123456789ab";
     confidence := 0.6%float; task_id := tid; task_title := None;
     external_ref := None;
     tokens_prompt := None; tokens_completion := None;
     burst_id := None; burst_token_total := None; burst_duration_secs := None;
     burst_entry_count := None; files_changed := files; workspace_root := None;
     git_commit_sha := Some "abc123"; git_branch := Some "main";
     correlated_events := None; correlation_type := None |}.

(** The commit names guid-1 and touches src/auth.py, like task guid-2. *)
Definition commit_both : WorkflowEvent :=
  commit_event (Some "guid-1")
    (Some [ {| path := "src/auth.py"; change_type := "modified"; size_bytes := None |};
            {| path := "src/test.py"; change_type := "created"; size_bytes := None |} ]).

(** A correlator that has recorded the two tasks, guid-2 last. *)
Definition two_tasks : TemporalCorrelator.t :=
  TemporalCorrelator.record 2%float task_two
    (TemporalCorrelator.record 1%float task_one TemporalCorrelator.defaults).

(** A correlator that has recorded task guid-1 only. *)
Definition one_task : TemporalCorrelator.t :=
  TemporalCorrelator.record 1%float task_one TemporalCorrelator.defaults.


(** * The core with Python's run-time errors made explicit

    The operations of the core that can raise in Python are the ones
    below; everything else the core does with an optional field is a
    truthiness test, an equality test or a store.  [Checked] rewrites the
    operations that use them in an error monad, so that "never raises" is
    a statement about the result. *)

Module Checked.

Inductive PyError : Type := TypeError | IndexError | AttributeError.

Inductive Exc (A : Type) : Type :=
| Ok (a : A)
| Raise (e : PyError).

Arguments Ok {A} a.
Arguments Raise {A} e.

#[global] Instance exc_ret : MRet Exc := @Ok.
#[global] Instance exc_bind : MBind Exc :=
  λ A B k m, match m with Ok a => k a | Raise e => Raise e end.

(** [a + b] raises TypeError when an operand is [None]. *)
Definition add (a b : option Z) : Exc Z :=
  match a, b with
  | Some x, Some y => Ok (x + y)
  | _, _ => Raise TypeError
  end.

(** [x or d] with [d] an integer. *)
Definition or_else (x : option Z) (d : Z) : option Z :=
  match x with
  | Some v => if bool_decide (v = 0) then Some d else Some v
  | None => Some d
  end.

(** [a - b] and [x or d] on clock readings; [a - b] raises TypeError
    when an operand is [None]. *)
Definition sub (a b : option float) : Exc float :=
  match a, b with
  | Some x, Some y => Ok (x - y)%float
  | _, _ => Raise TypeError
  end.

Definition or_elsef (x : option float) (d : float) : option float :=
  match x with
  | Some v => if PrimFloat.eqb v 0 then Some d else Some v
  | None => Some d
  end.

(** [round(x, 1)] raises TypeError on [None]. *)
Definition round1 (x : option float) : Exc float :=
  match x with
  | Some v => Ok (Py.round1 v)
  | None => Raise TypeError
  end.

(** [w[0]] and [w[-1]] raise IndexError on an empty deque. *)
Definition first {A} (w : list A) : Exc A :=
  match w with
  | x :: _ => Ok x
  | [] => Raise IndexError
  end.

Definition final {A} (w : list A) : Exc A :=
  match last w with
  | Some x => Ok x
  | None => Raise IndexError
  end.

(** Iterating over [None] raises TypeError. *)
Definition iterate {A} (l : option (list A)) : Exc (list A) :=
  match l with
  | Some l => Ok l
  | None => Raise TypeError
  end.

(** [s.encode()] raises AttributeError on [None]. *)
Definition encode (s : option string) : Exc string :=
  match s with
  | Some s => Ok s
  | None => Raise AttributeError
  end.

Definition make (env : MakeEnv) (src ety : string) (kw : MakeArgs) : Exc WorkflowEvent :=
  let ws_root :=
    if Py.truthy_str (kw_workspace_root kw) then kw_workspace_root kw
    else Some (env_cwd env) in
  bytes ← encode ws_root;
  let wsid := String.substring 0 12 (env_sha256_hex env bytes) in
  let ext :=
    if Py.truthy_str (kw_task_id kw)
    then Some (String.append wsid (String.append ":" (default "" (kw_task_id kw))))
    else None in
  Ok {| id := env_uuid env; spec_version := SPEC_VERSION; source := src;
        event_type := ety; timestamp := env_utcnow env;
        hostname := Some (env_hostname env); workspace_id := Some wsid;
        confidence := kw_confidence kw;
        task_id := kw_task_id kw; task_title := kw_task_title kw;
        external_ref := ext;
        tokens_prompt := None; tokens_completion := None;
        burst_id := kw_burst_id kw; burst_token_total := kw_burst_token_total kw;
        burst_duration_secs := kw_burst_duration_secs kw;
        burst_entry_count := kw_burst_entry_count kw;
        files_changed := kw_files_changed kw; workspace_root := kw_workspace_root kw;
        git_commit_sha := kw_git_commit_sha kw; git_branch := kw_git_branch kw;
        correlated_events := kw_correlated_events kw;
        correlation_type := kw_correlation_type kw |}.

(** [while w and (now - w[0][0]) > max_age: w.popleft()]. *)
Fixpoint evict {A} (now max_age : float) (w : list (float * A))
    : Exc (list (float * A)) :=
  match w with
  | [] => Ok []
  | _ :: rest =>
      h ← first w;
      if (max_age <? now - h.1)%float then evict now max_age rest else Ok w
  end.

Definition burst_event (env : MakeEnv) (ety : string) (bid : option string)
    (tot : Z) (dur : option float) (cnt : Z) : Exc WorkflowEvent :=
  make env "copilot" ety
    {| kw_confidence := 0.4%float;
       kw_task_id := None; kw_task_title := None;
       kw_burst_id := bid; kw_burst_token_total := Some tot;
       kw_burst_duration_secs := dur; kw_burst_entry_count := Some cnt;
       kw_files_changed := None; kw_workspace_root := None;
       kw_git_commit_sha := None; kw_git_branch := None;
       kw_correlated_events := None; kw_correlation_type := None |}.

(** [CopilotBurstDetector.observe]. *)
Definition observe (now : float) (uid : string) (env : MakeEnv) (event : WorkflowEvent)
    (d : CopilotBurstDetector.t)
    : Exc (list WorkflowEvent * WorkflowEvent * CopilotBurstDetector.t) :=
  let tp := or_else (tokens_prompt event) 0 in
  let tc := or_else (tokens_completion event) 0 in
  tokens ← add tp tc;
  w ← evict now (CopilotBurstDetector.window_secs d)
        (CopilotBurstDetector._window d
         ++ [(now, (Py.or_int (tokens_prompt event) 0,
                    Py.or_int (tokens_completion event) 0, id event))]);
  let wt := CopilotBurstDetector.window_tokens w in
  let wc := CopilotBurstDetector.window_count w in
  let in_burst := bool_decide (wt >= CopilotBurstDetector.token_threshold d)
                  || bool_decide (wc >= CopilotBurstDetector.count_threshold d) in
  let keep (bid : option string) (st : option float) (tot cnt : Z) :=
    {| CopilotBurstDetector.window_secs := CopilotBurstDetector.window_secs d;
       CopilotBurstDetector.token_threshold := CopilotBurstDetector.token_threshold d;
       CopilotBurstDetector.count_threshold := CopilotBurstDetector.count_threshold d;
       CopilotBurstDetector._window := w;
       CopilotBurstDetector._active_burst_id := bid;
       CopilotBurstDetector._burst_start_time := st;
       CopilotBurstDetector._burst_token_total := tot;
       CopilotBurstDetector._burst_entry_count := cnt |} in
  r ← match in_burst, CopilotBurstDetector._active_burst_id d with
      | true, None =>
          ev ← burst_event env EventType.COPILOT_BURST_START (Some uid) wt None wc;
          Ok ([ev], keep (Some uid) (Some now) wt wc)
      | true, Some bid =>
          Ok ([], keep (Some bid) (CopilotBurstDetector._burst_start_time d) wt wc)
      | false, Some bid =>
          duration ← sub (Some now)
                         (or_elsef (CopilotBurstDetector._burst_start_time d) now);
          rounded ← round1 (Some duration);
          ev ← burst_event env EventType.COPILOT_BURST_END (Some bid)
                 (CopilotBurstDetector._burst_token_total d) (Some rounded)
                 (CopilotBurstDetector._burst_entry_count d);
          Ok ([ev], keep None None 0 0)
      | false, None =>
          Ok ([], keep None (CopilotBurstDetector._burst_start_time d)
                    (CopilotBurstDetector._burst_token_total d)
                    (CopilotBurstDetector._burst_entry_count d))
      end;
  let '(emitted, d') := r in
  let event' :=
    if Py.truthy_str (CopilotBurstDetector._active_burst_id d')
    then WorkflowEvent_.set_burst (CopilotBurstDetector._active_burst_id d')
           (CopilotBurstDetector._burst_token_total d')
           (CopilotBurstDetector._burst_entry_count d') event
    else event in
  Ok (emitted, event', d').

(** [CopilotBurstDetector.flush]. *)
Definition flush (clk : nat → float) (env : MakeEnv) (d : CopilotBurstDetector.t)
    : Exc (option WorkflowEvent * CopilotBurstDetector.t) :=
  match CopilotBurstDetector._active_burst_id d with
  | None => Ok (None, d)
  | Some bid =>
      duration ← sub (Some (clk 0%nat))
                     (or_elsef (CopilotBurstDetector._burst_start_time d) (clk 1%nat));
      rounded ← round1 (Some duration);
      ev ← burst_event env EventType.COPILOT_BURST_END (Some bid)
             (CopilotBurstDetector._burst_token_total d) (Some rounded)
             (CopilotBurstDetector._burst_entry_count d);
      Ok (Some ev,
          {| CopilotBurstDetector.window_secs := CopilotBurstDetector.window_secs d;
             CopilotBurstDetector.token_threshold := CopilotBurstDetector.token_threshold d;
             CopilotBurstDetector.count_threshold := CopilotBurstDetector.count_threshold d;
             CopilotBurstDetector._window := CopilotBurstDetector._window d;
             CopilotBurstDetector._active_burst_id := None;
             CopilotBurstDetector._burst_start_time := None;
             CopilotBurstDetector._burst_token_total :=
               CopilotBurstDetector._burst_token_total d;
             CopilotBurstDetector._burst_entry_count :=
               CopilotBurstDetector._burst_entry_count d |})
  end.

(** The first element for which [f] answers true; an error of [f] ends
    the loop. *)
Fixpoint find_first {A} (f : A → Exc bool) (l : list A) : Exc (option A) :=
  match l with
  | [] => Ok None
  | x :: rest => b ← f x; if (b : bool) then Ok (Some x) else find_first f rest
  end.

(** [task_ev.files_changed and commit_files & {f.path for f in task_ev.files_changed}]. *)
Definition overlaps (commit_files : gset string) (x : float * WorkflowEvent) : Exc bool :=
  if Py.truthy_list (files_changed x.2) then
    fs ← iterate (files_changed x.2);
    Ok (bool_decide (commit_files ∩ TemporalCorrelator.path_set fs ≠ ∅))
  else Ok false.

(** [TemporalCorrelator._correlate_commit]. *)
Definition _correlate_commit (now : float) (env : MakeEnv) (commit : WorkflowEvent)
    (c : TemporalCorrelator.t)
    : Exc (option WorkflowEvent * WorkflowEvent * TemporalCorrelator.t) :=
  tasks ← evict now (TemporalCorrelator.TASK_COMMIT_WINDOW c) (TemporalCorrelator._tasks c);
  let c' := TemporalCorrelator.with_windows tasks (TemporalCorrelator._commits c)
              (TemporalCorrelator._fs_events c) (TemporalCorrelator._copilot_events c) c in
  if negb (ConfidenceScorer.nonempty tasks) then Ok (None, commit, c')
  else
    let by_id := TemporalCorrelator.find_task_match commit tasks in
    by_files ←
      (match by_id with
       | Some _ => Ok None
       | None =>
           if Py.truthy_list (files_changed commit) then
             cf ← iterate (files_changed commit);
             hit ← find_first (overlaps (TemporalCorrelator.path_set cf)) (reverse tasks);
             Ok (snd <$> (hit : option (float * WorkflowEvent)))
           else Ok None
       end : Exc (option WorkflowEvent));
    choice ←
      (match by_id, by_files with
       | Some tk, _ => Ok (tk, "task_match")
       | None, Some tk => Ok (tk, "file_overlap")
       | None, None =>
           l ← final tasks; Ok ((l : float * WorkflowEvent).2, "time_proximity")
       end : Exc (WorkflowEvent * string));
    let '(best_task, best_type) := choice in
    let commit' :=
      WorkflowEvent_.set_link (task_id best_task) (task_title best_task)
        best_type [id best_task] commit in
    ev ← make env "git" EventType.GIT_COMMIT_LINKED
           {| kw_confidence := TemporalCorrelator._link_confidence best_type;
              kw_task_id := task_id best_task;
              kw_task_title := task_title best_task;
              kw_burst_id := None; kw_burst_token_total := None;
              kw_burst_duration_secs := None; kw_burst_entry_count := None;
              kw_files_changed := None; kw_workspace_root := None;
              kw_git_commit_sha := git_commit_sha commit';
              kw_git_branch := git_branch commit';
              kw_correlated_events := Some [id commit'; id best_task];
              kw_correlation_type := Some best_type |};
    Ok (Some ev, commit', c').

(** [FileBurstDetector.observe]. *)
Definition file_observe (now : float) (env : MakeEnv) (p : string) (workspace_root : option string)
    (d : FileBurstDetector.t) : Exc (option WorkflowEvent * FileBurstDetector.t) :=
  recent ← evict now (FileBurstDetector.window_secs d)
             (FileBurstDetector._recent d ++ [(now, p)]);
  if bool_decide (Py.len recent >= FileBurstDetector.threshold d) then
    ev ← make env "filesystem" EventType.FS_BATCH_MODIFIED
           {| kw_confidence := 0.4%float;
              kw_task_id := None; kw_task_title := None;
              kw_burst_id := None; kw_burst_token_total := None;
              kw_burst_duration_secs := None; kw_burst_entry_count := None;
              kw_files_changed :=
                Some (map (fun p => {| path := p; change_type := "modified";
                                       size_bytes := None |}) (map snd recent));
              kw_workspace_root := workspace_root;
              kw_git_commit_sha := None; kw_git_branch := None;
              kw_correlated_events := None; kw_correlation_type := None |};
    Ok (Some ev, FileBurstDetector.with_recent [] d)
  else Ok (None, FileBurstDetector.with_recent recent d).

(** [ConfidenceScorer.score] and its four rules. *)
Definition _score_git (clk : nat → float) (event : WorkflowEvent) (s : ConfidenceScorer.t)
    : Exc (float * ConfidenceScorer.t) :=
  let base := 0.6%float in
  r ← (if Py.truthy_str (task_id event) then
         w ← evict (clk 0%nat) ConfidenceScorer.TASK_PROXIMITY_SECS
               (ConfidenceScorer._recent_tasks s);
         Ok (ConfidenceScorer.task_known (task_id event) w, w, 1%nat)
       else Ok (false, ConfidenceScorer._recent_tasks s, 0%nat)
       : Exc (bool * list (float * string) * nat));
  let '(hit, tasks1, next) := r in
  if (hit : bool) then
    Ok (Py.min 1.0 (base + ConfidenceScorer.TASK_CONTEXT_BONUS),
        {| ConfidenceScorer._recent_fs := ConfidenceScorer._recent_fs s;
           ConfidenceScorer._recent_git := ConfidenceScorer._recent_git s;
           ConfidenceScorer._recent_tasks := tasks1 |})
  else
    tasks2 ← evict (clk next) ConfidenceScorer.TASK_PROXIMITY_SECS tasks1;
    let base := if ConfidenceScorer.nonempty tasks2 then (base + 0.1)%float else base in
    Ok (Py.min 1.0 base,
        {| ConfidenceScorer._recent_fs := ConfidenceScorer._recent_fs s;
           ConfidenceScorer._recent_git := ConfidenceScorer._recent_git s;
           ConfidenceScorer._recent_tasks := tasks2 |}).

Definition _score_copilot (clk : nat → float) (event : WorkflowEvent) (s : ConfidenceScorer.t)
    : Exc (float * ConfidenceScorer.t) :=
  let score := ConfidenceScorer.BASE in
  let score := if Py.truthy_str (burst_id event)
               then (score + ConfidenceScorer.BURST_BONUS)%float else score in
  fs ← evict (clk 0%nat) ConfidenceScorer.FS_PROXIMITY_SECS (ConfidenceScorer._recent_fs s);
  let score := if ConfidenceScorer.nonempty fs
               then (score + ConfidenceScorer.FS_PROXIMITY_BONUS)%float else score in
  git ← evict (clk 1%nat) ConfidenceScorer.GIT_PROXIMITY_SECS (ConfidenceScorer._recent_git s);
  let score := if ConfidenceScorer.nonempty git
               then (score + ConfidenceScorer.GIT_PROXIMITY_BONUS)%float else score in
  if Py.truthy_str (task_id event) then
    Ok (Py.min 1.0 (score + ConfidenceScorer.TASK_CONTEXT_BONUS),
        {| ConfidenceScorer._recent_fs := fs; ConfidenceScorer._recent_git := git;
           ConfidenceScorer._recent_tasks := ConfidenceScorer._recent_tasks s |})
  else
    tasks ← evict (clk 2%nat) ConfidenceScorer.TASK_PROXIMITY_SECS
              (ConfidenceScorer._recent_tasks s);
    let score :=
      if ConfidenceScorer.nonempty tasks
      then (score + ConfidenceScorer.TASK_CONTEXT_BONUS * 0.5)%float else score in
    Ok (Py.min 1.0 score,
        {| ConfidenceScorer._recent_fs := fs; ConfidenceScorer._recent_git := git;
           ConfidenceScorer._recent_tasks := tasks |}).

Definition _score_filesystem (clk : nat → float) (event : WorkflowEvent) (s : ConfidenceScorer.t)
    : Exc (float * ConfidenceScorer.t) :=
  let base := 0.4%float in
  tasks ← evict (clk 0%nat) ConfidenceScorer.TASK_PROXIMITY_SECS
            (ConfidenceScorer._recent_tasks s);
  let base := if ConfidenceScorer.nonempty tasks then (base + 0.2)%float else base in
  git ← evict (clk 1%nat) ConfidenceScorer.GIT_PROXIMITY_SECS (ConfidenceScorer._recent_git s);
  let base := if ConfidenceScorer.nonempty git then (base + 0.1)%float else base in
  Ok (Py.min 1.0 base,
      {| ConfidenceScorer._recent_fs := ConfidenceScorer._recent_fs s;
         ConfidenceScorer._recent_git := git; ConfidenceScorer._recent_tasks := tasks |}).

Definition score (clk : nat → float) (event : WorkflowEvent) (s : ConfidenceScorer.t)
    : Exc (float * ConfidenceScorer.t) :=
  if bool_decide (source event = "antigravity")
  then Ok (ConfidenceScorer._score_antigravity event, s)
  else if bool_decide (source event = "git") then _score_git clk event s
  else if bool_decide (source event = "copilot") then _score_copilot clk event s
  else if bool_decide (source event = "filesystem") then _score_filesystem clk event s
  else Ok (confidence event, s).

Definition score_and_record (clk : nat → float) (now_rec : float) (event : WorkflowEvent)
    (s : ConfidenceScorer.t) : Exc (WorkflowEvent * ConfidenceScorer.t) :=
  r ← score clk event s;
  let event' := WorkflowEvent_.set_confidence (r : float * ConfidenceScorer.t).1 event in
  Ok (event', ConfidenceScorer.record_signal now_rec event' r.2).

(** [TemporalCorrelator._check_cluster] and [correlate]. *)
Definition _check_cluster (now : float) (env : MakeEnv) (trigger : WorkflowEvent)
    (c : TemporalCorrelator.t) : Exc (option WorkflowEvent * TemporalCorrelator.t) :=
  tasks ← evict now (TemporalCorrelator.CLUSTER_WINDOW c) (TemporalCorrelator._tasks c);
  commits ← evict now (TemporalCorrelator.CLUSTER_WINDOW c) (TemporalCorrelator._commits c);
  fs ← evict now (TemporalCorrelator.CLUSTER_WINDOW c) (TemporalCorrelator._fs_events c);
  cop ← evict now (TemporalCorrelator.CLUSTER_WINDOW c)
          (TemporalCorrelator._copilot_events c);
  let c' := TemporalCorrelator.with_windows tasks commits fs cop c in
  let sources : gset string :=
    list_to_set (map source (TemporalCorrelator.window_events c')) in
  let event_ids := map id (TemporalCorrelator.window_events c') in
  if bool_decide (size sources < 3)%nat then Ok (None, c')
  else if bool_decide (source trigger ∉ sources) then Ok (None, c')
  else
    ev ← make env "agent" EventType.WORKFLOW_ACTIVITY_CLUSTERED
           {| kw_confidence := 0.7%float;
              kw_task_id := None; kw_task_title := None;
              kw_burst_id := None; kw_burst_token_total := None;
              kw_burst_duration_secs := None; kw_burst_entry_count := None;
              kw_files_changed := None; kw_workspace_root := None;
              kw_git_commit_sha := None; kw_git_branch := None;
              kw_correlated_events := Some (Py.slice_to 50 event_ids);
              kw_correlation_type := Some "temporal_cluster" |};
    Ok (Some ev, c').

Definition correlate (now_link now_cluster : float) (env_link env_cluster : MakeEnv)
    (event : WorkflowEvent) (c : TemporalCorrelator.t)
    : Exc (list WorkflowEvent * WorkflowEvent * TemporalCorrelator.t) :=
  l ← (if bool_decide (event_type event = EventType.GIT_COMMIT)
       then _correlate_commit now_link env_link event c
       else Ok (None, event, c));
  let '(linked, event1, c1) := l in
  k ← _check_cluster now_cluster env_cluster event1 c1;
  Ok (TemporalCorrelator.opt_to_list linked
      ++ TemporalCorrelator.opt_to_list (k : option WorkflowEvent * TemporalCorrelator.t).1,
      event1, k.2).

End Checked.

(** The input event with both token counts replaced. *)
Definition with_tokens (tp tc : option Z) (e : WorkflowEvent) : WorkflowEvent :=
  {| id := id e; spec_version := spec_version e; source := source e;
     event_type := event_type e; timestamp := timestamp e;
     hostname := hostname e; workspace_id := workspace_id e;
     confidence := confidence e;
     task_id := task_id e; task_title := task_title e;
     external_ref := external_ref e;
     tokens_prompt := tp; tokens_completion := tc;
     burst_id := burst_id e; burst_token_total := burst_token_total e;
     burst_duration_secs := burst_duration_secs e;
     burst_entry_count := burst_entry_count e;
     files_changed := files_changed e; workspace_root := workspace_root e;
     git_commit_sha := git_commit_sha e; git_branch := git_branch e;
     correlated_events := correlated_events e;
     correlation_type := correlation_type e |}.


(** * Further runs and sample inputs *)

(** A window of three signals recorded at 1 s, 2 s and 40 s. *)
Definition three_signals : list (float * string) :=
  [(1%float, "fs-1"); (2%float, "fs-2"); (40%float, "fs-3")].

(** What a fired observation must look like when the queue was below the
    threshold before the call: exactly [threshold] paths, the observed
    path last, and a queue left below the threshold. *)
Definition fires_full_batch (thr : Z) (o : FileObs)
    (r : option WorkflowEvent * FileBurstDetector.t) : Prop :=
  Py.len (FileBurstDetector._recent r.2) < thr
  ∧ match fired_paths r.1 with
    | Some paths => Py.len paths = thr ∧ last paths = Some (fo_path o)
    | None => True
    end.


(** The events emitted over a run, in order. *)
Definition run_emitted (d : CopilotBurstDetector.t) (obs : list CopilotObs)
    : list WorkflowEvent :=
  concat (cs_emitted <$> copilot_run d obs).

(** A sequence of burst events that opens and closes bursts in turn:
    [open] is the burst open at its start, if any. *)
Fixpoint paired (open : option string) (evs : list WorkflowEvent) : Prop :=
  match evs with
  | [] => True
  | ev :: rest =>
      match open with
      | None =>
          event_type ev = EventType.COPILOT_BURST_START
          ∧ is_Some (burst_id ev)
          ∧ paired (burst_id ev) rest
      | Some b =>
          event_type ev = EventType.COPILOT_BURST_END
          ∧ burst_id ev = Some b
          ∧ paired None rest
      end
  end.

(** A call on the detector: [observe] or [flush]. *)
Inductive CopilotOp : Type :=
| OpObserve (o : CopilotObs)
| OpFlush (clk : nat → float) (env : MakeEnv).

Definition apply_op (d : CopilotBurstDetector.t) (op : CopilotOp) : CopilotBurstDetector.t :=
  match op with
  | OpObserve o => cs_after (copilot_step d o)
  | OpFlush clk env => (CopilotBurstDetector.flush clk env d).2
  end.

Definition apply_ops (d : CopilotBurstDetector.t) (ops : list CopilotOp)
    : CopilotBurstDetector.t :=
  fold_left apply_op ops d.

(** While a burst is active the running totals are those of the window
    and the start time is set. *)
Definition burst_consistent (d : CopilotBurstDetector.t) : Prop :=
  CopilotBurstDetector.is_in_burst d = true →
  CopilotBurstDetector._burst_token_total d
  = CopilotBurstDetector.window_tokens (CopilotBurstDetector._window d)
  ∧ CopilotBurstDetector._burst_entry_count d
    = CopilotBurstDetector.window_count (CopilotBurstDetector._window d)
  ∧ is_Some (CopilotBurstDetector._burst_start_time d).

(** Two observations, a flush, and two more observations. *)
(** Reference for the version-control rule as [_score_git] computes it:
    0.6, plus 0.2 when the commit's task id is among the recent task ids,
    else plus 0.1 when any task is recent. *)
Definition git_rule (id_known task_recent : bool) : float :=
  if id_known then (0.6 + 0.2)%float
  else if task_recent then (0.6 + 0.1)%float else 0.6%float.

(** Reference for the filesystem rule as [_score_filesystem] computes it:
    0.4, plus 0.2 when a task is recent, then plus 0.1 when a commit is
    recent. *)
Definition filesystem_rule (task_recent commit_recent : bool) : float :=
  let base := if task_recent then (0.4 + 0.2)%float else 0.4%float in
  if commit_recent then (base + 0.1)%float else base.

(** One scorer state holds at least the signals of the other: each window
    is that of the other followed by further entries. *)
Definition scorer_extends (s s' : ConfidenceScorer.t) : Prop :=
  (∃ ext, ConfidenceScorer._recent_fs s' = ConfidenceScorer._recent_fs s ++ ext)
  ∧ (∃ ext, ConfidenceScorer._recent_git s' = ConfidenceScorer._recent_git s ++ ext)
  ∧ (∃ ext, ConfidenceScorer._recent_tasks s' = ConfidenceScorer._recent_tasks s ++ ext).

(** Each of the three windows holds its signals in the order of their
    readings. *)
Definition scorer_ordered (s : ConfidenceScorer.t) : Prop :=
  clock_ordered (ConfidenceScorer._recent_fs s)
  ∧ clock_ordered (ConfidenceScorer._recent_git s)
  ∧ clock_ordered (ConfidenceScorer._recent_tasks s).

(** The most recent entry of a window exists and the age test does not
    call it stale. *)
Definition last_is_recent {A} (now max_age : float) (w : list (float * A)) : Prop :=
  ∃ x, last w = Some x ∧ stale now max_age x.1 = false.

(** A scorer that recorded a filesystem signal at 1 s, a commit at 2 s and
    a task at 3 s. *)
Definition scorer_after_three : ConfidenceScorer.t :=
  record_all [(1%float, fs_signal); (2%float, git_signal); (3%float, task_signal)]
    ConfidenceScorer.init.


(** [b] is [a] or greater. *)
Definition score_not_lower (a b : float) : Prop :=
  b = a ∨ PrimFloat.ltb a b = true.


(** ** correlator.py: TaskCommitCorrelator *)

Module TaskCommitCorrelator.

(** The wrapper holds one engine built with the default horizons. *)
Record t := { _engine : TemporalCorrelator.t }.

Definition init : t := {| _engine := TemporalCorrelator.defaults |}.

Definition record_task (now : float) (event : WorkflowEvent) (w : t) : t :=
  {| _engine := TemporalCorrelator.record now event (_engine w) |}.

(** [correlate_commit(commit_event)]: records the commit, correlates it
    and returns the annotated commit; the derived events are dropped. *)
Definition correlate_commit (now_record now_link now_cluster : float)
    (env_link env_cluster : MakeEnv) (commit_event : WorkflowEvent) (w : t)
    : WorkflowEvent * t :=
  let c1 := TemporalCorrelator.record now_record commit_event (_engine w) in
  let '(derived, commit', c2) :=
    TemporalCorrelator.correlate now_link now_cluster env_link env_cluster commit_event c1 in
  (commit', {| _engine := c2 |}).

End TaskCommitCorrelator.

(** Every window holds only events that [record] routes to it. *)
Definition well_routed (c : TemporalCorrelator.t) : Prop :=
  Forall (λ x, source x.2 = "antigravity" ∧ Py.truthy_str (task_id x.2) = true)
    (TemporalCorrelator._tasks c)
  ∧ Forall (λ x, source x.2 = "git") (TemporalCorrelator._commits c)
  ∧ Forall (λ x, source x.2 = "filesystem") (TemporalCorrelator._fs_events c)
  ∧ Forall (λ x, source x.2 = "copilot") (TemporalCorrelator._copilot_events c).

(** No window holds more than [MAX_EVENTS] entries. *)
Definition capped (c : TemporalCorrelator.t) : Prop :=
  Py.len (TemporalCorrelator._tasks c) ≤ TemporalCorrelator.MAX_EVENTS
  ∧ Py.len (TemporalCorrelator._commits c) ≤ TemporalCorrelator.MAX_EVENTS
  ∧ Py.len (TemporalCorrelator._fs_events c) ≤ TemporalCorrelator.MAX_EVENTS
  ∧ Py.len (TemporalCorrelator._copilot_events c) ≤ TemporalCorrelator.MAX_EVENTS.

(** A call on the correlator: [record] or [correlate]. *)
Inductive CorrelatorOp : Type :=
| OpRecord (now : float) (e : WorkflowEvent)
| OpCorrelate (now_link now_cluster : float) (env_link env_cluster : MakeEnv) (e : WorkflowEvent).

Definition apply_cop (c : TemporalCorrelator.t) (op : CorrelatorOp) : TemporalCorrelator.t :=
  match op with
  | OpRecord now e => TemporalCorrelator.record now e c
  | OpCorrelate nl nc el ec e => (TemporalCorrelator.correlate nl nc el ec e c).2
  end.

Definition apply_cops (c : TemporalCorrelator.t) (ops : list CorrelatorOp)
    : TemporalCorrelator.t :=
  fold_left apply_cop ops c.


(** Each of the four windows holds its events in the order of their
    readings. *)
Definition correlator_ordered (c : TemporalCorrelator.t) : Prop :=
  clock_ordered (TemporalCorrelator._tasks c)
  ∧ clock_ordered (TemporalCorrelator._commits c)
  ∧ clock_ordered (TemporalCorrelator._fs_events c)
  ∧ clock_ordered (TemporalCorrelator._copilot_events c).

(** The age test calls no entry of the four windows stale at [now]. *)
Definition all_within (now max_age : float) (c : TemporalCorrelator.t) : Prop :=
  Forall (λ x, stale now max_age x.1 = false)
    (TemporalCorrelator._tasks c ++ TemporalCorrelator._commits c
     ++ TemporalCorrelator._fs_events c ++ TemporalCorrelator._copilot_events c).

(** The sources that [record] routes to a window. *)
Definition routed_sources : gset string :=
  {[ "antigravity"; "git"; "filesystem"; "copilot" ]}.


(** ** normalizer.py: the closed taxonomy *)

Module Taxonomy.

(** [EventType.all_types()]: the string attributes of the class whose
    names do not start with an underscore. *)
Definition all_types : gset string :=
  list_to_set
    [ EventType.COPILOT_PROMPT; EventType.COPILOT_COMPLETION; EventType.COPILOT_ERROR;
      EventType.COPILOT_BURST_START; EventType.COPILOT_BURST_END;
      EventType.AG_TASK_CREATED; EventType.AG_TASK_UPDATED; EventType.AG_TASK_PROGRESS;
      EventType.AG_TASK_COMPLETED; EventType.AG_TASK_FAILED; EventType.AG_TASK_WALKTHROUGH;
      EventType.AG_TASK_PLAN_READY; EventType.AG_TASK_ITERATED; EventType.AG_SKILL_UPDATED;
      EventType.AG_ARTIFACT_UNKNOWN;
      EventType.GIT_COMMIT; EventType.GIT_COMMIT_LINKED;
      EventType.FS_BATCH_MODIFIED;
      EventType.WORKFLOW_TASK_INFERRED; EventType.WORKFLOW_ACTIVITY_CLUSTERED;
      EventType.WORKFLOW_CONFLICT_DETECTED ].

(** [EventType.is_valid(event_type)]. *)
Definition is_valid (event_type : string) : bool := bool_decide (event_type ∈ all_types).

End Taxonomy.

(** Every event of a list has a kind of the taxonomy. *)
Definition all_valid (evs : list WorkflowEvent) : Prop :=
  Forall (λ ev, Taxonomy.is_valid (event_type ev) = true) evs.

(** ** watcher.py *)

Module Watcher.

(** [_debounce(path, ms)] on the module-level dict [_last_seen]: the
    answer and the dict after the call; [None] when the division
    [ms / 1000] raises, which leaves the dict as it was. *)
Definition _debounce (now : float) (path : string) (ms : Z) (_last_seen : gmap string float)
    : option (bool * gmap string float) :=
  match _last_seen !! path with
  | Some seen =>
      interval ← Py.int_truediv ms 1000;
      if (now - seen <? interval)%float then Some (false, _last_seen)
      else Some (true, <[path := now]> _last_seen)
  | None => Some (true, <[path := now]> _last_seen)
  end.

(** The clock readings of one call of [_emit_pipeline]: those of
    [score_and_record] on the event, of [record], of the two steps of
    [correlate], and of [score_and_record] on the i-th derived event. *)
Record PipelineClock := {
  t_score : nat → float;
  t_signal : float;
  t_record : float;
  t_link : float;
  t_cluster : float;
  t_derived_score : nat → nat → float;
  t_derived_signal : nat → float;
}.

(** The scorer and the correlator of a [UnifiedHandler]. *)
Record t := {
  scorer : ConfidenceScorer.t;
  correlator : TemporalCorrelator.t;
}.

(** [for d in derived: self.scorer.score_and_record(d); emitter.emit(d)]:
    the events handed to the emitter and the scorer after the loop. *)
Fixpoint emit_derived (tm : PipelineClock) (i : nat) (derived : list WorkflowEvent)
    (s : ConfidenceScorer.t) : list WorkflowEvent * ConfidenceScorer.t :=
  match derived with
  | [] => ([], s)
  | d :: rest =>
      let '(d', s1) :=
        ConfidenceScorer.score_and_record (t_derived_score tm i) (t_derived_signal tm i) d s in
      let '(out, s2) := emit_derived tm (S i) rest s1 in
      (d' :: out, s2)
  end.

(** [UnifiedHandler._emit_pipeline(event)]: the events handed to
    [emitter.emit], in order, and the handler after the call. *)
Definition _emit_pipeline (tm : PipelineClock) (env_link env_cluster : MakeEnv)
    (event : WorkflowEvent) (h : t) : list WorkflowEvent * t :=
  let '(event1, s1) :=
    ConfidenceScorer.score_and_record (t_score tm) (t_signal tm) event (scorer h) in
  let c1 := TemporalCorrelator.record (t_record tm) event1 (correlator h) in
  let '(derived, event2, c2) :=
    TemporalCorrelator.correlate (t_link tm) (t_cluster tm) env_link env_cluster event1 c1 in
  let '(out, s2) := emit_derived tm 0 derived s1 in
  (event2 :: out, {| scorer := s2; correlator := c2 |}).

End Watcher.

(** A run of [_debounce] calls, each with its clock reading, path and
    interval: the answers in order, [None] for a call that raised. *)
Fixpoint debounce_run (calls : list (float * string * Z)) (seen : gmap string float)
    : list (option bool) :=
  match calls with
  | [] => []
  | (now, path, ms) :: rest =>
      match Watcher._debounce now path ms seen with
      | Some (answer, seen') => Some answer :: debounce_run rest seen'
      | None => None :: debounce_run rest seen
      end
  end.

(** What the emitter sees of a derived event of the pipeline. *)
Definition emitted_derived (trigger d : WorkflowEvent) : Prop :=
  (event_type d = EventType.GIT_COMMIT_LINKED
   ∧ source d = "git"
   ∧ event_type trigger = EventType.GIT_COMMIT
   ∧ (confidence d = 0.8%float ∨ confidence d = 0.7%float ∨ confidence d = 0.6%float))
  ∨ (event_type d = EventType.WORKFLOW_ACTIVITY_CLUSTERED
     ∧ source d = "agent"
     ∧ confidence d = 0.7%float).

(** A clock that reads the same instant throughout one pipeline call. *)
Definition frozen_clock (now : float) : Watcher.PipelineClock :=
  {| Watcher.t_score := λ _, now; Watcher.t_signal := now; Watcher.t_record := now;
     Watcher.t_link := now; Watcher.t_cluster := now;
     Watcher.t_derived_score := λ _ _, now; Watcher.t_derived_signal := λ _, now |}.


(** A handler that has seen nothing, and the handler after the pipeline
    has processed task guid-1 at second 1. *)
Definition fresh_handler : Watcher.t :=
  {| Watcher.scorer := ConfidenceScorer.init;
     Watcher.correlator := TemporalCorrelator.defaults |}.

Definition handler_after_task : Watcher.t :=
  (Watcher._emit_pipeline (frozen_clock 1%float) (sample_env "ln-0") (sample_env "cl-0")
     task_one fresh_handler).2.

(** Three events on one path, at readings 1.0, 1.4 and 1.6, each with an
    interval of 500 ms. *)
Definition three_saves : list (float * string * Z) :=
  [ (1%float, "task.md", 500);
    (1.4%float, "task.md", 500);
    (1.6%float, "task.md", 500) ].

(** Two events on one path at readings 0.2 and 0.7, with an interval of
    500 ms. *)
Definition half_second_apart : list (float * string * Z) :=
  [ (0.2%float, "task.md", 500); (0.7%float, "task.md", 500) ].

(** Three paths observed at readings 3.3, 5.0 and 8.3. *)
Definition boundary_paths : list FileObs :=
  [ {| fo_now := 3.3%float; fo_env := sample_env "ev-1"; fo_path := "a.py";
       fo_root := Some "/ws" |};
    {| fo_now := 5%float; fo_env := sample_env "ev-2"; fo_path := "b.py";
       fo_root := Some "/ws" |};
    {| fo_now := 8.3%float; fo_env := sample_env "ev-3"; fo_path := "c.py";
       fo_root := Some "/ws" |} ].


(** What the detector keeps between two calls: [pending] are the
    observations since the last fire, [past] all observations so far; the
    queue holds the pending observations that were fresh at the last
    reading. *)
Definition file_queue_inv (d : FileBurstDetector.t) (pending past : list (float * string))
    : Prop :=
  pending `suffix_of` past
  ∧ match last past with
    | Some prev =>
        FileBurstDetector._recent d = fresh prev.1 (FileBurstDetector.window_secs d) pending
    | None => FileBurstDetector._recent d = [] ∧ pending = []
    end.




(** * Properties *)

(** ** Binary64 subtraction and comparison keep the order *)

Module Binary64Facts.
Import Binary64.

(** ** Digits *)

Lemma digits2_pos_bounds (p : positive) :
  2 ^ (Z.pos (digits2_pos p) - 1) ≤ Z.pos p < 2 ^ Z.pos (digits2_pos p).
Proof.
  induction p as [p IH|p IH|]; cbn [digits2_pos].
  - rewrite Pos2Z.inj_succ.
    replace (Z.succ (Z.pos (digits2_pos p)) - 1) with (Z.succ (Z.pos (digits2_pos p) - 1)) by lia.
    rewrite !Z.pow_succ_r by lia. lia.
  - rewrite Pos2Z.inj_succ.
    replace (Z.succ (Z.pos (digits2_pos p)) - 1) with (Z.succ (Z.pos (digits2_pos p) - 1)) by lia.
    rewrite !Z.pow_succ_r by lia. lia.
  - simpl. lia.
Qed.

Lemma digits_unique (m d : Z) :
  0 < d → 2 ^ (d - 1) ≤ m < 2 ^ d →
  ∀ p, m = Z.pos p → Z.pos (digits2_pos p) = d.
Proof.
  intros Hd Hm p ->. pose proof (digits2_pos_bounds p) as Hp.
  set (d' := Z.pos (digits2_pos p)) in *.
  assert (Hd' : 0 < d') by (subst d'; lia).
  destruct (Z.lt_trichotomy d' d) as [Hlt|[Heq|Hgt]]; [|done|].
  - assert (2 ^ d' ≤ 2 ^ (d - 1)) by (apply Z.pow_le_mono_r; lia). lia.
  - assert (2 ^ d ≤ 2 ^ (d' - 1)) by (apply Z.pow_le_mono_r; lia). lia.
Qed.

Lemma digits_mono (p q : positive) :
  Z.pos p ≤ Z.pos q → Z.pos (digits2_pos p) ≤ Z.pos (digits2_pos q).
Proof.
  intros Hle. pose proof (digits2_pos_bounds p) as Hp. pose proof (digits2_pos_bounds q) as Hq.
  destruct (Z.le_gt_cases (Z.pos (digits2_pos p)) (Z.pos (digits2_pos q))) as [|Hgt]; [done|].
  assert (2 ^ Z.pos (digits2_pos q) ≤ 2 ^ (Z.pos (digits2_pos p) - 1))
    by (apply Z.pow_le_mono_r; lia).
  lia.
Qed.

(** ** Shifting right with a round and a sticky bit *)

Lemma iter_pos_nat {A} (f : A → A) (p : positive) (x : A) :
  SpecFloat.iter_pos f p x = @Nat.iter (Pos.to_nat p) A f x.
Proof.
  revert x. induction p as [p IH|p IH|]; intros x; cbn [SpecFloat.iter_pos].
  - rewrite !IH, Pos2Nat.inj_xI.
    replace (S (2 * Pos.to_nat p)) with (Pos.to_nat p + (Pos.to_nat p + 1))%nat by lia.
    by rewrite !Nat.iter_add.
  - rewrite !IH, Pos2Nat.inj_xO.
    replace (2 * Pos.to_nat p)%nat with (Pos.to_nat p + Pos.to_nat p)%nat by lia.
    by rewrite Nat.iter_add.
  - done.
Qed.

Lemma shr_1_spec (m : Z) (r s : bool) :
  0 ≤ m →
  shr_1 {| shr_m := m; shr_r := r; shr_s := s |}
  = {| shr_m := m / 2; shr_r := Z.odd m; shr_s := r || s |}.
Proof.
  intros Hm. rewrite <- Z.div2_div.
  destruct m as [|[p|p|]|]; try done; lia.
Qed.

Lemma mod_pow2_succ (m n : Z) :
  0 ≤ n → m mod 2 ^ (n + 1) = m mod 2 ^ n + 2 ^ n * ((m / 2 ^ n) mod 2).
Proof.
  intros Hn. rewrite Z.pow_add_r, Z.pow_1_r by lia.
  apply Z.rem_mul_r; lia.
Qed.

Lemma shr_iter_spec (n : nat) (m : Z) :
  0 ≤ m →
  @Nat.iter (S n) shr_record shr_1 {| shr_m := m; shr_r := false; shr_s := false |}
  = {| shr_m := m / 2 ^ Z.of_nat (S n);
       shr_r := Z.odd (m / 2 ^ Z.of_nat n);
       shr_s := negb (m mod 2 ^ Z.of_nat n =? 0) |}.
Proof.
  intros Hm. induction n as [|n IH].
  - cbn [Nat.iter]. rewrite shr_1_spec by done.
    change (Z.of_nat 1) with 1. change (Z.of_nat 0) with 0.
    rewrite Z.pow_1_r, Z.pow_0_r, Z.div_1_r, Z.mod_1_r. done.
  - rewrite Nat.iter_succ, IH.
    rewrite shr_1_spec by (apply Z.div_pos; lia).
    f_equal.
    + rewrite Z.div_div by lia.
      f_equal. rewrite (Nat2Z.inj_succ (S n)), Z.pow_succ_r by lia. lia.
    + rewrite (Nat2Z.inj_succ n), <- Z.add_1_r, (mod_pow2_succ m (Z.of_nat n)) by lia.
      assert (Hpos : 0 < 2 ^ Z.of_nat n) by (apply Z.pow_pos_nonneg; lia).
      pose proof (Z.mod_pos_bound m (2 ^ Z.of_nat n) Hpos) as Hb.
      rewrite Zodd_mod.
      destruct (Z.mod_pos_bound (m / 2 ^ Z.of_nat n) 2) as [? ?]; [lia|].
      destruct (Z.eqb_spec ((m / 2 ^ Z.of_nat n) mod 2) 1) as [He|He];
        destruct (Z.eqb_spec (m mod 2 ^ Z.of_nat n) 0) as [Hz|Hz];
        match goal with |- _ = negb (?x =? 0) => destruct (Z.eqb_spec x 0) as [Hx|Hx] end;
        cbn [negb orb]; try done; exfalso; nia.
Qed.

(** The record that [n] shifts leave of a mantissa. *)
Lemma shr_spec (m : Z) (p : positive) :
  0 ≤ m →
  SpecFloat.iter_pos shr_1 p {| shr_m := m; shr_r := false; shr_s := false |}
  = {| shr_m := m / 2 ^ Z.pos p;
       shr_r := Z.odd (m / 2 ^ (Z.pos p - 1));
       shr_s := negb (m mod 2 ^ (Z.pos p - 1) =? 0) |}.
Proof.
  intros Hm. rewrite iter_pos_nat.
  destruct (Pos2Nat.is_succ p) as [n Hn]. rewrite Hn, shr_iter_spec by done.
  assert (Z.pos p = Z.of_nat (S n)) by (rewrite <- Hn; by rewrite positive_nat_Z).
  replace (Z.pos p - 1) with (Z.of_nat n) by lia.
  by replace (Z.pos p) with (Z.of_nat (S n)).
Qed.

(** Rounding the shifted mantissa to nearest, ties to even. *)
Lemma round_shr (m : Z) (p : positive) :
  0 ≤ m →
  let r := SpecFloat.iter_pos shr_1 p {| shr_m := m; shr_r := false; shr_s := false |} in
  round_nearest_even (shr_m r) (loc_of_shr_record r) = Py.half_even m (2 ^ Z.pos p).
Proof.
  intros Hm. cbv zeta. rewrite shr_spec by done.
  set (n := Z.pos p). set (h := 2 ^ (n - 1)).
  assert (Hh : 0 < h) by (apply Z.pow_pos_nonneg; lia).
  assert (Hn : 2 ^ n = 2 * h).
  { subst h. replace n with (n - 1 + 1) at 1 by lia.
    rewrite Z.pow_add_r, Z.pow_1_r by lia. lia. }
  rewrite Hn. unfold Py.half_even. cbn [shr_m loc_of_shr_record].
  assert (Hmod : m mod (2 * h) = m mod h + h * ((m / h) mod 2)).
  { rewrite (Z.mul_comm 2 h). apply Z.rem_mul_r; lia. }
  pose proof (Z.mod_pos_bound m h Hh) as Hb.
  destruct (Z.mod_pos_bound (m / h) 2) as [? ?]; [lia|].
  rewrite Zodd_mod.
  destruct (Z.eqb_spec ((m / h) mod 2) 1) as [He|He];
    destruct (Z.eqb_spec (m mod h) 0) as [Hz|Hz]; cbn [negb round_nearest_even].
  - rewrite (proj2 (Z.ltb_ge _ _)) by nia. rewrite (proj2 (Z.ltb_ge _ _)) by nia. done.
  - rewrite (proj2 (Z.ltb_ge _ _)) by nia. rewrite (proj2 (Z.ltb_lt _ _)) by nia. done.
  - rewrite (proj2 (Z.ltb_lt _ _)) by nia. done.
  - rewrite (proj2 (Z.ltb_lt _ _)) by nia. done.
Qed.

(** ** What rounding makes of a mantissa and an exponent *)

Lemma fexp_spec (e : Z) : fexp prec emax e = Z.max (e - 53) (-1074).
Proof. reflexivity. Qed.

Lemma Zdigits2_bounds (m : Z) :
  0 < m → 0 < Zdigits2 m ∧ 2 ^ (Zdigits2 m - 1) ≤ m < 2 ^ Zdigits2 m.
Proof.
  destruct m as [|p|p]; try lia. intros _. cbn [Zdigits2].
  split; [lia|apply digits2_pos_bounds].
Qed.

Lemma Zdigits2_unique (m d : Z) :
  0 < d → 2 ^ (d - 1) ≤ m < 2 ^ d → Zdigits2 m = d.
Proof.
  intros Hd Hm.
  assert (0 < m).
  { assert (0 < 2 ^ (d - 1)) by (apply Z.pow_pos_nonneg; lia). lia. }
  destruct m as [|p|p]; try lia. cbn [Zdigits2]. by eapply digits_unique.
Qed.

Lemma Zdigits2_shift (m k : Z) :
  0 < m → 0 ≤ k → Zdigits2 (m * 2 ^ k) = Zdigits2 m + k.
Proof.
  intros Hm Hk. destruct (Zdigits2_bounds m Hm) as [Hd Hb].
  assert (H2k : 0 < 2 ^ k) by (apply Z.pow_pos_nonneg; lia).
  apply Zdigits2_unique; [lia|].
  replace (Zdigits2 m + k - 1) with (Zdigits2 m - 1 + k) by lia.
  rewrite !Z.pow_add_r by lia. nia.
Qed.

Lemma Zdigits2_mono (m1 m2 : Z) :
  0 < m1 → m1 ≤ m2 → Zdigits2 m1 ≤ Zdigits2 m2.
Proof.
  intros H1 H12. destruct m1 as [|p|p], m2 as [|q|q]; try lia.
  cbn [Zdigits2]. by apply digits_mono.
Qed.

Lemma shl_pos (p k : positive) : Z.pos (Pos.iter xO p k) = Z.pos p * 2 ^ Z.pos k.
Proof.
  induction k as [|k IH] using Pos.peano_ind.
  - cbn [Pos.iter]. rewrite Pos2Z.inj_xO, Z.pow_1_r. lia.
  - rewrite Pos.iter_succ, Pos2Z.inj_xO, IH, Pos2Z.inj_succ, Z.pow_succ_r by lia. lia.
Qed.

Lemma shr_fexp_exact (m e : Z) :
  0 < m → fexp prec emax (Zdigits2 m + e) = e →
  shr_fexp prec emax m e loc_Exact = ({| shr_m := m; shr_r := false; shr_s := false |}, e).
Proof.
  intros Hm He. unfold shr_fexp. rewrite He, Z.sub_diag. done.
Qed.

Lemma binary_round_aux_exact (s : bool) (m e : Z) :
  0 < m → fexp prec emax (Zdigits2 m + e) = e →
  binary_round_aux prec emax s m e loc_Exact = finish s m e.
Proof.
  intros Hm He. unfold binary_round_aux.
  rewrite shr_fexp_exact by done. cbn [shr_m loc_of_shr_record round_nearest_even].
  rewrite shr_fexp_exact by done. cbn [shr_m]. by destruct m.
Qed.

Lemma half_even_bounds (m d : Z) :
  0 ≤ m → 0 < d → m / d ≤ Py.half_even m d ≤ m / d + 1.
Proof.
  intros Hm Hd. unfold Py.half_even.
  destruct (_ <? _); [lia|]. destruct (_ <? _); [lia|]. destruct (Z.even _); lia.
Qed.

Lemma binary_round_spec (s : bool) (p : positive) (e : Z) :
  -1074 ≤ e → binary_round prec emax s p e = round_pos s (Z.pos p) e.
Proof.
  intros He. unfold binary_round, round_pos.
  change (Z.pos (digits2_pos p)) with (Zdigits2 (Z.pos p)).
  destruct (Zdigits2_bounds (Z.pos p)) as [Hd Hb]; [lia|].
  set (d := Zdigits2 (Z.pos p)) in *.
  destruct (Z.leb_spec d prec) as [Hle|Hgt].
  - (* the mantissa fits: the result is exact *)
    unfold prec in Hle.
    assert (HF : fexp prec emax (d + e) ≤ e) by (rewrite fexp_spec; lia).
    set (F := fexp prec emax (d + e)) in *.
    unfold shl_align.
    destruct (F - e) as [|k|k] eqn:Hk; try lia.
    + assert (HFe : F = e) by lia. rewrite HFe, Z.sub_diag, Z.pow_0_r, Z.mul_1_r.
      apply binary_round_aux_exact; [lia|]. fold d. by fold F.
    + assert (Z.pos k = e - F) as Hk' by lia.
      rewrite <- Hk', <- shl_pos.
      apply binary_round_aux_exact; [lia|].
      rewrite shl_pos, Zdigits2_shift by lia. fold d.
      replace (d + Z.pos k + F) with (d + e) by lia. done.
  - (* the mantissa is shifted right and rounded *)
    unfold prec in Hgt.
    assert (HF : fexp prec emax (d + e) = e + (d - 53)) by (rewrite fexp_spec; lia).
    unfold shl_align. rewrite HF.
    destruct (e + (d - 53) - e) as [|k|k] eqn:Hk; try lia.
    assert (Hn : d - prec = Z.pos k) by (unfold prec; lia).
    unfold binary_round_aux, shr_fexp at 1.
    fold d. rewrite HF. rewrite Hk. cbn [shr shr_record_of_loc].
    rewrite round_shr by lia.
    rewrite Hn.
    assert (Hpow : 2 ^ d = 2 ^ 53 * 2 ^ Z.pos k).
    { rewrite <- Z.pow_add_r by lia. f_equal. unfold prec in Hn. lia. }
    assert (Hpow' : 2 ^ (d - 1) = 2 ^ 52 * 2 ^ Z.pos k).
    { rewrite <- Z.pow_add_r by lia. f_equal. unfold prec in Hn. lia. }
    assert (H2k : 0 < 2 ^ Z.pos k) by (apply Z.pow_pos_nonneg; lia).
    assert (Hq : 2 ^ 52 ≤ Z.pos p / 2 ^ Z.pos k < 2 ^ 53).
    { split.
      - apply Z.div_le_lower_bound; lia.
      - apply Z.div_lt_upper_bound; lia. }
    pose proof (half_even_bounds (Z.pos p) (2 ^ Z.pos k)) as Hh.
    set (q := Py.half_even (Z.pos p) (2 ^ Z.pos k)) in *.
    assert (Hq' : 2 ^ 52 ≤ q ≤ 2 ^ 53) by lia.
    destruct (Z.eqb_spec q (2 ^ prec)) as [Hcarry|Hnc].
    + rewrite Hcarry. unfold shr_fexp.
      assert (Hdig : Zdigits2 (2 ^ prec) = 54) by (by apply Zdigits2_unique).
      rewrite Hdig, fexp_spec.
      replace (Z.max (54 + (e + Z.pos k) - 53) (-1074) - (e + Z.pos k)) with 1 by lia.
      cbn [shr shr_record_of_loc SpecFloat.iter_pos].
      rewrite shr_1_spec by done. cbn [shr_m].
      change (2 ^ prec / 2) with (2 ^ (prec - 1)).
      unfold finish. change (2 ^ (prec - 1)) with (Z.pos (2 ^ 52)).
      replace (e + (d - prec) + 1) with (e + Z.pos k + 1) by lia. done.
    + unfold prec in Hnc.
      rewrite shr_fexp_exact.
      * cbn [shr_m]. replace (e + (d - prec)) with (e + Z.pos k) by lia.
        unfold finish. by destruct q.
      * lia.
      * assert (Hdig : Zdigits2 q = 53) by (apply Zdigits2_unique; lia).
        rewrite Hdig, fexp_spec. lia.
Qed.

(** ** Order of the values *)

Lemma huge_pos : 0 < huge.
Proof. by apply Z.pow_pos_nonneg. Qed.

Lemma pow_split (a b : Z) : 0 ≤ a ≤ b → 2 ^ b = 2 ^ (b - a) * 2 ^ a.
Proof. intros H. rewrite <- Z.pow_add_r by lia. f_equal. lia. Qed.

Lemma pow_ge_2 (k : Z) : 1 ≤ k → 2 ≤ 2 ^ k.
Proof.
  intros Hk. change 2 with (2 ^ 1) at 1. apply Z.pow_le_mono_r; lia.
Qed.

Lemma pow_pos (k : Z) : 0 ≤ k → 0 < 2 ^ k.
Proof. intros Hk. apply Z.pow_pos_nonneg; lia. Qed.

Lemma canonical_cases (m e : Z) :
  0 < m → fexp prec emax (Zdigits2 m + e) = e →
  -1074 ≤ e ∧ Zdigits2 m ≤ 53 ∧ (e = -1074 ∨ Zdigits2 m = 53).
Proof. rewrite fexp_spec. lia. Qed.

Lemma bounded_spec (m : positive) (e : Z) :
  bounded prec emax m e = true ↔
  fexp prec emax (Zdigits2 (Z.pos m) + e) = e ∧ e ≤ 971.
Proof.
  unfold bounded, canonical_mantissa.
  rewrite andb_true_iff, Z.eqb_eq, Z.leb_le. done.
Qed.

Lemma val_lt_huge (m e : Z) :
  0 < m → fexp prec emax (Zdigits2 m + e) = e → e ≤ 971 →
  0 < m * 2 ^ (e + 1074) < huge.
Proof.
  intros Hm Hc He. destruct (canonical_cases m e Hm Hc) as (He' & Hd & _).
  destruct (Zdigits2_bounds m Hm) as [Hd0 Hb].
  assert (H53 : 2 ^ Zdigits2 m ≤ 2 ^ 53) by (apply Z.pow_le_mono_r; lia).
  assert (Hp : 0 < 2 ^ (e + 1074)) by (apply pow_pos; lia).
  assert (Hq : 2 ^ (e + 1074) ≤ 2 ^ 2045) by (apply Z.pow_le_mono_r; lia).
  unfold huge. change (2 ^ 2098) with (2 ^ 53 * 2 ^ 2045). nia.
Qed.

Lemma val_ge_huge (m e : Z) :
  0 < m → fexp prec emax (Zdigits2 m + e) = e → 972 ≤ e →
  huge ≤ m * 2 ^ (e + 1074).
Proof.
  intros Hm Hc He. destruct (canonical_cases m e Hm Hc) as (He' & Hd & [?|Hd53]); [lia|].
  destruct (Zdigits2_bounds m Hm) as [Hd0 Hb]. rewrite Hd53 in Hb.
  assert (Hq : 2 ^ 2046 ≤ 2 ^ (e + 1074)) by (apply Z.pow_le_mono_r; lia).
  unfold huge. change (2 ^ 2098) with (2 ^ 52 * 2 ^ 2046).
  change (2 ^ (53 - 1)) with (2 ^ 52) in Hb.
  assert (0 < 2 ^ 52) by done. assert (0 < 2 ^ 2046) by done. nia.
Qed.

Lemma canonical_lt (m1 e1 m2 e2 : Z) :
  0 < m1 → 0 < m2 →
  fexp prec emax (Zdigits2 m1 + e1) = e1 →
  fexp prec emax (Zdigits2 m2 + e2) = e2 →
  e1 < e2 → m1 * 2 ^ (e1 + 1074) < m2 * 2 ^ (e2 + 1074).
Proof.
  intros H1 H2 Hc1 Hc2 He.
  destruct (canonical_cases m1 e1 H1 Hc1) as (He1 & Hd1 & _).
  destruct (canonical_cases m2 e2 H2 Hc2) as (He2 & _ & [?|Hd2]); [lia|].
  destruct (Zdigits2_bounds m1 H1) as [_ [_ Hb1]].
  destruct (Zdigits2_bounds m2 H2) as [_ [Hb2 _]]. rewrite Hd2 in Hb2.
  assert (H53 : 2 ^ Zdigits2 m1 ≤ 2 ^ 53) by (apply Z.pow_le_mono_r; lia).
  change (2 ^ (53 - 1)) with (2 ^ 52) in Hb2.
  rewrite (pow_split (e1 + 1074) (e2 + 1074)) by lia.
  replace (e2 + 1074 - (e1 + 1074)) with (e2 - e1) by lia.
  pose proof (pow_ge_2 (e2 - e1)) as Hk.
  assert (Hp : 0 < 2 ^ (e1 + 1074)) by (apply pow_pos; lia).
  assert (Hm : m1 < m2 * 2 ^ (e2 - e1)) by (change (2 ^ 53) with (2 * 2 ^ 52) in H53; nia).
  rewrite Z.mul_assoc. by apply Z.mul_lt_mono_pos_r.
Qed.

Lemma canonical_compare (m1 m2 : positive) (e1 e2 : Z) :
  fexp prec emax (Zdigits2 (Z.pos m1) + e1) = e1 →
  fexp prec emax (Zdigits2 (Z.pos m2) + e2) = e2 →
  match e1 ?= e2 with
  | Lt => Lt
  | Gt => Gt
  | Eq => Pos.compare_cont Eq m1 m2
  end = (Z.pos m1 * 2 ^ (e1 + 1074) ?= Z.pos m2 * 2 ^ (e2 + 1074)).
Proof.
  intros Hc1 Hc2. destruct (Z.compare_spec e1 e2) as [->|Hlt|Hgt].
  - destruct (canonical_cases _ _ (Pos2Z.is_pos m1) Hc1) as (He & _).
    assert (Hp : 0 < 2 ^ (e2 + 1074)) by (apply pow_pos; lia).
    change (Pos.compare_cont Eq m1 m2) with (Z.pos m1 ?= Z.pos m2).
    symmetry. destruct (Z.compare_spec (Z.pos m1) (Z.pos m2)) as [->|Hlt|Hgt].
    + apply Z.compare_eq_iff. done.
    + apply Z.compare_lt_iff. by apply Z.mul_lt_mono_pos_r.
    + apply Z.compare_gt_iff. by apply Z.mul_lt_mono_pos_r.
  - symmetry. apply Z.compare_lt_iff. by apply canonical_lt.
  - symmetry. apply Z.compare_gt_iff. by apply canonical_lt.
Qed.

Lemma compare_opp_match (c a : comparison) :
  match c with Lt => Gt | Gt => Lt | Eq => CompOpp a end =
  CompOpp (match c with Lt => Lt | Gt => Gt | Eq => a end).
Proof. by destruct c. Qed.

Ltac compare_by_lia :=
  apply (f_equal Some); symmetry;
  first [apply Z.compare_eq_iff; lia | apply Z.compare_lt_iff; lia
        | apply Z.compare_gt_iff; lia].

(** On valid numbers the comparison of the language is the comparison
    of ranks. *)
Lemma rank_compare (x y : spec_float) :
  valid_binary x = true → valid_binary y = true →
  is_nan x = false → is_nan y = false →
  SFcompare x y = Some (rank x ?= rank y).
Proof.
  pose proof huge_pos as Htop.
  destruct x as [sx|sx| |sx mx ex], y as [sy|sy| |sy my ey]; try done;
    cbn [valid_binary rank SFcompare]; intros Hx Hy _ _;
    try (apply bounded_spec in Hx as [Hcx Hex];
         pose proof (val_lt_huge _ _ (Pos2Z.is_pos mx) Hcx Hex));
    try (apply bounded_spec in Hy as [Hcy Hey];
         pose proof (val_lt_huge _ _ (Pos2Z.is_pos my) Hcy Hey));
    try (destruct sx); try (destruct sy); cbn [cond_Zopp]; try compare_by_lia.
  - f_equal. rewrite compare_opp_match, canonical_compare by done.
    rewrite Z.compare_opp. symmetry. apply Z.compare_antisym.
  - f_equal. by apply canonical_compare.
Qed.

Lemma SFltb_rank (x y : spec_float) :
  valid_binary x = true → valid_binary y = true →
  SFltb x y = true ↔ is_nan x = false ∧ is_nan y = false ∧ rank x < rank y.
Proof.
  intros Hx Hy. unfold SFltb. split.
  - intros H. assert (is_nan x = false ∧ is_nan y = false) as [Hnx Hny].
    { by destruct x, y. }
    rewrite rank_compare in H by done.
    split; [done|]. split; [done|].
    destruct (rank x ?= rank y) eqn:Hc; first [done | by apply Z.compare_lt_iff].
  - intros (Hnx & Hny & Hlt). rewrite rank_compare by done.
    apply Z.compare_lt_iff in Hlt. by rewrite Hlt.
Qed.

Lemma SFleb_rank (x y : spec_float) :
  valid_binary x = true → valid_binary y = true →
  SFleb x y = true ↔ is_nan x = false ∧ is_nan y = false ∧ rank x ≤ rank y.
Proof.
  intros Hx Hy. unfold SFleb. split.
  - intros H. assert (is_nan x = false ∧ is_nan y = false) as [Hnx Hny].
    { by destruct x, y. }
    rewrite rank_compare in H by done.
    split; [done|]. split; [done|].
    destruct (rank x ?= rank y) eqn:Hc;
      first [done | unfold Z.le; by rewrite Hc].
  - intros (Hnx & Hny & Hle). rewrite rank_compare by done.
    apply Z.compare_le_iff in Hle. by destruct (_ ?= _).
Qed.

(** ** Rounding on the integer scale *)

Lemma half_even_exact (a c : Z) : 0 < c → Py.half_even (a * c) c = a.
Proof.
  intros Hc. unfold Py.half_even. rewrite Z.div_mul, Z.mod_mul by lia.
  destruct (Z.ltb_spec (2 * 0) c); [done|lia].
Qed.

Lemma half_even_scale (a b c : Z) :
  0 < b → 0 < c → Py.half_even (a * c) (b * c) = Py.half_even a b.
Proof.
  intros Hb Hc. unfold Py.half_even.
  rewrite Z.div_mul_cancel_r, Zmult_mod_distr_r by lia.
  assert (Hlt : ∀ x y, (x * c <? y * c) = (x <? y)).
  { intros x y. destruct (Z.ltb_spec x y), (Z.ltb_spec (x * c) (y * c)); try done; nia. }
  rewrite Z.mul_assoc, !Hlt. done.
Qed.

Lemma half_even_mono (a b c : Z) :
  0 < c → a ≤ b → Py.half_even a c ≤ Py.half_even b c.
Proof.
  intros Hc Hab.
  pose proof (Z.div_mod a c) as Ha. pose proof (Z.div_mod b c) as Hb.
  pose proof (Z.mod_pos_bound a c Hc) as Hra.
  pose proof (Z.mod_pos_bound b c Hc) as Hrb.
  assert (Hq : a / c ≤ b / c) by (apply Z.div_le_mono; lia).
  destruct (Z.eq_dec (a / c) (b / c)) as [Heq|Hne].
  - unfold Py.half_even. rewrite <- Heq.
    assert (a mod c ≤ b mod c) by (rewrite Heq in Ha; lia).
    repeat match goal with |- context [?x <? ?y] => destruct (Z.ltb_spec x y) end;
      destruct (Z.even (a / c)); lia.
  - assert (Hle : a / c + 1 ≤ b / c) by lia.
    unfold Py.half_even.
    repeat match goal with |- context [?x <? ?y] => destruct (Z.ltb_spec x y) end;
      destruct (Z.even (a / c)), (Z.even (b / c)); lia.
Qed.

Lemma nearest_bounds (w : Z) :
  0 < w → 2 ^ (Zdigits2 w - 1) ≤ nearest w ≤ 2 ^ Zdigits2 w.
Proof.
  intros Hw. destruct (Zdigits2_bounds w Hw) as [Hd Hb]. unfold nearest.
  destruct (Z.leb_spec (Zdigits2 w) 53) as [Hle|Hgt]; [lia|].
  set (d := Zdigits2 w) in *. set (n := d - 53).
  assert (Hn : 0 < 2 ^ n) by (apply pow_pos; lia).
  rewrite (pow_split n d) in Hb |- * by lia.
  rewrite (pow_split n (d - 1)) in Hb |- * by lia.
  replace (d - n) with 53 in * by lia. replace (d - 1 - n) with 52 in * by lia.
  assert (Hq : 2 ^ 52 ≤ w / 2 ^ n < 2 ^ 53).
  { split; [apply Z.div_le_lower_bound; lia|apply Z.div_lt_upper_bound; lia]. }
  pose proof (half_even_bounds w (2 ^ n)) as Hh.
  split; apply Z.mul_le_mono_nonneg_r; lia.
Qed.

Lemma nearest_mono (w1 w2 : Z) :
  0 < w1 → w1 ≤ w2 → nearest w1 ≤ nearest w2.
Proof.
  intros H1 H12.
  pose proof (Zdigits2_mono w1 w2 H1 H12) as Hd.
  pose proof (nearest_bounds w1 H1) as Hb1.
  pose proof (nearest_bounds w2) as Hb2.
  destruct (Z.eq_dec (Zdigits2 w1) (Zdigits2 w2)) as [Heq|Hne].
  - unfold nearest. rewrite <- Heq.
    destruct (Z.leb_spec (Zdigits2 w1) 53) as [Hle|Hgt]; [done|].
    apply Z.mul_le_mono_nonneg_r; [apply Z.lt_le_incl, pow_pos; lia|].
    apply half_even_mono; [apply pow_pos; lia|done].
  - destruct (Zdigits2_bounds w1 H1) as [Hd1 _].
    assert (2 ^ Zdigits2 w1 ≤ 2 ^ (Zdigits2 w2 - 1)) by (apply Z.pow_le_mono_r; lia).
    lia.
Qed.

Lemma nearest_pos (w : Z) : 0 < w → 0 < nearest w.
Proof.
  intros Hw. pose proof (nearest_bounds w Hw) as Hb.
  destruct (Zdigits2_bounds w Hw) as [Hd _].
  assert (0 < 2 ^ (Zdigits2 w - 1)) by (apply pow_pos; lia). lia.
Qed.

Lemma round_rank_pos (w : Z) : 0 < w → round_rank w = Z.min (nearest w) huge.
Proof. by destruct w. Qed.

Lemma round_rank_neg (w : Z) : w < 0 → round_rank w = - Z.min (nearest (- w)) huge.
Proof. by destruct w. Qed.

Lemma round_rank_mono (w1 w2 : Z) : w1 ≤ w2 → round_rank w1 ≤ round_rank w2.
Proof.
  intros Hle. pose proof huge_pos as Htop.
  destruct (Z.lt_trichotomy w1 0) as [H1|[->|H1]],
           (Z.lt_trichotomy w2 0) as [H2|[->|H2]]; try lia;
    rewrite ?(round_rank_pos w1), ?(round_rank_pos w2),
      ?(round_rank_neg w1), ?(round_rank_neg w2) by lia; cbn [round_rank];
    try (pose proof (nearest_pos (- w1) ltac:(lia)));
    try (pose proof (nearest_pos (- w2) ltac:(lia)));
    try (pose proof (nearest_pos w1 ltac:(lia)));
    try (pose proof (nearest_pos w2 ltac:(lia))); try lia.
  - pose proof (nearest_mono (- w2) (- w1)). lia.
  - pose proof (nearest_mono w1 w2). lia.
Qed.

Lemma round_rank_bounds (w : Z) : - huge ≤ round_rank w ≤ huge.
Proof.
  pose proof huge_pos as Htop.
  destruct (Z.lt_trichotomy w 0) as [H|[->|H]];
    rewrite ?round_rank_pos, ?round_rank_neg by lia; cbn [round_rank]; try lia.
  - pose proof (nearest_pos (- w)). lia.
  - pose proof (nearest_pos w). lia.
Qed.

(** A canonical mantissa and exponent denote a value rounding leaves alone. *)
Lemma nearest_canonical (m e : Z) :
  0 < m → fexp prec emax (Zdigits2 m + e) = e →
  nearest (m * 2 ^ (e + 1074)) = m * 2 ^ (e + 1074).
Proof.
  intros Hm Hc. destruct (canonical_cases m e Hm Hc) as (He & Hd & Hor).
  unfold nearest. rewrite Zdigits2_shift by lia.
  destruct (Z.leb_spec (Zdigits2 m + (e + 1074)) 53) as [Hle|Hgt]; [done|].
  destruct Hor as [->|Hd53]; [lia|].
  replace (Zdigits2 m + (e + 1074) - 53) with (e + 1074) by lia.
  rewrite half_even_exact by (apply pow_pos; lia). done.
Qed.

Lemma finish_spec (s : bool) (m e : Z) :
  0 < m → fexp prec emax (Zdigits2 m + e) = e →
  valid_binary (finish s m e) = true ∧ is_nan (finish s m e) = false ∧
  rank (finish s m e) = cond_Zopp s (Z.min (m * 2 ^ (e + 1074)) huge).
Proof.
  intros Hm Hc. destruct m as [|p|p]; try lia. cbn [finish].
  change (emax - prec) with 971.
  destruct (Z.leb_spec e 971) as [Hle|Hgt].
  - cbn [valid_binary is_nan rank]. split; [by apply bounded_spec|]. split; [done|].
    pose proof (val_lt_huge _ _ Hm Hc Hle). f_equal. lia.
  - cbn [valid_binary is_nan rank]. split; [done|]. split; [done|].
    pose proof (val_ge_huge _ _ Hm Hc ltac:(lia)). f_equal. lia.
Qed.

Lemma round_pos_spec (s : bool) (m e : Z) :
  0 < m → -1074 ≤ e →
  valid_binary (round_pos s m e) = true ∧ is_nan (round_pos s m e) = false ∧
  rank (round_pos s m e) = cond_Zopp s (Z.min (nearest (m * 2 ^ (e + 1074))) huge).
Proof.
  intros Hm He. destruct (Zdigits2_bounds m Hm) as [Hd Hb].
  unfold round_pos. change prec with 53.
  destruct (Z.leb_spec (Zdigits2 m) 53) as [Hle|Hgt].
  - set (F := fexp 53 emax (Zdigits2 m + e)).
    assert (HF : -1074 ≤ F ≤ e) by (subst F; change 53 with prec; rewrite fexp_spec; lia).
    assert (Hm' : 0 < m * 2 ^ (e - F)).
    { apply Z.mul_pos_pos; [done|apply pow_pos; lia]. }
    assert (Hc : fexp prec emax (Zdigits2 (m * 2 ^ (e - F)) + F) = F).
    { rewrite Zdigits2_shift by lia.
      replace (Zdigits2 m + (e - F) + F) with (Zdigits2 m + e) by lia. done. }
    assert (Hv : m * 2 ^ (e - F) * 2 ^ (F + 1074) = m * 2 ^ (e + 1074)).
    { rewrite <- Z.mul_assoc, <- Z.pow_add_r by lia. do 2 f_equal. lia. }
    destruct (finish_spec s _ _ Hm' Hc) as (Hvalid & Hnan & Hrank).
    split; [done|]. split; [done|].
    rewrite Hrank, <- Hv, nearest_canonical by done. done.
  - set (n := Zdigits2 m - 53) in *. set (k := e + 1074).
    assert (Hn : 0 < 2 ^ n) by (apply pow_pos; lia).
    assert (Hk : 0 < 2 ^ k) by (apply pow_pos; lia).
    assert (Hnear : nearest (m * 2 ^ k) = Py.half_even m (2 ^ n) * 2 ^ (n + k)).
    { unfold nearest. rewrite Zdigits2_shift by lia.
      destruct (Z.leb_spec (Zdigits2 m + k) 53); [lia|].
      replace (Zdigits2 m + k - 53) with (n + k) by lia.
      rewrite (Z.pow_add_r 2 n k) at 1 by lia.
      rewrite (Z.mul_comm (2 ^ n) (2 ^ k)) at 1.
      rewrite (Z.mul_comm (2 ^ k) (2 ^ n)), half_even_scale by lia. done. }
    rewrite (pow_split n (Zdigits2 m)) in Hb by lia.
    rewrite (pow_split n (Zdigits2 m - 1)) in Hb by lia.
    replace (Zdigits2 m - n) with 53 in Hb by lia.
    replace (Zdigits2 m - 1 - n) with 52 in Hb by lia.
    assert (Hq : 2 ^ 52 ≤ m / 2 ^ n < 2 ^ 53).
    { split; [apply Z.div_le_lower_bound; lia|apply Z.div_lt_upper_bound; lia]. }
    pose proof (half_even_bounds m (2 ^ n)) as Hh.
    set (q := Py.half_even m (2 ^ n)) in *.
    rewrite Hnear.
    destruct (Z.eqb_spec q (2 ^ 53)) as [Hcarry|Hnc].
    + assert (Hc : fexp prec emax (Zdigits2 (2 ^ (53 - 1)) + (e + n + 1)) = e + n + 1).
      { rewrite fexp_spec. change (Zdigits2 (2 ^ (53 - 1))) with 53. lia. }
      destruct (finish_spec s (2 ^ (53 - 1)) (e + n + 1) ltac:(done) Hc)
        as (Hvalid & Hnan & Hrank).
      split; [done|]. split; [done|]. rewrite Hrank, Hcarry. do 2 f_equal.
      replace (e + n + 1 + 1074) with (1 + (n + k)) by lia.
      rewrite (Z.pow_add_r 2 1 (n + k)) by lia. change (2 ^ (53 - 1)) with (2 ^ 52).
      change (2 ^ 53) with (2 ^ 52 * 2 ^ 1). lia.
    + assert (Hdq : Zdigits2 q = 53) by (apply Zdigits2_unique; [lia|]; change (2 ^ (53 - 1)) with (2 ^ 52); lia).
      assert (Hc : fexp prec emax (Zdigits2 q + (e + n)) = e + n).
      { rewrite Hdq, fexp_spec. lia. }
      destruct (finish_spec s q (e + n) ltac:(lia) Hc) as (Hvalid & Hnan & Hrank).
      split; [done|]. split; [done|]. rewrite Hrank.
      replace (e + n + 1074) with (n + k) by lia. done.
Qed.

Lemma cond_Zopp_mul (s : bool) (a c : Z) : cond_Zopp s a * c = cond_Zopp s (a * c).
Proof. destruct s; cbn [cond_Zopp]; lia. Qed.

(** Normalising the integer [m] at exponent [e] rounds [m * 2 ^ e]. *)
Lemma normalize_spec (m e : Z) (sz : bool) :
  -1074 ≤ e →
  valid_binary (binary_normalize prec emax m e sz) = true ∧
  is_nan (binary_normalize prec emax m e sz) = false ∧
  rank (binary_normalize prec emax m e sz) = round_rank (m * 2 ^ (e + 1074)).
Proof.
  intros He. assert (Hk : 0 < 2 ^ (e + 1074)) by (apply pow_pos; lia).
  destruct m as [|p|p]; cbn [binary_normalize].
  - done.
  - rewrite binary_round_spec by done.
    destruct (round_pos_spec false (Z.pos p) e ltac:(done) He) as (Hv & Hn & Hr).
    split; [done|]. split; [done|].
    by rewrite Hr, round_rank_pos by lia.
  - rewrite binary_round_spec by done.
    destruct (round_pos_spec true (Z.pos p) e ltac:(done) He) as (Hv & Hn & Hr).
    split; [done|]. split; [done|].
    rewrite Hr, round_rank_neg by lia. cbn [cond_Zopp]. do 3 f_equal. lia.
Qed.

(** ** Subtraction *)

Lemma rank_fixed (x : spec_float) :
  valid_binary x = true → is_fin x = true → round_rank (rank x) = rank x.
Proof.
  destruct x as [s|s| |s m e]; try done. cbn [valid_binary rank]. intros Hv _.
  apply bounded_spec in Hv as [Hc He].
  pose proof (val_lt_huge _ _ (Pos2Z.is_pos m) Hc He) as Hb.
  pose proof (nearest_canonical _ _ (Pos2Z.is_pos m) Hc) as Hn.
  destruct s; cbn [cond_Zopp].
  - rewrite round_rank_neg, Z.opp_involutive, Hn by lia. lia.
  - rewrite round_rank_pos, Hn by lia. lia.
Qed.

Lemma shl_align_spec (mx : positive) (ex ez : Z) :
  ez ≤ ex → Z.pos (fst (shl_align mx ex ez)) = Z.pos mx * 2 ^ (ex - ez).
Proof.
  intros Hle. unfold shl_align. destruct (ez - ex) as [|k|k] eqn:Hk; cbn [fst]; try lia.
  - replace (ex - ez) with 0 by lia. lia.
  - rewrite shl_pos. do 2 f_equal. lia.
Qed.

(** The difference of two finite numbers is their exact difference,
    rounded once. *)
Lemma SFsub_fin_spec (x y : spec_float) :
  valid_binary x = true → valid_binary y = true →
  is_fin x = true → is_fin y = true →
  valid_binary (SFsub prec emax x y) = true ∧
  is_nan (SFsub prec emax x y) = false ∧
  rank (SFsub prec emax x y) = round_rank (rank x - rank y).
Proof.
  intros Hx Hy Hfx Hfy.
  destruct x as [sx|sx| |sx mx ex], y as [sy|sy| |sy my ey]; try done.
  - by destruct sx, sy.
  - cbn [SFsub]. split; [done|]. split; [done|].
    rewrite <- (rank_fixed (S754_finite (negb sy) my ey)) by done.
    f_equal. cbn [rank]. destruct sy; cbn [negb cond_Zopp]; lia.
  - cbn [SFsub]. split; [done|]. split; [done|].
    rewrite <- (rank_fixed (S754_finite sx mx ex)) at 1 by done.
    f_equal. cbn [rank]. lia.
  - cbn [SFsub valid_binary] in *.
    apply bounded_spec in Hx as [Hcx _]. apply bounded_spec in Hy as [Hcy _].
    destruct (canonical_cases _ _ (Pos2Z.is_pos mx) Hcx) as (Hex & _).
    destruct (canonical_cases _ _ (Pos2Z.is_pos my) Hcy) as (Hey & _).
    set (ez := Z.min ex ey).
    destruct (normalize_spec
      (cond_Zopp sx (Z.pos (fst (shl_align mx ex ez))) -
       cond_Zopp sy (Z.pos (fst (shl_align my ey ez)))) ez false ltac:(lia))
      as (Hv & Hn & Hr).
    split; [done|]. split; [done|]. rewrite Hr. f_equal.
    rewrite !shl_align_spec by lia. cbn [rank].
    rewrite Z.mul_sub_distr_r, !cond_Zopp_mul, <- !Z.mul_assoc, <- !Z.pow_add_r by lia.
    replace (ex - ez + (ez + 1074)) with (ex + 1074) by lia.
    replace (ey - ez + (ez + 1074)) with (ey + 1074) by lia. done.
Qed.

Lemma SFltb_infinity (m d : spec_float) :
  SFltb m d = true → SFltb m (S754_infinity false) = true.
Proof. destruct m as [?|[]| |[] ? ?], d as [?|[]| |[] ? ?]; done. Qed.

(** A later reading makes the age only larger: what was older than [m]
    stays older than [m]. *)
Lemma SFsub_mono_l (n1 n2 t m : spec_float) :
  valid_binary n1 = true → valid_binary n2 = true →
  valid_binary t = true → valid_binary m = true →
  SFleb n1 n2 = true →
  SFltb m (SFsub prec emax n1 t) = true →
  SFltb m (SFsub prec emax n2 t) = true.
Proof.
  intros Hn1 Hn2 Ht Hm Hle Hlt.
  destruct (is_fin n1 && is_fin n2 && is_fin t) eqn:Hfin.
  - apply andb_true_iff in Hfin as [Hfin Hft].
    apply andb_true_iff in Hfin as [Hf1 Hf2].
    destruct (SFsub_fin_spec n1 t) as (Hv1 & Hnan1 & Hr1); [done..|].
    destruct (SFsub_fin_spec n2 t) as (Hv2 & Hnan2 & Hr2); [done..|].
    apply SFleb_rank in Hle as (_ & _ & Hle); [|done..].
    apply SFltb_rank in Hlt as (Hnm & _ & Hlt); [|done..].
    apply SFltb_rank; [done..|]. split; [done|]. split; [done|].
    pose proof (round_rank_mono (rank n1 - rank t) (rank n2 - rank t)). lia.
  - clear Hn1 Hn2 Ht Hm.
    destruct n1 as [?|[]| |? ? ?], n2 as [?|[]| |? ? ?], t as [?|[]| |? ? ?];
      try done;
      first [by eapply SFltb_infinity | by destruct m as [?|[]| |[] ? ?]].
Qed.

(** An earlier timestamp is at least as old. *)
Lemma SFsub_anti_r (n t1 t2 m : spec_float) :
  valid_binary n = true → valid_binary t1 = true →
  valid_binary t2 = true → valid_binary m = true →
  SFleb t1 t2 = true →
  SFltb m (SFsub prec emax n t2) = true →
  SFltb m (SFsub prec emax n t1) = true.
Proof.
  intros Hn Ht1 Ht2 Hm Hle Hlt.
  destruct (is_fin n && is_fin t1 && is_fin t2) eqn:Hfin.
  - apply andb_true_iff in Hfin as [Hfin Hf2].
    apply andb_true_iff in Hfin as [Hfn Hf1].
    destruct (SFsub_fin_spec n t1) as (Hv1 & Hnan1 & Hr1); [done..|].
    destruct (SFsub_fin_spec n t2) as (Hv2 & Hnan2 & Hr2); [done..|].
    apply SFleb_rank in Hle as (_ & _ & Hle); [|done..].
    apply SFltb_rank in Hlt as (Hnm & _ & Hlt); [|done..].
    apply SFltb_rank; [done..|]. split; [done|]. split; [done|].
    pose proof (round_rank_mono (rank n - rank t2) (rank n - rank t1)). lia.
  - clear Hn Ht1 Ht2 Hm.
    destruct n as [?|[]| |? ? ?], t1 as [?|[]| |? ? ?], t2 as [?|[]| |? ? ?];
      try done;
      first [by eapply SFltb_infinity | by destruct m as [?|[]| |[] ? ?]].
Qed.

(** The two facts on the floats of the language. *)
Lemma sub_ltb_later (now1 now2 t m : float) :
  (now1 <=? now2)%float = true →
  (m <? now1 - t)%float = true → (m <? now2 - t)%float = true.
Proof.
  rewrite leb_spec, !ltb_spec, !sub_spec.
  apply SFsub_mono_l; apply Prim2SF_valid.
Qed.

Lemma sub_ltb_earlier (now t1 t2 m : float) :
  (t1 <=? t2)%float = true →
  (m <? now - t2)%float = true → (m <? now - t1)%float = true.
Proof.
  rewrite leb_spec, !ltb_spec, !sub_spec.
  apply SFsub_anti_r; apply Prim2SF_valid.
Qed.

Lemma leb_trans (a b c : float) :
  (a <=? b)%float = true → (b <=? c)%float = true → (a <=? c)%float = true.
Proof.
  rewrite !leb_spec. intros H1 H2.
  apply SFleb_rank in H1 as (Ha & Hb & H1); [|apply Prim2SF_valid..].
  apply SFleb_rank in H2 as (_ & Hc & H2); [|apply Prim2SF_valid..].
  apply SFleb_rank; [apply Prim2SF_valid..|]. split; [done|]. split; [done|]. lia.
Qed.

End Binary64Facts.

(** ** Eviction on a window whose ages are in order *)

Lemma filter_Forall_id {A} (P : A → Prop) `{∀ x, Decision (P x)} (l : list A) :
  Forall P l → filter P l = l.
Proof.
  induction 1 as [|x l Hx _ IH]; [done|].
  rewrite filter_cons_True by done. by rewrite IH.
Qed.

Lemma evict_cons {A} (now max_age t : float) (x : A) (w : list (float * A)) :
  evict now max_age ((t, x) :: w)
  = if stale now max_age t then evict now max_age w else (t, x) :: w.
Proof. reflexivity. Qed.

Lemma evict_fresh {A} (now max_age : float) (w : list (float * A)) :
  age_closed now max_age w → evict now max_age w = fresh now max_age w.
Proof.
  unfold age_closed, fresh. induction w as [|[t x] w IH]; intros Hs; [done|].
  apply StronglySorted_inv in Hs as [Hs Hhd].
  rewrite evict_cons. destruct (stale now max_age t) eqn:Hold.
  - rewrite filter_cons_False by (simpl; congruence). by apply IH.
  - rewrite filter_Forall_id; [done|].
    constructor; [done|].
    eapply Forall_impl; [exact Hhd|].
    intros [t' x'] Ht'. simpl in *.
    destruct (stale now max_age t'); [|done]. by rewrite Ht' in Hold.
Qed.

Lemma evict_suffix {A} (now max_age : float) (w : list (float * A)) :
  evict now max_age w `suffix_of` w.
Proof.
  induction w as [|[t x] w IH]; [done|].
  rewrite evict_cons. destruct (stale now max_age t); [by apply suffix_cons_r|done].
Qed.

Lemma StronglySorted_sublist {A} (R : relation A) (l k : list A) :
  l `sublist_of` k → StronglySorted R k → StronglySorted R l.
Proof.
  induction 1 as [|x l k Hsub IH|x l k Hsub IH]; intros Hk; [done| |].
  - apply StronglySorted_inv in Hk as [Hk Hhd].
    constructor; [by apply IH|].
    rewrite Forall_forall in Hhd. rewrite Forall_forall.
    intros y Hy. apply Hhd. by eapply elem_of_sublist.
  - apply StronglySorted_inv in Hk as [Hk _]. by apply IH.
Qed.

Lemma Forall_suffix {A} (P : A → Prop) (w w' : list A) :
  w' `suffix_of` w → Forall P w → Forall P w'.
Proof. intros [pre ->] Hw. by apply Forall_app in Hw as [_ Hw]. Qed.

Lemma suffix_sublist {A} (w w' : list A) : w' `suffix_of` w → w' `sublist_of` w.
Proof. intros [pre ->]. by apply sublist_inserts_l. Qed.

Lemma age_closed_sublist {A} (now max_age : float) (w w' : list (float * A)) :
  w `sublist_of` w' → age_closed now max_age w' → age_closed now max_age w.
Proof. apply StronglySorted_sublist. Qed.

(** Filtering at a reading what was filtered at an earlier one, when
    staleness persisted from the one to the other. *)
Lemma fresh_later {A} (lo now max_age : float) (w : list (float * A)) :
  Forall (λ y, stale lo max_age y.1 = true → stale now max_age y.1 = true) w →
  fresh now max_age (fresh lo max_age w) = fresh now max_age w.
Proof.
  intros Hp. unfold fresh. rewrite list_filter_filter.
  induction Hp as [|[t x] w Ht _ IH]; [done|]. simpl in Ht.
  rewrite !filter_cons, IH.
  repeat case_decide; try done; simpl in *.
  - tauto.
  - destruct (stale lo max_age t); [|tauto]. rewrite Ht in * by done. tauto.
Qed.

(** ** Readings of a clock that never goes back *)

Lemma stale_earlier (now max_age t1 t2 : float) :
  (t1 <=? t2)%float = true → stale now max_age t2 = true → stale now max_age t1 = true.
Proof. apply Binary64Facts.sub_ltb_earlier. Qed.

Lemma stale_later (now later max_age t : float) :
  (now <=? later)%float = true → stale now max_age t = true → stale later max_age t = true.
Proof. apply Binary64Facts.sub_ltb_later. Qed.

Lemma StronglySorted_impl {A} (R R' : relation A) (l : list A) :
  (∀ x y, R x y → R' x y) → StronglySorted R l → StronglySorted R' l.
Proof.
  intros HR. induction 1 as [|x l Hl IH Hx]; constructor; [done|].
  eapply Forall_impl; [exact Hx|]. intros y. apply HR.
Qed.

Lemma clock_ordered_strongly {A} (w : list (float * A)) :
  clock_ordered w → StronglySorted (λ x y, (x.1 <=? y.1)%float = true) w.
Proof.
  apply Sorted.Sorted_StronglySorted. intros x y z. apply Binary64Facts.leb_trans.
Qed.

Lemma clock_ordered_closed {A} (now max_age : float) (w : list (float * A)) :
  clock_ordered w → age_closed now max_age w.
Proof.
  intros Hw. apply clock_ordered_strongly in Hw. unfold age_closed.
  eapply StronglySorted_impl; [|exact Hw]. intros x y. apply stale_earlier.
Qed.

Lemma clock_ordered_ages {A} (max_age : float) (obs : list (float * A)) :
  ∀ past,
    StronglySorted (λ x y, (x.1 <=? y.1)%float = true) (past ++ obs) →
    ages_ordered max_age past obs.
Proof.
  induction obs as [|o rest IH]; intros past Hs; [done|]. cbn [ages_ordered].
  split; [|split].
  - unfold age_closed. eapply StronglySorted_impl; [intros x y; apply stale_earlier|].
    eapply StronglySorted_sublist; [|exact Hs].
    apply sublist_app; [done|]. apply sublist_skip, sublist_nil_l.
  - destruct (last past) as [prev|] eqn:Hlast; [|done].
    apply Forall_forall. intros y _. apply stale_later.
    apply (StronglySorted_app_1_elem_of
             (λ x y : float * A, (x.1 <=? y.1)%float = true) past (o :: rest) prev o Hs);
      [by apply last_Some_elem_of|by left].
  - apply IH. by rewrite <- app_assoc.
Qed.

(** ** File burst detector *)

Lemma file_change_paths (l : list string) :
  map path (map (λ p, {| path := p; change_type := "modified"; size_bytes := None |}) l) = l.
Proof. rewrite map_map. simpl. apply map_id. Qed.

(** One call, from any detector state: it fires exactly when the queue,
    after the append and the eviction, has reached the threshold. *)
Lemma file_observe_step (now : float) (env : MakeEnv) (p : string) (root : option string)
    (d : FileBurstDetector.t) :
  let q := evict now (FileBurstDetector.window_secs d)
             (FileBurstDetector._recent d ++ [(now, p)]) in
  let r := FileBurstDetector.observe now env p root d in
  (Py.len q >= FileBurstDetector.threshold d →
     ∃ ev, r = (Some ev, FileBurstDetector.with_recent [] d)
           ∧ source ev = "filesystem"
           ∧ event_type ev = EventType.FS_BATCH_MODIFIED
           ∧ confidence ev = 0.4%float
           ∧ fired_paths (Some ev) = Some (map snd q))
  ∧ (Py.len q < FileBurstDetector.threshold d →
       r = (None, FileBurstDetector.with_recent q d)).
Proof.
  intros q r. subst r. unfold FileBurstDetector.observe. fold q.
  split; intros Hq.
  - rewrite bool_decide_eq_true_2 by done.
    eexists. split; [reflexivity|]. repeat split; try reflexivity.
    simpl. by rewrite file_change_paths.
  - rewrite bool_decide_eq_false_2 by lia. done.
Qed.

Lemma file_observe_evicts (now : float) (p : string) (d : FileBurstDetector.t)
    (pending past : list (float * string)) (rest : list (float * string)) :
  file_queue_inv d pending past →
  ages_ordered (FileBurstDetector.window_secs d) past ((now, p) :: rest) →
  evict now (FileBurstDetector.window_secs d) (FileBurstDetector._recent d ++ [(now, p)])
  = fresh now (FileBurstDetector.window_secs d) (pending ++ [(now, p)]).
Proof.
  intros [Hsuf Hq] (Hclosed & Hpersist & _). cbn [fst] in *.
  destruct (last past) as [prev|] eqn:Hlast.
  - rewrite Hq, evict_fresh.
    + unfold fresh at 1. rewrite filter_app.
      fold (fresh now (FileBurstDetector.window_secs d)
              (fresh prev.1 (FileBurstDetector.window_secs d) pending)).
      rewrite fresh_later by (by apply (Forall_suffix _ past)).
      unfold fresh. by rewrite filter_app.
    + apply (age_closed_sublist _ _ _ (past ++ [(now, p)])); [|done].
      apply sublist_app; [|done].
      etrans; [apply sublist_filter|by apply suffix_sublist].
  - destruct Hq as [-> ->]. apply last_None in Hlast as ->.
    by apply evict_fresh.
Qed.

Lemma file_run_refines (obs : list FileObs) :
  ∀ (d : FileBurstDetector.t) (pending past : list (float * string)),
    file_queue_inv d pending past →
    ages_ordered (FileBurstDetector.window_secs d) past (fo_entry <$> obs) →
    (fired_paths ∘ fst) <$> file_run d obs
    = spec_file_fires (FileBurstDetector.window_secs d) (FileBurstDetector.threshold d)
        pending (fo_entry <$> obs).
Proof.
  induction obs as [|o obs IH]; intros d pending past Hinv Hord; [done|].
  rewrite fmap_cons in Hord. unfold fo_entry at 1 in Hord.
  pose proof (file_observe_evicts _ _ _ _ _ _ Hinv Hord) as Hev.
  destruct Hord as (_ & _ & Hrest). destruct Hinv as [Hsuf _].
  set (now := fo_now o) in *.
  cbn [file_run fmap list_fmap]. fold (@fmap list _ _ _ fo_entry obs).
  cbn [spec_file_fires fo_entry]. fold fo_entry. fold now.
  destruct (file_observe_step now (fo_env o) (fo_path o) (fo_root o) d) as [Hfire Hquiet].
  cbv zeta in Hfire, Hquiet. rewrite Hev in Hfire, Hquiet. unfold fresh in Hfire, Hquiet.
  case_bool_decide as Hthr.
  - destruct (Hfire Hthr) as (ev & Hr & _ & _ & _ & Hpaths).
    rewrite Hr. cbn [compose fst snd]. rewrite Hpaths. f_equal.
    refine (IH (FileBurstDetector.with_recent [] d) [] _ _ Hrest).
    split; [apply suffix_nil|]. by rewrite last_snoc.
  - rewrite Hquiet by lia. cbn [compose fst snd fired_paths fmap option_fmap option_map]. f_equal.
    refine (IH (FileBurstDetector.with_recent _ d) _ _ _ Hrest).
    split; [by apply suffix_app|]. by rewrite last_snoc.
Qed.

Lemma file_run_shape (obs : list FileObs) :
  ∀ d : FileBurstDetector.t,
    Forall (λ r : option WorkflowEvent * FileBurstDetector.t,
              match r.1 with
              | Some ev =>
                  source ev = "filesystem"
                  ∧ event_type ev = EventType.FS_BATCH_MODIFIED
                  ∧ confidence ev = 0.4%float
                  ∧ FileBurstDetector._recent r.2 = []
              | None => True
              end) (file_run d obs).
Proof.
  induction obs as [|o obs IH]; intros d; [constructor|].
  cbn [file_run]. constructor; [|apply IH].
  unfold FileBurstDetector.observe. by case_bool_decide.
Qed.

(** C6.  For every sequence of filesystem observations on a fresh
    detector, made at the readings of a clock that never goes back: a
    call fires exactly when the number of observations not consumed by an
    earlier fire and not older than the window (the current one included)
    has reached the threshold, ages being measured as the code measures
    them (the binary64 difference of two readings, compared with the
    window); the fire carries every such path; each fire is one
    "filesystem batch modified" event of confidence 0.4 that leaves the
    queue empty; every other call returns nothing. *)
Theorem file_burst_fires_exactly_at_threshold (window : float) (thr : Z)
    (obs : list FileObs) :
  clock_ordered (fo_entry <$> obs) →
  let tr := file_run (FileBurstDetector.init window thr) obs in
  (fired_paths ∘ fst) <$> tr = spec_file_fires window thr [] (fo_entry <$> obs)
  ∧ Forall (λ r : option WorkflowEvent * FileBurstDetector.t,
              match r.1 with
              | Some ev =>
                  source ev = "filesystem"
                  ∧ event_type ev = EventType.FS_BATCH_MODIFIED
                  ∧ confidence ev = 0.4%float
                  ∧ FileBurstDetector._recent r.2 = []
              | None => True
              end) tr.
Proof.
  intros Hobs tr. split; [|apply file_run_shape].
  subst tr.
  refine (file_run_refines obs (FileBurstDetector.init window thr) [] [] _ _); [done|].
  apply clock_ordered_ages. by apply clock_ordered_strongly.
Qed.

Lemma file_burst_fires_exactly_at_threshold_witness :
  clock_ordered (fo_entry <$> five_paths)
  ∧ (let tr := file_run (FileBurstDetector.init 5 3) five_paths in
     (fired_paths ∘ fst) <$> tr
     = spec_file_fires 5 3 [] (fo_entry <$> five_paths)
     ∧ Forall (λ r : option WorkflowEvent * FileBurstDetector.t,
                 match r.1 with
                 | Some ev =>
                     source ev = "filesystem"
                     ∧ event_type ev = EventType.FS_BATCH_MODIFIED
                     ∧ confidence ev = 0.4%float
                     ∧ FileBurstDetector._recent r.2 = []
                 | None => True
                 end) tr).
Proof.
  assert (H : clock_ordered (fo_entry <$> five_paths)).
  { unfold clock_ordered. cbn. repeat constructor. }
  split; [exact H|].
  exact (file_burst_fires_exactly_at_threshold 5 3 five_paths H).
Defined.

(** The scenario of the specification: three paths within the window fire
    once with all three; two further immediate observations do not. *)
Example file_burst_scenario :
  (fired_paths ∘ fst) <$> file_run FileBurstDetector.defaults five_paths
  = [None; None; Some ["a.py"; "b.py"; "c.py"]; None; None].
Proof. vm_compute. reflexivity. Qed.

(** Ages are binary64 differences: at the readings 3.3, 5.0 and 8.3 the
    first path is evicted at the third call, 8.3 - 3.3 being
    5.000000000000001 in binary64, and nothing fires. *)
Example file_burst_boundary :
  (8.3 - 3.3)%float = 5.000000000000001%float
  ∧ map (λ r, (fired_paths r.1, map snd (FileBurstDetector._recent r.2)))
      (file_run FileBurstDetector.defaults boundary_paths)
    = [ (None, ["a.py"]); (None, ["a.py"; "b.py"]); (None, ["b.py"; "c.py"]) ].
Proof. split; vm_compute; reflexivity. Qed.

(** ** Completion burst detector *)

Lemma copilot_observe_step (d : CopilotBurstDetector.t) (o : CopilotObs) :
  let s := copilot_step d o in
  (CopilotBurstDetector.is_in_burst (cs_after s) = true ↔ burst_condition (cs_after s))
  ∧ transition_events s.
Proof.
  destruct o as [now uid env ev]. destruct d as [ws tt ct w act st tot cnt].
  unfold copilot_step, CopilotBurstDetector.observe, burst_condition, transition_events.
  cbn [co_now co_uid co_env co_event CopilotBurstDetector.window_secs
       CopilotBurstDetector.token_threshold CopilotBurstDetector.count_threshold
       CopilotBurstDetector._window CopilotBurstDetector._active_burst_id
       CopilotBurstDetector._burst_start_time CopilotBurstDetector._burst_token_total
       CopilotBurstDetector._burst_entry_count].
  set (w' := evict now ws _).
  do 2 case_bool_decide; destruct act as [bid|];
    cbn -[CopilotBurstDetector.window_tokens CopilotBurstDetector.window_count];
    (split; [split|]);
    first [ done | by left | by right | intros [?|?]; lia | by eexists ].
Qed.




(** The thresholds are configuration: [observe] never changes them. *)
Lemma copilot_observe_config (d : CopilotBurstDetector.t) (o : CopilotObs) :
  let d' := cs_after (copilot_step d o) in
  CopilotBurstDetector.window_secs d' = CopilotBurstDetector.window_secs d
  ∧ CopilotBurstDetector.token_threshold d' = CopilotBurstDetector.token_threshold d
  ∧ CopilotBurstDetector.count_threshold d' = CopilotBurstDetector.count_threshold d.
Proof.
  unfold copilot_step, CopilotBurstDetector.observe. cbn [cs_after].
  destruct (_ || _), (CopilotBurstDetector._active_burst_id d); done.
Qed.

(** [flush] on an idle detector returns nothing and changes nothing. *)
Lemma flush_idle (clk : nat → float) (env : MakeEnv) (d : CopilotBurstDetector.t) :
  CopilotBurstDetector.is_in_burst d = false →
  CopilotBurstDetector.flush clk env d = (None, d).
Proof.
  unfold CopilotBurstDetector.is_in_burst, CopilotBurstDetector.flush.
  by destruct (CopilotBurstDetector._active_burst_id d).
Qed.

(** [flush] on an active burst returns its burst-end event and clears the
    burst id and start time; the running totals are left as they were. *)
Lemma flush_active (clk : nat → float) (env : MakeEnv) (d : CopilotBurstDetector.t) :
  CopilotBurstDetector.is_in_burst d = true →
  ∃ ev d',
    CopilotBurstDetector.flush clk env d = (Some ev, d')
    ∧ event_type ev = EventType.COPILOT_BURST_END
    ∧ burst_id ev = CopilotBurstDetector.active_burst_id d
    ∧ burst_token_total ev = Some (CopilotBurstDetector._burst_token_total d)
    ∧ burst_entry_count ev = Some (CopilotBurstDetector._burst_entry_count d)
    ∧ CopilotBurstDetector.is_in_burst d' = false
    ∧ CopilotBurstDetector._active_burst_id d' = None
    ∧ CopilotBurstDetector._burst_start_time d' = None
    ∧ CopilotBurstDetector._burst_token_total d' = CopilotBurstDetector._burst_token_total d
    ∧ CopilotBurstDetector._burst_entry_count d' = CopilotBurstDetector._burst_entry_count d.
Proof.
  unfold CopilotBurstDetector.is_in_burst, CopilotBurstDetector.flush,
    CopilotBurstDetector.active_burst_id.
  destruct (CopilotBurstDetector._active_burst_id d); [|done].
  intros _. do 2 eexists. split; [reflexivity|]. by repeat split.
Qed.

(** The burst-end branch of [observe] resets all four burst fields. *)
Lemma observe_end_resets (d : CopilotBurstDetector.t) (o : CopilotObs) :
  let s := copilot_step d o in
  CopilotBurstDetector.is_in_burst (cs_before s) = true →
  CopilotBurstDetector.is_in_burst (cs_after s) = false →
  CopilotBurstDetector._active_burst_id (cs_after s) = None
  ∧ CopilotBurstDetector._burst_start_time (cs_after s) = None
  ∧ CopilotBurstDetector._burst_token_total (cs_after s) = 0
  ∧ CopilotBurstDetector._burst_entry_count (cs_after s) = 0.
Proof.
  unfold copilot_step, CopilotBurstDetector.observe, CopilotBurstDetector.is_in_burst.
  cbn [cs_after cs_before].
  destruct (_ || _), (CopilotBurstDetector._active_burst_id d); done.
Qed.

(** C7, on the code.  Three completions of 10+10 tokens with count
    threshold 3 and the token threshold out of reach: the third call
    returns the burst-start; an immediate [flush] returns the burst-end
    and clears the burst id and the start time, but the running token
    total and entry count keep the values of the flushed burst (60 and 3)
    instead of being reset. *)
Theorem flush_leaves_running_totals :
  let steps := copilot_run count_only_detector three_completions in
  let d := copilot_final count_only_detector three_completions in
  let r := CopilotBurstDetector.flush (λ _, 3%float) (sample_env "ev-4") d in
  map (λ s, event_type <$> cs_emitted s) steps
    = [[]; []; [EventType.COPILOT_BURST_START]]
  ∧ CopilotBurstDetector.is_in_burst d = true
  ∧ (event_type <$> r.1) = Some EventType.COPILOT_BURST_END
  ∧ CopilotBurstDetector.is_in_burst r.2 = false
  ∧ CopilotBurstDetector._active_burst_id r.2 = None
  ∧ CopilotBurstDetector._burst_start_time r.2 = None
  ∧ CopilotBurstDetector._burst_token_total r.2 = 60
  ∧ CopilotBurstDetector._burst_entry_count r.2 = 3.
Proof. vm_compute. by repeat split. Qed.

(** ** Confidence scorer *)

Ltac split_ifs :=
  repeat match goal with
         | |- context [if ?b then _ else _] => destruct b
         end.

Lemma score_antigravity_in_unit (e : WorkflowEvent) :
  Py.in_unit (ConfidenceScorer._score_antigravity e) = true.
Proof. unfold ConfidenceScorer._score_antigravity. split_ifs; reflexivity. Qed.

Lemma score_git_in_unit (clk : nat → float) (e : WorkflowEvent) (s : ConfidenceScorer.t) :
  Py.in_unit (ConfidenceScorer._score_git clk e s).1 = true.
Proof.
  unfold ConfidenceScorer._score_git.
  destruct (Py.truthy_str (task_id e)); cbv zeta iota beta; split_ifs; reflexivity.
Qed.

Lemma score_copilot_in_unit (clk : nat → float) (e : WorkflowEvent) (s : ConfidenceScorer.t) :
  Py.in_unit (ConfidenceScorer._score_copilot clk e s).1 = true.
Proof.
  unfold ConfidenceScorer._score_copilot. cbv zeta.
  destruct (Py.truthy_str (burst_id e)),
    (ConfidenceScorer.nonempty (evict (clk 0%nat) _ _)),
    (ConfidenceScorer.nonempty (evict (clk 1%nat) _ _)),
    (Py.truthy_str (task_id e)); try reflexivity;
    destruct (ConfidenceScorer.nonempty (evict (clk 2%nat) _ _)); reflexivity.
Qed.

Lemma score_filesystem_in_unit (clk : nat → float) (e : WorkflowEvent) (s : ConfidenceScorer.t) :
  Py.in_unit (ConfidenceScorer._score_filesystem clk e s).1 = true.
Proof.
  unfold ConfidenceScorer._score_filesystem. cbv zeta.
  destruct (ConfidenceScorer.nonempty (evict (clk 0%nat) _ _)),
    (ConfidenceScorer.nonempty (evict (clk 1%nat) _ _)); reflexivity.
Qed.

Lemma score_scored_source (clk : nat → float) (e : WorkflowEvent) (s : ConfidenceScorer.t) :
  scored_source e = true → Py.in_unit (ConfidenceScorer.score clk e s).1 = true.
Proof.
  unfold scored_source, ConfidenceScorer.score.
  destruct (bool_decide (source e = "antigravity")); [intros _; apply score_antigravity_in_unit|].
  destruct (bool_decide (source e = "git")); [intros _; apply score_git_in_unit|].
  destruct (bool_decide (source e = "copilot")); [intros _; apply score_copilot_in_unit|].
  destruct (bool_decide (source e = "filesystem")); [intros _; apply score_filesystem_in_unit|].
  done.
Qed.

Lemma score_passthrough (clk : nat → float) (e : WorkflowEvent) (s : ConfidenceScorer.t) :
  scored_source e = false → ConfidenceScorer.score clk e s = (confidence e, s).
Proof.
  unfold scored_source, ConfidenceScorer.score.
  destruct (bool_decide (source e = "antigravity")); [done|].
  destruct (bool_decide (source e = "git")); [done|].
  destruct (bool_decide (source e = "copilot")); [done|].
  destruct (bool_decide (source e = "filesystem")); done.
Qed.

(** C3, as the code has it.  For every state of the recency windows, the
    score of an event whose source has a rule of its own (antigravity,
    git, copilot, filesystem) lies in [0,1], and recording any number of
    further signals does not change that; an event of any other source
    gets its carried confidence back, unchanged and unclipped, before and
    after any recording, so its score lies in [0,1] exactly when the
    carried confidence does. *)
Theorem score_within_unit_interval (clk : nat → float) (e : WorkflowEvent)
    (s : ConfidenceScorer.t) (signals : list (float * WorkflowEvent)) :
  (scored_source e = true →
   Py.in_unit (ConfidenceScorer.score clk e s).1 = true
   ∧ Py.in_unit (ConfidenceScorer.score clk e (record_all signals s)).1 = true)
  ∧ (scored_source e = false →
     (ConfidenceScorer.score clk e s).1 = confidence e
     ∧ (ConfidenceScorer.score clk e (record_all signals s)).1 = confidence e
     ∧ Py.in_unit (ConfidenceScorer.score clk e s).1 = Py.in_unit (confidence e)
     ∧ Py.in_unit (ConfidenceScorer.score clk e (record_all signals s)).1
       = Py.in_unit (confidence e)).
Proof.
  split; intros Hsrc.
  - split; by apply score_scored_source.
  - rewrite !score_passthrough by done. by cbn [fst].
Qed.

(** C3 as worded fails on the pass-through rule: a derived event minted
    with confidence 1.5 is scored 1.5. *)
Lemma score_passthrough_not_clipped :
  (ConfidenceScorer.score (at_time 0) overconfident_derived ConfidenceScorer.init).1
  = 1.5%float
  ∧ Py.in_unit
      (ConfidenceScorer.score (at_time 0) overconfident_derived ConfidenceScorer.init).1
    = false.
Proof. split; reflexivity. Qed.

(** The redundant-signal test of the repository: the score is exactly 1. *)
Example score_capped_after_redundant_signals :
  (ConfidenceScorer.score (at_time 10%float) bursty_completion_with_task
     (record_all redundant_signals ConfidenceScorer.init)).1 = 1.0%float.
Proof. vm_compute. reflexivity. Qed.

Lemma score_copilot_dispatch (clk : nat → float) (e : WorkflowEvent) (s : ConfidenceScorer.t) :
  source e = "copilot" →
  ConfidenceScorer.score clk e s = ConfidenceScorer._score_copilot clk e s.
Proof. intros H. unfold ConfidenceScorer.score. by rewrite H. Qed.

(** C4.  The ai-assist rule: the score is base 0.2, plus 0.2 when the
    event carries a burst id, plus 0.2 when the filesystem window is
    non-empty, plus 0.2 when the commit window is non-empty, plus 0.2 when
    the event carries a task id, else plus 0.1 when the task window is
    non-empty (each window as its age eviction leaves it).  A completion
    with a burst id scored against empty windows gets 0.4; the same event
    with its own task id, scored after a filesystem and a commit signal
    were recorded, gets 1.0. *)
Theorem copilot_score_follows_rule (clk : nat → float) (e : WorkflowEvent)
    (s : ConfidenceScorer.t) :
  (ConfidenceScorer._score_copilot clk e s).1
  = spec_ai_assist
      (Py.truthy_str (burst_id e))
      (ConfidenceScorer.nonempty
         (evict (clk 0%nat) ConfidenceScorer.FS_PROXIMITY_SECS (ConfidenceScorer._recent_fs s)))
      (ConfidenceScorer.nonempty
         (evict (clk 1%nat) ConfidenceScorer.GIT_PROXIMITY_SECS (ConfidenceScorer._recent_git s)))
      (Py.truthy_str (task_id e))
      (ConfidenceScorer.nonempty
         (evict (clk 2%nat) ConfidenceScorer.TASK_PROXIMITY_SECS
            (ConfidenceScorer._recent_tasks s)))
  ∧ (ConfidenceScorer.score (at_time 10%float) bursty_completion
       ConfidenceScorer.init).1 = 0.4%float
  ∧ (ConfidenceScorer.score (at_time 10%float) bursty_completion_with_task
       (record_all [(8%float, fs_signal); (9%float, git_signal)]
          ConfidenceScorer.init)).1 = 1.0%float.
Proof.
  split; [|split; vm_compute; reflexivity].
  unfold ConfidenceScorer._score_copilot. cbv zeta.
  destruct (Py.truthy_str (burst_id e)),
    (ConfidenceScorer.nonempty (evict (clk 0%nat) _ _)),
    (ConfidenceScorer.nonempty (evict (clk 1%nat) _ _)),
    (Py.truthy_str (task_id e)); try reflexivity;
    destruct (ConfidenceScorer.nonempty (evict (clk 2%nat) _ _)); reflexivity.
Qed.

Lemma record_signal_ignores_confidence (now : float) (c : float) (e : WorkflowEvent)
    (s : ConfidenceScorer.t) :
  ConfidenceScorer.record_signal now (WorkflowEvent_.set_confidence c e) s
  = ConfidenceScorer.record_signal now e s.
Proof. reflexivity. Qed.

(** C8.  [score_and_record] returns the input event with only its
    confidence rewritten, to [score] evaluated on the windows as they
    were before the call; the event is recorded afterwards, into the
    windows as scoring left them.  So the confidence never counts the
    event's own entry: on a copilot event whose kind routes it to the
    filesystem window, scoring first gives 0.2 where recording first would
    have given 0.4. *)
Theorem score_and_record_scores_before_recording (clk : nat → float) (now_rec : float)
    (e : WorkflowEvent) (s : ConfidenceScorer.t) :
  let r := ConfidenceScorer.score_and_record clk now_rec e s in
  let sc := ConfidenceScorer.score clk e s in
  r.1 = WorkflowEvent_.set_confidence sc.1 e
  ∧ confidence r.1 = sc.1
  ∧ r.2 = ConfidenceScorer.record_signal now_rec e sc.2
  ∧ confidence (ConfidenceScorer.score_and_record (at_time 1%float) 1%float
                  copilot_batch ConfidenceScorer.init).1 = 0.2%float
  ∧ (ConfidenceScorer.score (at_time 1%float) copilot_batch
       (ConfidenceScorer.record_signal 1%float copilot_batch ConfidenceScorer.init)).1
    = 0.4%float.
Proof.
  cbv zeta. unfold ConfidenceScorer.score_and_record.
  destruct (ConfidenceScorer.score clk e s) as [c s1]. cbn [fst snd].
  repeat split; reflexivity.
Qed.

(** ** Temporal correlator *)

Lemma record_unrouted (now : float) (e : WorkflowEvent) (c : TemporalCorrelator.t) :
  unrouted_source e ∨ (source e = "antigravity" ∧ Py.truthy_str (task_id e) = false) →
  TemporalCorrelator.record now e c = c.
Proof.
  unfold unrouted_source, TemporalCorrelator.record.
  intros [(Ha & Hg & Hf & Hc)|[Ha Ht]].
  - by rewrite !bool_decide_eq_false_2 by done.
  - rewrite Ht, Ha. rewrite andb_false_r.
    by rewrite !bool_decide_eq_false_2 by done.
Qed.

(** C10.  Recording an event whose source is none of antigravity, git,
    filesystem, copilot, or an antigravity event without a task id, leaves
    the four windows (the whole correlator) unchanged; commit linking and
    cluster detection therefore answer as if it had never been recorded,
    and the sources and ids they collect are the same. *)
Theorem record_leaves_windows_unchanged (now : float) (e : WorkflowEvent)
    (c : TemporalCorrelator.t) :
  unrouted_source e ∨ (source e = "antigravity" ∧ Py.truthy_str (task_id e) = false) →
  TemporalCorrelator.record now e c = c
  ∧ window_sources (TemporalCorrelator.record now e c) = window_sources c
  ∧ window_ids (TemporalCorrelator.record now e c) = window_ids c
  ∧ (∀ now' env commit,
       TemporalCorrelator._correlate_commit now' env commit
         (TemporalCorrelator.record now e c)
       = TemporalCorrelator._correlate_commit now' env commit c)
  ∧ (∀ now' env trigger,
       TemporalCorrelator._check_cluster now' env trigger
         (TemporalCorrelator.record now e c)
       = TemporalCorrelator._check_cluster now' env trigger c).
Proof.
  intros H. rewrite (record_unrouted now e c H). by repeat split.
Qed.

Lemma record_leaves_windows_unchanged_witness :
  (unrouted_source cluster_event
   ∨ (source cluster_event = "antigravity" ∧ Py.truthy_str (task_id cluster_event) = false))
  ∧ (TemporalCorrelator.record 4%float cluster_event three_sources = three_sources
     ∧ window_sources (TemporalCorrelator.record 4%float cluster_event three_sources)
       = window_sources three_sources
     ∧ window_ids (TemporalCorrelator.record 4%float cluster_event three_sources)
       = window_ids three_sources
     ∧ (∀ now' env commit,
          TemporalCorrelator._correlate_commit now' env commit
            (TemporalCorrelator.record 4%float cluster_event three_sources)
          = TemporalCorrelator._correlate_commit now' env commit three_sources)
     ∧ (∀ now' env trigger,
          TemporalCorrelator._check_cluster now' env trigger
            (TemporalCorrelator.record 4%float cluster_event three_sources)
          = TemporalCorrelator._check_cluster now' env trigger three_sources)).
Proof.
  assert (H : unrouted_source cluster_event
              ∨ (source cluster_event = "antigravity"
                 ∧ Py.truthy_str (task_id cluster_event) = false)).
  { left. unfold unrouted_source. simpl. by repeat split. }
  split; [exact H|].
  exact (record_leaves_windows_unchanged 4%float cluster_event three_sources H).
Defined.

(** Every event minted by [_check_cluster] has source "agent", so that
    recording it changes no window. *)
Lemma cluster_event_unrouted (now : float) (env : MakeEnv) (trigger ev : WorkflowEvent)
    (c : TemporalCorrelator.t) :
  (TemporalCorrelator._check_cluster now env trigger c).1 = Some ev →
  unrouted_source ev.
Proof.
  unfold TemporalCorrelator._check_cluster. cbv zeta.
  repeat case_bool_decide; cbn [fst]; intros [= <-]; by repeat split.
Qed.

(** An antigravity event without a task id is not recorded either. *)
Example record_planning_event_without_task :
  TemporalCorrelator.record 4%float
    (bare_event "ag-2" "antigravity" EventType.AG_SKILL_UPDATED 0) three_sources
  = three_sources.
Proof. reflexivity. Qed.

(** C5.  Cluster detection on the four windows evicted to the cluster
    horizon: with exactly two distinct sources present no event is
    returned; with at least three present and the trigger's source among
    them, one "activity clustered" event is returned, of confidence 0.7,
    listing the first 50 window event ids at most.  The correlator is
    left with its windows evicted in either case. *)
Theorem cluster_needs_three_sources (now : float) (env : MakeEnv) (trigger : WorkflowEvent)
    (c : TemporalCorrelator.t) :
  let c' := TemporalCorrelator._evict_all now (TemporalCorrelator.CLUSTER_WINDOW c) c in
  let r := TemporalCorrelator._check_cluster now env trigger c in
  r.2 = c'
  ∧ (size (window_sources c') = 2%nat → r.1 = None)
  ∧ ((size (window_sources c') ≥ 3)%nat → source trigger ∈ window_sources c' →
     ∃ ev, r.1 = Some ev
           ∧ source ev = "agent"
           ∧ event_type ev = EventType.WORKFLOW_ACTIVITY_CLUSTERED
           ∧ confidence ev = 0.7%float
           ∧ correlated_events ev = Some (take 50 (window_ids c'))
           ∧ (length (take 50 (window_ids c')) ≤ 50)%nat).
Proof.
  cbv zeta. unfold TemporalCorrelator._check_cluster, window_sources, window_ids. cbv zeta.
  set (c' := TemporalCorrelator._evict_all now _ c).
  split; [by repeat case_bool_decide|]. split.
  - intros H2. rewrite bool_decide_eq_true_2 by lia. done.
  - intros H3 Hin. rewrite bool_decide_eq_false_2 by lia.
    rewrite bool_decide_eq_false_2 by (intros Hn; by apply Hn).
    eexists. split; [reflexivity|]. repeat split.
    rewrite length_take. lia.
Qed.

Lemma cluster_needs_three_sources_witness :
  size (window_sources
          (TemporalCorrelator._evict_all 4%float
             (TemporalCorrelator.CLUSTER_WINDOW two_sources) two_sources)) = 2%nat
  ∧ (TemporalCorrelator._check_cluster 4%float (sample_env "cl-1") git_signal
       two_sources).1 = None
  ∧ (size (window_sources
             (TemporalCorrelator._evict_all 4%float
                (TemporalCorrelator.CLUSTER_WINDOW three_sources) three_sources)) ≥ 3)%nat
  ∧ source git_signal
    ∈ window_sources
        (TemporalCorrelator._evict_all 4%float
           (TemporalCorrelator.CLUSTER_WINDOW three_sources) three_sources)
  ∧ ∃ ev, (TemporalCorrelator._check_cluster 4%float (sample_env "cl-1") git_signal
             three_sources).1 = Some ev
          ∧ source ev = "agent"
          ∧ event_type ev = EventType.WORKFLOW_ACTIVITY_CLUSTERED
          ∧ confidence ev = 0.7%float
          ∧ correlated_events ev
            = Some (take 50 (window_ids
                               (TemporalCorrelator._evict_all 4%float
                                  (TemporalCorrelator.CLUSTER_WINDOW three_sources)
                                  three_sources)))
          ∧ (length (take 50 (window_ids
                                (TemporalCorrelator._evict_all 4%float
                                   (TemporalCorrelator.CLUSTER_WINDOW three_sources)
                                   three_sources))) ≤ 50)%nat.
Proof.
  assert (H2 : size (window_sources
                       (TemporalCorrelator._evict_all 4%float
                          (TemporalCorrelator.CLUSTER_WINDOW two_sources) two_sources))
               = 2%nat) by (vm_compute; reflexivity).
  assert (H3 : (size (window_sources
                        (TemporalCorrelator._evict_all 4%float
                           (TemporalCorrelator.CLUSTER_WINDOW three_sources) three_sources))
                ≥ 3)%nat) by (vm_compute; lia).
  assert (Hin : source git_signal
                ∈ window_sources
                    (TemporalCorrelator._evict_all 4%float
                       (TemporalCorrelator.CLUSTER_WINDOW three_sources) three_sources)).
  { apply (bool_decide_eq_true_1 _). vm_compute. reflexivity. }
  split; [exact H2|]. split.
  - exact (proj1 (proj2 (cluster_needs_three_sources 4%float (sample_env "cl-1")
                           git_signal two_sources)) H2).
  - split; [exact H3|]. split; [exact Hin|].
    exact (proj2 (proj2 (cluster_needs_three_sources 4%float (sample_env "cl-1")
                           git_signal three_sources)) H3 Hin).
Defined.

(** *** Commit linking *)

Lemma find_split {A} (f : A → bool) (l : list A) (x : A) :
  find f l = Some x →
  ∃ l1 l2, l = l1 ++ x :: l2 ∧ f x = true ∧ Forall (λ y, f y = false) l1.
Proof.
  induction l as [|y l IH]; [done|]. cbn [find].
  destruct (f y) eqn:Hy.
  - intros [= ->]. exists [], l. by repeat split.
  - intros Hf. destruct (IH Hf) as (l1 & l2 & -> & Hx & Hl1).
    exists (y :: l1), l2. repeat split; [done|]. by constructor.
Qed.

Lemma find_reverse_most_recent (f : float * WorkflowEvent → bool) (P : WorkflowEvent → Prop)
    (w : list (float * WorkflowEvent)) (x : float * WorkflowEvent) :
  (∀ y, f y = true ↔ P y.2) →
  find f (reverse w) = Some x → most_recent P w x.2.
Proof.
  intros HfP Hf. destruct (find_split _ _ _ Hf) as (l1 & l2 & Hrev & Hx & Hl1).
  destruct x as [ts tk]. exists (reverse l2), (reverse l1), ts.
  split; [|split].
  - rewrite <- (reverse_involutive w), Hrev.
    rewrite reverse_app, reverse_cons, <- app_assoc. done.
  - by apply (HfP (ts, tk)).
  - rewrite Forall_reverse. eapply Forall_impl; [exact Hl1|].
    intros y Hy HP. apply HfP in HP. congruence.
Qed.

Lemma find_reverse_none (f : float * WorkflowEvent → bool) (P : WorkflowEvent → Prop)
    (w : list (float * WorkflowEvent)) :
  (∀ y, f y = true ↔ P y.2) →
  find f (reverse w) = None → ∀ tk, tk ∈ w.*2 → ¬ P tk.
Proof.
  intros HfP Hf tk Hin HP.
  apply list_elem_of_fmap in Hin as ([ts tk'] & -> & Hin).
  assert (Hr : In (ts, tk') (reverse w)).
  { apply list_elem_of_In. by apply elem_of_reverse. }
  pose proof (find_none _ _ Hf _ Hr) as Hfalse.
  apply (HfP (ts, tk')) in HP. congruence.
Qed.

Lemma most_recent_elem (P : WorkflowEvent → Prop) (w : list (float * WorkflowEvent))
    (tk : WorkflowEvent) :
  most_recent P w tk → tk ∈ w.*2 ∧ P tk.
Proof.
  intros (older & newer & ts & -> & HP & _). split; [|done].
  rewrite fmap_app, fmap_cons. apply elem_of_app. right. by left.
Qed.

Lemma find_task_match_Some (commit tk : WorkflowEvent) (w : list (float * WorkflowEvent)) :
  TemporalCorrelator.find_task_match commit w = Some tk →
  most_recent (id_match commit) w tk.
Proof.
  unfold TemporalCorrelator.find_task_match.
  destruct (Py.truthy_str (task_id commit)) eqn:Ht; [|done].
  destruct (find _ _) as [x|] eqn:Hf; [|done]. intros [= <-].
  eapply find_reverse_most_recent; [|exact Hf].
  intros y. unfold id_match. rewrite bool_decide_eq_true. tauto.
Qed.

Lemma find_task_match_None (commit : WorkflowEvent) (w : list (float * WorkflowEvent)) :
  TemporalCorrelator.find_task_match commit w = None →
  ∀ tk, tk ∈ w.*2 → ¬ id_match commit tk.
Proof.
  unfold TemporalCorrelator.find_task_match.
  destruct (Py.truthy_str (task_id commit)) eqn:Ht.
  - destruct (find _ _) as [x|] eqn:Hf; [done|]. intros _.
    eapply find_reverse_none; [|exact Hf].
    intros y. unfold id_match. rewrite bool_decide_eq_true. tauto.
  - intros _ tk _ [Habs _]. congruence.
Qed.

Lemma find_file_overlap_Some (commit tk : WorkflowEvent) (w : list (float * WorkflowEvent)) :
  TemporalCorrelator.find_file_overlap commit w = Some tk →
  most_recent (files_overlap commit) w tk.
Proof.
  unfold TemporalCorrelator.find_file_overlap.
  destruct (Py.truthy_list (files_changed commit)) eqn:Ht; [|done].
  destruct (find _ _) as [x|] eqn:Hf; [|done]. intros [= <-].
  eapply find_reverse_most_recent; [|exact Hf].
  intros y. unfold files_overlap.
  rewrite andb_true_iff, bool_decide_eq_true. tauto.
Qed.

Lemma find_file_overlap_None (commit : WorkflowEvent) (w : list (float * WorkflowEvent)) :
  TemporalCorrelator.find_file_overlap commit w = None →
  ∀ tk, tk ∈ w.*2 → ¬ files_overlap commit tk.
Proof.
  unfold TemporalCorrelator.find_file_overlap.
  destruct (Py.truthy_list (files_changed commit)) eqn:Ht.
  - destruct (find _ _) as [x|] eqn:Hf; [done|]. intros _.
    eapply find_reverse_none; [|exact Hf].
    intros y. unfold files_overlap.
    rewrite andb_true_iff, bool_decide_eq_true. tauto.
  - intros _ tk _ [Habs _]. congruence.
Qed.

(** The three strategies in their order of precedence. *)
Lemma choose_task_precedence (commit last_task : WorkflowEvent)
    (w : list (float * WorkflowEvent)) :
  let best := (TemporalCorrelator.choose_task commit w last_task).1 in
  let cty := (TemporalCorrelator.choose_task commit w last_task).2 in
  ((∃ tk, tk ∈ w.*2 ∧ id_match commit tk) →
     cty = "task_match" ∧ most_recent (id_match commit) w best)
  ∧ (¬ (∃ tk, tk ∈ w.*2 ∧ id_match commit tk) →
     (∃ tk, tk ∈ w.*2 ∧ files_overlap commit tk) →
     cty = "file_overlap" ∧ most_recent (files_overlap commit) w best)
  ∧ (¬ (∃ tk, tk ∈ w.*2 ∧ id_match commit tk) →
     ¬ (∃ tk, tk ∈ w.*2 ∧ files_overlap commit tk) →
     cty = "time_proximity" ∧ best = last_task)
  ∧ (best ∈ w.*2 ∨ best = last_task).
Proof.
  cbv zeta. unfold TemporalCorrelator.choose_task.
  destruct (TemporalCorrelator.find_task_match commit w) as [tk|] eqn:Hid.
  - apply find_task_match_Some in Hid.
    destruct (most_recent_elem _ _ _ Hid) as [Hin HP].
    cbn [fst snd]. split; [done|].
    split; [intros Hn; exfalso; apply Hn; eauto|].
    split; [intros Hn; exfalso; apply Hn; eauto|]. by left.
  - pose proof (find_task_match_None _ _ Hid) as Hnid.
    destruct (TemporalCorrelator.find_file_overlap commit w) as [tk|] eqn:Hov.
    + apply find_file_overlap_Some in Hov.
      destruct (most_recent_elem _ _ _ Hov) as [Hin HP].
      cbn [fst snd]. split; [intros (t & ? & ?); exfalso; by eapply Hnid|].
      split; [done|].
      split; [intros _ Hn; exfalso; apply Hn; eauto|]. by left.
    + pose proof (find_file_overlap_None _ _ Hov) as Hnov.
      cbn [fst snd]. split; [intros (t & ? & ?); exfalso; by eapply Hnid|].
      split; [intros _ (t & ? & ?); exfalso; by eapply Hnov|].
      split; [done|]. by right.
Qed.

(** C2.  [_correlate_commit] first evicts the task window to its horizon
    and returns nothing when it is then empty.  Otherwise it returns one
    link event for a task of the window and annotates the commit with it,
    choosing in strict precedence: if some task carries the commit's task
    id, the most recent such task, by "task_match" at confidence 1.0,
    whatever the changed files say; else, if some task shares a changed
    path with the commit, the most recent such task, by "file_overlap" at
    0.8; else the last task of the window, by "time_proximity" at 0.5. *)
Theorem commit_linking_precedence (now : float) (env : MakeEnv) (commit : WorkflowEvent)
    (c : TemporalCorrelator.t) :
  let tasks := evict now (TemporalCorrelator.TASK_COMMIT_WINDOW c)
                 (TemporalCorrelator._tasks c) in
  let r := TemporalCorrelator._correlate_commit now env commit c in
  TemporalCorrelator._tasks r.2 = tasks
  ∧ (tasks = [] → r.1.1 = None ∧ r.1.2 = commit)
  ∧ (tasks ≠ [] →
     ∃ link best cty,
       r.1.1 = Some link
       ∧ best ∈ tasks.*2
       ∧ event_type link = EventType.GIT_COMMIT_LINKED
       ∧ correlation_type link = Some cty
       ∧ confidence link = TemporalCorrelator._link_confidence cty
       ∧ task_id link = task_id best
       ∧ task_title link = task_title best
       ∧ correlated_events link = Some [id commit; id best]
       ∧ r.1.2 = WorkflowEvent_.set_link (task_id best) (task_title best) cty
                   [id best] commit
       ∧ ((∃ tk, tk ∈ tasks.*2 ∧ id_match commit tk) →
            cty = "task_match" ∧ confidence link = 1.0%float
            ∧ most_recent (id_match commit) tasks best)
       ∧ (¬ (∃ tk, tk ∈ tasks.*2 ∧ id_match commit tk) →
          (∃ tk, tk ∈ tasks.*2 ∧ files_overlap commit tk) →
            cty = "file_overlap" ∧ confidence link = 0.8%float
            ∧ most_recent (files_overlap commit) tasks best)
       ∧ (¬ (∃ tk, tk ∈ tasks.*2 ∧ id_match commit tk) →
          ¬ (∃ tk, tk ∈ tasks.*2 ∧ files_overlap commit tk) →
            cty = "time_proximity" ∧ confidence link = 0.5%float
            ∧ snd <$> last tasks = Some best)).
Proof.
  cbv zeta. unfold TemporalCorrelator._correlate_commit. cbv zeta.
  set (tasks := evict now _ _).
  destruct (last tasks) as [[ts last_task]|] eqn:Hlast.
  - assert (Hne : tasks ≠ []) by (intros He; rewrite He in Hlast; done).
    pose proof (choose_task_precedence commit last_task tasks) as Hch.
    cbv zeta in Hch.
    destruct (TemporalCorrelator.choose_task commit tasks last_task) as [best cty].
    cbn [fst snd] in *. destruct Hch as (HA & HB & HC & Hwhere).
    split; [done|]. split; [done|]. intros _.
    exists (WorkflowEvent_.make env "git" EventType.GIT_COMMIT_LINKED
              {| kw_confidence := TemporalCorrelator._link_confidence cty;
                 kw_task_id := task_id best; kw_task_title := task_title best;
                 kw_burst_id := None; kw_burst_token_total := None;
                 kw_burst_duration_secs := None; kw_burst_entry_count := None;
                 kw_files_changed := None; kw_workspace_root := None;
                 kw_git_commit_sha := git_commit_sha commit;
                 kw_git_branch := git_branch commit;
                 kw_correlated_events := Some [id commit; id best];
                 kw_correlation_type := Some cty |}), best, cty.
    assert (Hin : best ∈ tasks.*2).
    { destruct Hwhere as [Hin| ->]; [done|].
      apply last_Some in Hlast as [l' Hl']. rewrite Hl'.
      rewrite fmap_app. apply elem_of_app. right. by left. }
    do 9 (split; [done|]). split; [|split].
    + intros Hid. destruct (HA Hid) as [-> Hmr]. by repeat split.
    + intros Hnid Hov. destruct (HB Hnid Hov) as [-> Hmr]. by repeat split.
    + intros Hnid Hnov. destruct (HC Hnid Hnov) as [-> ->].
      by repeat split.
  - apply last_None in Hlast. split; [done|]. split; [done|]. by intros Hn.
Qed.

Lemma commit_linking_precedence_witness :
  evict 3%float (TemporalCorrelator.TASK_COMMIT_WINDOW two_tasks)
    (TemporalCorrelator._tasks two_tasks) ≠ []
  ∧ ∃ link best cty,
      (TemporalCorrelator._correlate_commit 3%float (sample_env "ln-1") commit_both
         two_tasks).1.1 = Some link
      ∧ best ∈ (evict 3%float (TemporalCorrelator.TASK_COMMIT_WINDOW two_tasks)
                  (TemporalCorrelator._tasks two_tasks)).*2
      ∧ event_type link = EventType.GIT_COMMIT_LINKED
      ∧ correlation_type link = Some cty
      ∧ confidence link = TemporalCorrelator._link_confidence cty
      ∧ task_id link = task_id best
      ∧ task_title link = task_title best
      ∧ correlated_events link = Some [id commit_both; id best]
      ∧ (TemporalCorrelator._correlate_commit 3%float (sample_env "ln-1") commit_both
           two_tasks).1.2
        = WorkflowEvent_.set_link (task_id best) (task_title best) cty [id best] commit_both
      ∧ ((∃ tk, tk ∈ (evict 3%float (TemporalCorrelator.TASK_COMMIT_WINDOW two_tasks)
                        (TemporalCorrelator._tasks two_tasks)).*2
                ∧ id_match commit_both tk) →
           cty = "task_match" ∧ confidence link = 1.0%float
           ∧ most_recent (id_match commit_both)
               (evict 3%float (TemporalCorrelator.TASK_COMMIT_WINDOW two_tasks)
                  (TemporalCorrelator._tasks two_tasks)) best)
      ∧ (¬ (∃ tk, tk ∈ (evict 3%float (TemporalCorrelator.TASK_COMMIT_WINDOW two_tasks)
                          (TemporalCorrelator._tasks two_tasks)).*2
                  ∧ id_match commit_both tk) →
         (∃ tk, tk ∈ (evict 3%float (TemporalCorrelator.TASK_COMMIT_WINDOW two_tasks)
                        (TemporalCorrelator._tasks two_tasks)).*2
                ∧ files_overlap commit_both tk) →
           cty = "file_overlap" ∧ confidence link = 0.8%float
           ∧ most_recent (files_overlap commit_both)
               (evict 3%float (TemporalCorrelator.TASK_COMMIT_WINDOW two_tasks)
                  (TemporalCorrelator._tasks two_tasks)) best)
      ∧ (¬ (∃ tk, tk ∈ (evict 3%float (TemporalCorrelator.TASK_COMMIT_WINDOW two_tasks)
                          (TemporalCorrelator._tasks two_tasks)).*2
                  ∧ id_match commit_both tk) →
         ¬ (∃ tk, tk ∈ (evict 3%float (TemporalCorrelator.TASK_COMMIT_WINDOW two_tasks)
                          (TemporalCorrelator._tasks two_tasks)).*2
                  ∧ files_overlap commit_both tk) →
           cty = "time_proximity" ∧ confidence link = 0.5%float
           ∧ snd <$> last (evict 3%float (TemporalCorrelator.TASK_COMMIT_WINDOW two_tasks)
                             (TemporalCorrelator._tasks two_tasks)) = Some best).
Proof.
  assert (H : evict 3%float (TemporalCorrelator.TASK_COMMIT_WINDOW two_tasks)
                (TemporalCorrelator._tasks two_tasks) ≠ [])
    by (vm_compute; discriminate).
  split; [exact H|].
  exact (proj2 (proj2 (commit_linking_precedence 3%float (sample_env "ln-1")
                         commit_both two_tasks)) H).
Defined.

(** A commit that names task guid-1 and shares a changed path with the
    more recent task guid-2 is linked to guid-1 by "task_match". *)
Example task_id_beats_file_overlap :
  let r := TemporalCorrelator._correlate_commit 3%float (sample_env "ln-1")
             commit_both two_tasks in
  id_match commit_both task_one
  ∧ files_overlap commit_both task_two
  ∧ (correlation_type <$> r.1.1) = Some (Some "task_match")
  ∧ (confidence <$> r.1.1) = Some 1.0%float
  ∧ (task_id <$> r.1.1) = Some (Some "guid-1")
  ∧ task_id r.1.2 = Some "guid-1".
Proof.
  cbv zeta. split; [by split|]. split.
  - repeat split. apply (bool_decide_eq_true_1 _). vm_compute. reflexivity.
  - vm_compute. by repeat split.
Qed.

(** Without the task id the same commit is linked to guid-2 by
    "file_overlap"; without the file list as well, by "time_proximity". *)
Example file_overlap_beats_time_proximity :
  let r := TemporalCorrelator._correlate_commit 3%float (sample_env "ln-1")
             (commit_event None (files_changed commit_both)) two_tasks in
  let r' := TemporalCorrelator._correlate_commit 3%float (sample_env "ln-1")
              (commit_event None None) two_tasks in
  (correlation_type <$> r.1.1) = Some (Some "file_overlap")
  ∧ (confidence <$> r.1.1) = Some 0.8%float
  ∧ (task_id <$> r.1.1) = Some (Some "guid-2")
  ∧ (correlation_type <$> r'.1.1) = Some (Some "time_proximity")
  ∧ (confidence <$> r'.1.1) = Some 0.5%float
  ∧ (task_id <$> r'.1.1) = Some (Some "guid-2").
Proof. vm_compute. by repeat split. Qed.

(** The scenario of the specification: a commit with no task id and no
    file list, with exactly one task in the window, is linked by
    "time_proximity" at confidence 0.5. *)
Example lone_task_links_by_time_proximity :
  let r := TemporalCorrelator._correlate_commit 3%float (sample_env "ln-1")
             (commit_event None None) one_task in
  (correlation_type <$> r.1.1) = Some (Some "time_proximity")
  ∧ (confidence <$> r.1.1) = Some 0.5%float
  ∧ (task_id <$> r.1.1) = Some (Some "guid-1")
  ∧ task_title r.1.2 = Some "Implement feature X".
Proof. vm_compute. by repeat split. Qed.

(** With an empty task window nothing is linked. *)
Example no_link_without_task :
  (TemporalCorrelator._correlate_commit 3%float (sample_env "ln-1")
     (commit_event None None) TemporalCorrelator.defaults).1.1 = None.
Proof. reflexivity. Qed.

(** A task older than the horizon is evicted before linking. *)
Example stale_task_is_not_linked :
  (TemporalCorrelator._correlate_commit 302%float (sample_env "ln-1")
     (commit_event (Some "guid-1") None) one_task).1.1 = None.
Proof. vm_compute. reflexivity. Qed.

(** ** Absent optional fields *)

Lemma checked_make (env : MakeEnv) (src ety : string) (kw : MakeArgs) :
  Checked.make env src ety kw = Checked.Ok (WorkflowEvent_.make env src ety kw).
Proof.
  unfold Checked.make, WorkflowEvent_.make.
  destruct (kw_workspace_root kw) as [root|]; simpl; [|done].
  by destruct (bool_decide (root = "")).
Qed.

Lemma checked_evict {A} (now max_age : float) (w : list (float * A)) :
  Checked.evict now max_age w = Checked.Ok (evict now max_age w).
Proof.
  induction w as [|[t x] w IH]; [done|]. simpl.
  by destruct (max_age <? now - t)%float.
Qed.

Lemma checked_or_else (x : option Z) (d : Z) :
  Checked.or_else x d = Some (Py.or_int x d).
Proof. destruct x as [v|]; simpl; [|done]. by destruct (bool_decide (v = 0)). Qed.

Lemma checked_or_elsef (x : option float) (d : float) :
  Checked.or_elsef x d = Some (Py.or_float x d).
Proof. destruct x as [v|]; simpl; [|done]. by destruct (PrimFloat.eqb v 0). Qed.

Lemma checked_observe (now : float) (uid : string) (env : MakeEnv) (e : WorkflowEvent)
    (d : CopilotBurstDetector.t) :
  Checked.observe now uid env e d
  = Checked.Ok (CopilotBurstDetector.observe now uid env e d).
Proof.
  unfold Checked.observe, CopilotBurstDetector.observe, Checked.burst_event,
    CopilotBurstDetector.burst_event.
  rewrite !checked_or_else, checked_evict, checked_or_elsef.
  cbn [Checked.add Checked.sub Checked.round1 mbind Checked.exc_bind].
  destruct (_ || _), (CopilotBurstDetector._active_burst_id d);
    rewrite ?checked_make; reflexivity.
Qed.

Lemma checked_flush (clk : nat → float) (env : MakeEnv) (d : CopilotBurstDetector.t) :
  Checked.flush clk env d = Checked.Ok (CopilotBurstDetector.flush clk env d).
Proof.
  unfold Checked.flush, CopilotBurstDetector.flush, Checked.burst_event,
    CopilotBurstDetector.burst_event.
  destruct (CopilotBurstDetector._active_burst_id d); [|done].
  rewrite checked_or_elsef. cbn [Checked.sub Checked.round1 mbind Checked.exc_bind].
  by rewrite checked_make.
Qed.

Lemma checked_overlaps (cf : gset string) (x : float * WorkflowEvent) :
  Checked.overlaps cf x
  = Checked.Ok
      (Py.truthy_list (files_changed x.2)
       && bool_decide (cf ∩ TemporalCorrelator.path_set
                              (default [] (files_changed x.2)) ≠ ∅)).
Proof.
  unfold Checked.overlaps. by destruct (files_changed x.2) as [[|f fs]|].
Qed.

Lemma checked_find_first (cf : gset string) (l : list (float * WorkflowEvent)) :
  Checked.find_first (Checked.overlaps cf) l
  = Checked.Ok
      (find (λ x : float * WorkflowEvent,
               Py.truthy_list (files_changed x.2)
               && bool_decide (cf ∩ TemporalCorrelator.path_set
                                      (default [] (files_changed x.2)) ≠ ∅)) l).
Proof.
  induction l as [|x l IH]; [done|].
  cbn [Checked.find_first find]. rewrite checked_overlaps.
  cbn [mbind Checked.exc_bind]. by destruct (_ && _).
Qed.

Lemma checked_correlate_commit (now : float) (env : MakeEnv) (commit : WorkflowEvent)
    (c : TemporalCorrelator.t) :
  Checked._correlate_commit now env commit c
  = Checked.Ok (TemporalCorrelator._correlate_commit now env commit c).
Proof.
  unfold Checked._correlate_commit, TemporalCorrelator._correlate_commit.
  rewrite checked_evict. cbn [mbind Checked.exc_bind].
  set (tasks := evict now _ _).
  unfold Checked.final, TemporalCorrelator.choose_task.
  destruct (last tasks) as [[ts last_task]|] eqn:Hlast.
  - assert (ConfidenceScorer.nonempty tasks = true) as ->.
    { destruct tasks; [done|reflexivity]. }
    cbn [negb].
    destruct (TemporalCorrelator.find_task_match commit tasks) as [tk|].
    + cbn [mbind Checked.exc_bind]. by rewrite checked_make.
    + unfold TemporalCorrelator.find_file_overlap.
      destruct (files_changed commit) as [[|f fs]|]; cbn [Py.truthy_list Checked.iterate mbind Checked.exc_bind default];
        try (by rewrite checked_make).
      rewrite checked_find_first. cbn [mbind Checked.exc_bind].
      destruct (find _ _) as [[ts' tk]|]; cbn [fmap option_fmap option_map snd mbind Checked.exc_bind];
        by rewrite checked_make.
  - apply last_None in Hlast. by rewrite Hlast.
Qed.

Lemma checked_file_observe (now : float) (env : MakeEnv) (p : string) (root : option string)
    (d : FileBurstDetector.t) :
  Checked.file_observe now env p root d
  = Checked.Ok (FileBurstDetector.observe now env p root d).
Proof.
  unfold Checked.file_observe, FileBurstDetector.observe.
  rewrite checked_evict. cbn [mbind Checked.exc_bind].
  case_bool_decide; [|done]. by rewrite checked_make.
Qed.

Lemma checked_score (clk : nat → float) (e : WorkflowEvent) (s : ConfidenceScorer.t) :
  Checked.score clk e s = Checked.Ok (ConfidenceScorer.score clk e s).
Proof.
  unfold Checked.score, ConfidenceScorer.score.
  repeat (match goal with
          | |- context [bool_decide (source e = ?x)] =>
              destruct (bool_decide (source e = x)); [|]
          end); try reflexivity.
  - unfold Checked._score_git, ConfidenceScorer._score_git.
    destruct (Py.truthy_str (task_id e)); rewrite ?checked_evict;
      cbn [mbind Checked.exc_bind];
      [destruct (ConfidenceScorer.task_known _ _)|]; rewrite ?checked_evict; reflexivity.
  - unfold Checked._score_copilot, ConfidenceScorer._score_copilot.
    rewrite !checked_evict. cbn [mbind Checked.exc_bind].
    destruct (Py.truthy_str (task_id e)); rewrite ?checked_evict; reflexivity.
  - unfold Checked._score_filesystem, ConfidenceScorer._score_filesystem.
    rewrite !checked_evict. reflexivity.
Qed.

Lemma checked_score_and_record (clk : nat → float) (now_rec : float) (e : WorkflowEvent)
    (s : ConfidenceScorer.t) :
  Checked.score_and_record clk now_rec e s
  = Checked.Ok (ConfidenceScorer.score_and_record clk now_rec e s).
Proof.
  unfold Checked.score_and_record, ConfidenceScorer.score_and_record.
  rewrite checked_score. cbn [mbind Checked.exc_bind].
  by destruct (ConfidenceScorer.score clk e s).
Qed.

Lemma checked_check_cluster (now : float) (env : MakeEnv) (trigger : WorkflowEvent)
    (c : TemporalCorrelator.t) :
  Checked._check_cluster now env trigger c
  = Checked.Ok (TemporalCorrelator._check_cluster now env trigger c).
Proof.
  unfold Checked._check_cluster, TemporalCorrelator._check_cluster,
    TemporalCorrelator._evict_all.
  rewrite !checked_evict. cbn [mbind Checked.exc_bind].
  repeat case_bool_decide; reflexivity.
Qed.

Lemma checked_correlate (now_link now_cluster : float) (env_link env_cluster : MakeEnv)
    (e : WorkflowEvent) (c : TemporalCorrelator.t) :
  Checked.correlate now_link now_cluster env_link env_cluster e c
  = Checked.Ok (TemporalCorrelator.correlate now_link now_cluster env_link env_cluster e c).
Proof.
  unfold Checked.correlate, TemporalCorrelator.correlate.
  rewrite checked_correlate_commit.
  assert (Hstep : ∀ x : option WorkflowEvent * WorkflowEvent * TemporalCorrelator.t,
            (let '(linked, event1, c1) := x in
             k ← Checked._check_cluster now_cluster env_cluster event1 c1;
             Checked.Ok (TemporalCorrelator.opt_to_list linked
                         ++ TemporalCorrelator.opt_to_list k.1, event1, k.2))
            = Checked.Ok
                (let '(linked, event1, c1) := x in
                 let '(cluster, c2) :=
                   TemporalCorrelator._check_cluster now_cluster env_cluster event1 c1 in
                 (TemporalCorrelator.opt_to_list linked
                  ++ TemporalCorrelator.opt_to_list cluster, event1, c2))).
  { intros [[linked e1] c1]. rewrite checked_check_cluster.
    cbn [mbind Checked.exc_bind].
    by destruct (TemporalCorrelator._check_cluster _ _ _ _). }
  case_bool_decide; cbn [mbind Checked.exc_bind].
  - exact (Hstep (TemporalCorrelator._correlate_commit now_link env_link e c)).
  - exact (Hstep (None, e, c)).
Qed.

Lemma observe_tokens_default (now : float) (uid : string) (env : MakeEnv) (e : WorkflowEvent)
    (d : CopilotBurstDetector.t) :
  tokens_prompt e = None → tokens_completion e = None →
  let r := CopilotBurstDetector.observe now uid env e d in
  let r0 := CopilotBurstDetector.observe now uid env (with_tokens (Some 0) (Some 0) e) d in
  r.1.1 = r0.1.1 ∧ r.2 = r0.2 ∧ with_tokens (Some 0) (Some 0) r.1.2 = r0.1.2.
Proof.
  intros Hp Hc. cbv zeta. unfold CopilotBurstDetector.observe.
  cbn [tokens_prompt tokens_completion with_tokens id]. rewrite Hp, Hc.
  change (Py.or_int (Some 0) 0) with 0. change (Py.or_int None 0) with 0.
  destruct (_ || _), (CopilotBurstDetector._active_burst_id d) as [bid|];
    cbn [fst snd CopilotBurstDetector._active_burst_id
         CopilotBurstDetector._burst_token_total CopilotBurstDetector._burst_entry_count];
    repeat split; try reflexivity;
    match goal with |- context [Py.truthy_str ?b] => destruct (Py.truthy_str b) end;
    reflexivity.
Qed.

Lemma no_files_no_overlap (now : float) (env : MakeEnv) (commit : WorkflowEvent)
    (c : TemporalCorrelator.t) :
  files_changed commit = None →
  (∀ tk, ¬ files_overlap commit tk)
  ∧ (correlation_type <$> (TemporalCorrelator._correlate_commit now env commit c).1.1)
    ≠ Some (Some "file_overlap").
Proof.
  intros Hf. split.
  - intros tk (Ht & _). by rewrite Hf in Ht.
  - unfold TemporalCorrelator._correlate_commit. cbv zeta.
    destruct (last _) as [[ts last_task]|]; [|done].
    unfold TemporalCorrelator.choose_task, TemporalCorrelator.find_file_overlap.
    rewrite Hf. cbn [Py.truthy_list].
    by destruct (TemporalCorrelator.find_task_match _ _).
Qed.

(** C9.  No operation of the core raises on an absent optional field:
    with Python's run-time errors made explicit, the eviction loops,
    [make], both burst detectors, the scorer and the correlator return
    normally on every input, with the result of the model ([record] and
    [record_signal] use no operation that can raise).  A completion whose
    token counts are both missing is processed as if both were zero, and
    a commit without a file list overlaps no task, so that it is never
    linked by "file_overlap". *)
Theorem core_total_on_absent_fields :
  (∀ (A : Type) (now max_age : float) (w : list (float * A)),
     Checked.evict now max_age w = Checked.Ok (evict now max_age w))
  ∧ (∀ env src ety kw,
       Checked.make env src ety kw = Checked.Ok (WorkflowEvent_.make env src ety kw))
  ∧ (∀ now env p root d,
       Checked.file_observe now env p root d
       = Checked.Ok (FileBurstDetector.observe now env p root d))
  ∧ (∀ now uid env e d,
       Checked.observe now uid env e d
       = Checked.Ok (CopilotBurstDetector.observe now uid env e d))
  ∧ (∀ clk env d,
       Checked.flush clk env d = Checked.Ok (CopilotBurstDetector.flush clk env d))
  ∧ (∀ clk now_rec e s,
       Checked.score clk e s = Checked.Ok (ConfidenceScorer.score clk e s)
       ∧ Checked.score_and_record clk now_rec e s
         = Checked.Ok (ConfidenceScorer.score_and_record clk now_rec e s))
  ∧ (∀ now env commit c,
       Checked._correlate_commit now env commit c
       = Checked.Ok (TemporalCorrelator._correlate_commit now env commit c))
  ∧ (∀ now env trigger c,
       Checked._check_cluster now env trigger c
       = Checked.Ok (TemporalCorrelator._check_cluster now env trigger c))
  ∧ (∀ now_link now_cluster env_link env_cluster e c,
       Checked.correlate now_link now_cluster env_link env_cluster e c
       = Checked.Ok (TemporalCorrelator.correlate now_link now_cluster
                       env_link env_cluster e c))
  ∧ (∀ now uid env e d,
       tokens_prompt e = None → tokens_completion e = None →
       let r := CopilotBurstDetector.observe now uid env e d in
       let r0 := CopilotBurstDetector.observe now uid env
                   (with_tokens (Some 0) (Some 0) e) d in
       r.1.1 = r0.1.1 ∧ r.2 = r0.2 ∧ with_tokens (Some 0) (Some 0) r.1.2 = r0.1.2)
  ∧ (∀ now env commit c,
       files_changed commit = None →
       (∀ tk, ¬ files_overlap commit tk)
       ∧ (correlation_type <$> (TemporalCorrelator._correlate_commit now env commit c).1.1)
         ≠ Some (Some "file_overlap")).
Proof.
  split; [intros; apply checked_evict|].
  split; [intros; apply checked_make|].
  split; [intros; apply checked_file_observe|].
  split; [intros; apply checked_observe|].
  split; [intros; apply checked_flush|].
  split; [intros; split; [apply checked_score|apply checked_score_and_record]|].
  split; [intros; apply checked_correlate_commit|].
  split; [intros; apply checked_check_cluster|].
  split; [intros; apply checked_correlate|].
  split; [intros; by apply observe_tokens_default|].
  intros. by apply no_files_no_overlap.
Qed.

Lemma core_total_on_absent_fields_witness :
  (tokens_prompt (completion "c-1" None None) = None
   ∧ tokens_completion (completion "c-1" None None) = None
   ∧ (let r := CopilotBurstDetector.observe 1%float "burst-1" (sample_env "ev-1")
                 (completion "c-1" None None) count_only_detector in
      let r0 := CopilotBurstDetector.observe 1%float "burst-1" (sample_env "ev-1")
                  (with_tokens (Some 0) (Some 0) (completion "c-1" None None))
                  count_only_detector in
      r.1.1 = r0.1.1 ∧ r.2 = r0.2 ∧ with_tokens (Some 0) (Some 0) r.1.2 = r0.1.2))
  ∧ (files_changed (commit_event None None) = None
     ∧ (∀ tk, ¬ files_overlap (commit_event None None) tk)
     ∧ (correlation_type
          <$> (TemporalCorrelator._correlate_commit 3%float (sample_env "ln-1")
                 (commit_event None None) two_tasks).1.1)
       ≠ Some (Some "file_overlap")).
Proof.
  destruct core_total_on_absent_fields
    as (_ & _ & _ & _ & _ & _ & _ & _ & _ & Htokens & Hfiles).
  split.
  - split; [reflexivity|]. split; [reflexivity|].
    exact (Htokens 1%float "burst-1" (sample_env "ev-1") (completion "c-1" None None)
             count_only_detector eq_refl eq_refl).
  - split; [reflexivity|].
    exact (Hfiles 3%float (sample_env "ln-1") (commit_event None None) two_tasks
             eq_refl).
Defined.

(** A completion without token counts enters the window with zero tokens. *)
Example missing_tokens_count_as_zero :
  CopilotBurstDetector._window
    (CopilotBurstDetector.observe 1%float "burst-1" (sample_env "ev-1")
       (completion "c-1" None None) count_only_detector).2
  = [(1%float, (0, 0, "c-1"))].
Proof. reflexivity. Qed.

(** ** The two steps of [correlate] *)

Lemma correlate_commit_event_type (now : float) (env : MakeEnv) (commit ev : WorkflowEvent)
    (c : TemporalCorrelator.t) :
  (TemporalCorrelator._correlate_commit now env commit c).1.1 = Some ev →
  event_type ev = EventType.GIT_COMMIT_LINKED.
Proof.
  unfold TemporalCorrelator._correlate_commit. cbv zeta.
  destruct (last _) as [[ts last_task]|]; [|done].
  destruct (TemporalCorrelator.choose_task _ _ _) as [best cty].
  cbn [fst]. by intros [= <-].
Qed.

Lemma check_cluster_event_type (now : float) (env : MakeEnv) (trigger ev : WorkflowEvent)
    (c : TemporalCorrelator.t) :
  (TemporalCorrelator._check_cluster now env trigger c).1 = Some ev →
  event_type ev = EventType.WORKFLOW_ACTIVITY_CLUSTERED.
Proof.
  unfold TemporalCorrelator._check_cluster. cbv zeta.
  repeat case_bool_decide; cbn [fst]; by intros [= <-].
Qed.

(** [correlate] runs the linking step on commits only and the cluster
    check always; its result holds one cluster event when the check fires
    and none otherwise. *)
Lemma correlate_emits_cluster_once (now_link now_cluster : float) (env_link env_cluster : MakeEnv)
    (e : WorkflowEvent) (c : TemporalCorrelator.t) :
  let linking :=
    if bool_decide (event_type e = EventType.GIT_COMMIT)
    then TemporalCorrelator._correlate_commit now_link env_link e c
    else (None, e, c) in
  let cl := TemporalCorrelator._check_cluster now_cluster env_cluster linking.1.2 linking.2 in
  let r := TemporalCorrelator.correlate now_link now_cluster env_link env_cluster e c in
  r.1.1 = TemporalCorrelator.opt_to_list linking.1.1 ++ TemporalCorrelator.opt_to_list cl.1
  ∧ length (filter (λ ev, event_type ev = EventType.WORKFLOW_ACTIVITY_CLUSTERED) r.1.1)
    = (match cl.1 with Some _ => 1 | None => 0 end)%nat.
Proof.
  cbv zeta. unfold TemporalCorrelator.correlate.
  set (linking := if bool_decide _ then _ else _).
  assert (Hlink : ∀ ev, linking.1.1 = Some ev →
                        event_type ev = EventType.GIT_COMMIT_LINKED).
  { subst linking. case_bool_decide; [|done].
    intros ev. apply correlate_commit_event_type. }
  destruct linking as [[linked e1] c1]. cbn [fst snd] in *.
  pose proof (λ ev, check_cluster_event_type now_cluster env_cluster e1 ev c1) as Hcl.
  revert Hcl.
  destruct (TemporalCorrelator._check_cluster now_cluster env_cluster e1 c1) as [cluster c2].
  cbn [fst snd]. intros Hcl. split; [done|].
  assert (Hne : EventType.GIT_COMMIT_LINKED ≠ EventType.WORKFLOW_ACTIVITY_CLUSTERED)
    by discriminate.
  destruct linked as [lk|], cluster as [cl|]; cbn [TemporalCorrelator.opt_to_list app].
  - rewrite filter_cons_False by (rewrite (Hlink lk eq_refl); exact Hne).
    rewrite filter_cons_True by exact (Hcl cl eq_refl). done.
  - by rewrite filter_cons_False by (rewrite (Hlink lk eq_refl); exact Hne).
  - rewrite filter_cons_True by exact (Hcl cl eq_refl). done.
  - done.
Qed.

(** * Further properties of the code *)

(** ** Eviction loops *)

Lemma evict_split {A} (now max_age : float) (w : list (float * A)) :
  ∃ dropped, w = dropped ++ evict now max_age w
             ∧ Forall (λ x, stale now max_age x.1 = true) dropped.
Proof.
  induction w as [|[t x] w (dropped & Hw & Hd)]; [by exists []|].
  rewrite evict_cons. destruct (stale now max_age t) eqn:Hold.
  - exists ((t, x) :: dropped). split; [by rewrite Hw at 1|]. by constructor.
  - by exists [].
Qed.

Lemma evict_head_recent {A} (now max_age : float) (w : list (float * A)) :
  match evict now max_age w with
  | x :: _ => stale now max_age x.1 = false
  | [] => True
  end.
Proof.
  induction w as [|[t x] w IH]; [done|].
  rewrite evict_cons. by destruct (stale now max_age t) eqn:Hold.
Qed.

Lemma evict_idem {A} (now max_age : float) (w : list (float * A)) :
  evict now max_age (evict now max_age w) = evict now max_age w.
Proof.
  pose proof (evict_head_recent now max_age w) as Hh.
  destruct (evict now max_age w) as [|[t x] rest]; [done|].
  rewrite evict_cons. simpl in Hh. by rewrite Hh.
Qed.

Lemma evict_later {A} (now later max_age : float) (w : list (float * A)) :
  Forall (λ x, stale now max_age x.1 = true → stale later max_age x.1 = true) w →
  evict later max_age (evict now max_age w) = evict later max_age w.
Proof.
  induction 1 as [|[t x] w Ht _ IH]; [done|]. simpl in Ht.
  rewrite (evict_cons now). destruct (stale now max_age t) eqn:Hold; [|done].
  rewrite IH, (evict_cons later). by rewrite Ht.
Qed.

(** X1.  On a window whose entries are in the order of their readings,
    at every reading and for every horizon, the eviction loop removes
    exactly the entries that the test [(now - t) > max_age] calls stale:
    what is left is the window filtered by the test, and an entry
    survives iff it was in the window and the test does not call it
    stale. *)
Theorem evict_keeps_exactly_the_recent {A} (now max_age : float) (w : list (float * A)) :
  clock_ordered w →
  evict now max_age w = filter (λ x, stale now max_age x.1 = false) w
  ∧ ∀ x, x ∈ evict now max_age w ↔ x ∈ w ∧ stale now max_age x.1 = false.
Proof.
  intros Hw. apply (clock_ordered_closed now max_age) in Hw.
  pose proof (evict_fresh now max_age w Hw) as He. unfold fresh in He.
  split; [done|]. intros x. rewrite He, list_elem_of_filter. tauto.
Qed.

Lemma evict_keeps_exactly_the_recent_witness :
  clock_ordered three_signals
  ∧ (evict 45 30 three_signals
     = filter (λ x, stale 45 30 x.1 = false) three_signals
     ∧ ∀ x, x ∈ evict 45 30 three_signals
            ↔ x ∈ three_signals ∧ stale 45 30 x.1 = false).
Proof.
  assert (H : clock_ordered three_signals).
  { unfold clock_ordered, three_signals. repeat constructor. }
  split; [exact H|].
  exact (evict_keeps_exactly_the_recent 45 30 three_signals H).
Defined.

(** X2.  Whatever the order of the window, the eviction loop only drops
    a prefix; every dropped entry is one that the test
    [(now - t) > max_age] calls stale and the entry left at the head is
    not; evicting again at the same reading changes nothing, and an
    eviction at a later reading absorbs this one. *)
Theorem evict_drops_a_stale_prefix {A} (now max_age : float) (w : list (float * A)) :
  (∃ dropped, w = dropped ++ evict now max_age w
              ∧ Forall (λ x, stale now max_age x.1 = true) dropped)
  ∧ match evict now max_age w with
    | x :: _ => stale now max_age x.1 = false
    | [] => True
    end
  ∧ evict now max_age (evict now max_age w) = evict now max_age w
  ∧ ∀ later,
      (now <=? later)%float = true →
      evict later max_age (evict now max_age w) = evict later max_age w.
Proof.
  split; [apply evict_split|]. split; [apply evict_head_recent|].
  split; [apply evict_idem|]. intros later Hlater. apply evict_later.
  apply Forall_forall. intros x _. by apply stale_later.
Qed.

(** An entry exactly five seconds old by the decimal readings is stale
    for the test, the binary64 difference being above 5. *)
Example evict_at_the_boundary :
  stale 8.3 5 3.3 = true
  ∧ evict 8.3 5 [(3.3, "a.py"); (5, "b.py"); (8.3, "c.py")]%float
    = [(5, "b.py"); (8.3, "c.py")]%float.
Proof. split; vm_compute; reflexivity. Qed.

(** ** File burst detector *)

Lemma evict_snoc_last {A} (now max_age : float) (w : list (float * A)) (x : float * A) :
  evict now max_age (w ++ [x]) = []
  ∨ last (evict now max_age (w ++ [x])) = Some x.
Proof.
  destruct (evict_split now max_age (w ++ [x])) as (dropped & Hw & _).
  destruct (evict now max_age (w ++ [x])) as [|y rest] eqn:He using rev_ind;
    [by left|right].
  clear IHrest. rewrite app_assoc in Hw. apply app_inj_tail in Hw as [_ ->].
  by rewrite last_snoc.
Qed.

Lemma evict_length {A} (now max_age : float) (w : list (float * A)) :
  (length (evict now max_age w) ≤ length w)%nat.
Proof.
  destruct (evict_split now max_age w) as (dropped & Hw & _).
  rewrite Hw at 2. rewrite length_app. lia.
Qed.

Lemma file_observe_full_batch (o : FileObs) (d : FileBurstDetector.t) :
  1 ≤ FileBurstDetector.threshold d →
  Py.len (FileBurstDetector._recent d) < FileBurstDetector.threshold d →
  fires_full_batch (FileBurstDetector.threshold d) o
    (FileBurstDetector.observe (fo_now o) (fo_env o) (fo_path o) (fo_root o) d).
Proof.
  intros Hthr Hlen. unfold fires_full_batch, FileBurstDetector.observe.
  set (q := evict _ _ _).
  assert (Hq : Py.len q ≤ FileBurstDetector.threshold d).
  { subst q. pose proof (evict_length (fo_now o) (FileBurstDetector.window_secs d)
                           (FileBurstDetector._recent d ++ [(fo_now o, fo_path o)])) as Hl.
    rewrite length_app in Hl. unfold Py.len in *. simpl in Hl. lia. }
  case_bool_decide as Hfire; cbn [fst snd FileBurstDetector._recent
                                  FileBurstDetector.with_recent].
  - split; [unfold Py.len; simpl; lia|].
    cbn [fired_paths fmap option_fmap option_map files_changed WorkflowEvent_.make
         kw_files_changed default]. simpl. rewrite file_change_paths.
    split; [unfold Py.len in *; rewrite length_map; lia|].
    destruct (evict_snoc_last (fo_now o) (FileBurstDetector.window_secs d)
                (FileBurstDetector._recent d) (fo_now o, fo_path o)) as [He|He];
      fold q in He.
    + rewrite He in Hfire. unfold Py.len in Hfire. simpl in Hfire. lia.
    + change (map snd q) with (snd <$> q). by rewrite fmap_last, He.
  - split; [lia|done].
Qed.

(** X3.  A detector whose threshold is at least 1 and whose queue holds
    fewer entries than the threshold keeps it so after every call, and
    every event it fires carries exactly [threshold] paths, the path just
    observed last. *)
Theorem file_burst_batches_are_full (obs : list FileObs) (d : FileBurstDetector.t) :
  1 ≤ FileBurstDetector.threshold d →
  Py.len (FileBurstDetector._recent d) < FileBurstDetector.threshold d →
  Forall2 (fires_full_batch (FileBurstDetector.threshold d)) obs (file_run d obs).
Proof.
  revert d. induction obs as [|o obs IH]; intros d Hthr Hlen; [constructor|].
  cbn [file_run]. pose proof (file_observe_full_batch o d Hthr Hlen) as Hstep.
  constructor; [exact Hstep|].
  set (r := FileBurstDetector.observe _ _ _ _ d) in *.
  assert (Hcfg : FileBurstDetector.threshold r.2 = FileBurstDetector.threshold d).
  { subst r. unfold FileBurstDetector.observe. by case_bool_decide. }
  rewrite <- Hcfg. apply IH; rewrite Hcfg; [done|]. by destruct Hstep.
Qed.

Lemma file_burst_batches_are_full_witness :
  1 ≤ FileBurstDetector.threshold FileBurstDetector.defaults
  ∧ Py.len (FileBurstDetector._recent FileBurstDetector.defaults)
    < FileBurstDetector.threshold FileBurstDetector.defaults
  ∧ Forall2 (fires_full_batch (FileBurstDetector.threshold FileBurstDetector.defaults))
      five_paths (file_run FileBurstDetector.defaults five_paths).
Proof.
  assert (H1 : 1 ≤ FileBurstDetector.threshold FileBurstDetector.defaults)
    by (vm_compute; discriminate).
  assert (H2 : Py.len (FileBurstDetector._recent FileBurstDetector.defaults)
               < FileBurstDetector.threshold FileBurstDetector.defaults)
    by (vm_compute; reflexivity).
  split; [exact H1|]. split; [exact H2|].
  exact (file_burst_batches_are_full five_paths FileBurstDetector.defaults H1 H2).
Defined.

(** ** Completion burst detector *)

Ltac observe_cases d :=
  unfold copilot_step, CopilotBurstDetector.observe,
    CopilotBurstDetector.is_in_burst, CopilotBurstDetector.active_burst_id;
  cbn [cs_before cs_after cs_emitted cs_event fst snd];
  let bid := fresh "bid" in
  destruct (_ || _) eqn:?, (CopilotBurstDetector._active_burst_id d) as [bid|] eqn:?;
  cbn [fst snd CopilotBurstDetector._active_burst_id
       CopilotBurstDetector._burst_token_total CopilotBurstDetector._burst_entry_count
       CopilotBurstDetector._burst_start_time CopilotBurstDetector._window].

Lemma copilot_step_pairing (d : CopilotBurstDetector.t) (o : CopilotObs) :
  let s := copilot_step d o in
  match CopilotBurstDetector.active_burst_id d,
        CopilotBurstDetector.active_burst_id (cs_after s) with
  | None, Some b =>
      ∃ ev, cs_emitted s = [ev] ∧ event_type ev = EventType.COPILOT_BURST_START
            ∧ burst_id ev = Some b ∧ b = co_uid o
  | Some b, None =>
      ∃ ev, cs_emitted s = [ev] ∧ event_type ev = EventType.COPILOT_BURST_END
            ∧ burst_id ev = Some b
  | Some b, Some b' => cs_emitted s = [] ∧ b' = b
  | None, None => cs_emitted s = []
  end.
Proof.
  cbv zeta. observe_cases d; try done; by eexists.
Qed.

(** X4.  Over any run of [observe] calls, from any detector state, each
    call returns at most one event, and the events returned open and
    close bursts in turn: a burst-start carries an id, the next event is
    the burst-end of that same id, and no burst-end comes without its
    burst-start (except the one closing a burst already open at the
    beginning of the run). *)
Theorem burst_events_pair_up (d : CopilotBurstDetector.t) (obs : list CopilotObs) :
  paired (CopilotBurstDetector.active_burst_id d) (run_emitted d obs)
  ∧ Forall (λ s, (length (cs_emitted s) ≤ 1)%nat) (copilot_run d obs).
Proof.
  revert d. induction obs as [|o obs IH]; intros d; [by split; [|constructor]|].
  unfold run_emitted. cbn [copilot_run fmap list_fmap concat].
  fold (@fmap list _ _ _ cs_emitted (copilot_run (cs_after (copilot_step d o)) obs)).
  fold (run_emitted (cs_after (copilot_step d o)) obs).
  destruct (IH (cs_after (copilot_step d o))) as [IHp IHl].
  pose proof (copilot_step_pairing d o) as Hstep. cbv zeta in Hstep.
  set (s := copilot_step d o) in *.
  destruct (CopilotBurstDetector.active_burst_id d) as [b|],
    (CopilotBurstDetector.active_burst_id (cs_after s)) as [b'|].
  - destruct Hstep as [He ->].
    split; [by rewrite He|]. constructor; [cbn beta; rewrite He; cbn [length]; lia|done].
  - destruct Hstep as (ev & He & Hty & Hid).
    split; [rewrite He; by cbn [app paired]|].
    constructor; [cbn beta; rewrite He; cbn [length]; lia|done].
  - destruct Hstep as (ev & He & Hty & Hid & _).
    split; [rewrite He; cbn [app paired]; by rewrite Hid|].
    constructor; [cbn beta; rewrite He; cbn [length]; lia|done].
  - split; [by rewrite Hstep|].
    constructor; [cbn beta; rewrite Hstep; cbn [length]; lia|done].
Qed.

(** X5.  [observe] annotates the event it was given exactly when a burst
    is active after the call: the event then carries the burst's id and
    the token total and entry count of the current window, also when it is
    the event that opened the burst; the event that closes a burst, and
    every event observed while idle, is returned as it came. *)
Theorem observe_annotates_during_burst (d : CopilotBurstDetector.t) (o : CopilotObs) :
  let s := copilot_step d o in
  match CopilotBurstDetector.active_burst_id (cs_after s) with
  | None => cs_event s = co_event o
  | Some b =>
      cs_event s
      = (if bool_decide (b = "") then co_event o
         else WorkflowEvent_.set_burst (Some b)
                (CopilotBurstDetector.window_tokens
                   (CopilotBurstDetector._window (cs_after s)))
                (CopilotBurstDetector.window_count
                   (CopilotBurstDetector._window (cs_after s)))
                (co_event o))
  end.
Proof.
  cbv zeta. observe_cases d; cbn [Py.truthy_str]; try done;
    by destruct (bool_decide (_ = "")).
Qed.

Lemma observe_keeps_consistent (d : CopilotBurstDetector.t) (o : CopilotObs) :
  burst_consistent d → burst_consistent (cs_after (copilot_step d o)).
Proof.
  unfold burst_consistent. observe_cases d; try done; intros Hd _.
  repeat split. by apply Hd.
Qed.

Lemma flush_keeps_consistent (clk : nat → float) (env : MakeEnv) (d : CopilotBurstDetector.t) :
  burst_consistent d → burst_consistent (CopilotBurstDetector.flush clk env d).2.
Proof.
  unfold burst_consistent, CopilotBurstDetector.flush, CopilotBurstDetector.is_in_burst.
  destruct (CopilotBurstDetector._active_burst_id d) eqn:Ha;
    cbn [snd CopilotBurstDetector._active_burst_id]; [done|].
  rewrite Ha. done.
Qed.

Lemma apply_ops_consistent (ops : list CopilotOp) (d : CopilotBurstDetector.t) :
  burst_consistent d → burst_consistent (apply_ops d ops).
Proof.
  revert d. induction ops as [|op ops IH]; intros d Hd; [done|].
  cbn [apply_ops fold_left]. apply IH. destruct op as [o|clk env]; cbn [apply_op].
  - by apply observe_keeps_consistent.
  - by apply flush_keeps_consistent.
Qed.

(** X6.  After any sequence of [observe] and [flush] calls on a new
    detector, an active burst has its start time set and running totals
    equal to the token total and entry count of the window; so the
    burst-end event that [flush] or a later [observe] returns reports the
    window totals as of the last call inside the burst, and as duration
    the binary64 difference between the reading of the call and the start
    of the burst, rounded to one decimal by [round]. *)
Theorem burst_totals_track_window (window : float) (tokens count : Z)
    (ops : list CopilotOp) :
  let d := apply_ops (CopilotBurstDetector.init window tokens count) ops in
  burst_consistent d
  ∧ (∀ clk env ev,
       (CopilotBurstDetector.flush clk env d).1 = Some ev →
       burst_token_total ev
       = Some (CopilotBurstDetector.window_tokens (CopilotBurstDetector._window d))
       ∧ burst_entry_count ev
         = Some (CopilotBurstDetector.window_count (CopilotBurstDetector._window d))
       ∧ ∃ start, CopilotBurstDetector._burst_start_time d = Some start
                  ∧ burst_duration_secs ev
                    = Some (Py.round1 (clk 0%nat - Py.or_float (Some start) (clk 1%nat))))
  ∧ (∀ o ev,
       cs_emitted (copilot_step d o) = [ev] →
       event_type ev = EventType.COPILOT_BURST_END →
       burst_token_total ev
       = Some (CopilotBurstDetector.window_tokens (CopilotBurstDetector._window d))
       ∧ burst_entry_count ev
         = Some (CopilotBurstDetector.window_count (CopilotBurstDetector._window d))
       ∧ ∃ start, CopilotBurstDetector._burst_start_time d = Some start
                  ∧ burst_duration_secs ev
                    = Some (Py.round1 (co_now o - Py.or_float (Some start) (co_now o)))).
Proof.
  cbv zeta. set (d := apply_ops _ ops).
  assert (Hd : burst_consistent d).
  { apply apply_ops_consistent. unfold burst_consistent. by intros [=]. }
  split; [exact Hd|]. unfold burst_consistent in Hd. split.
  - intros clk env ev. unfold CopilotBurstDetector.flush.
    unfold CopilotBurstDetector.is_in_burst in Hd.
    destruct (CopilotBurstDetector._active_burst_id d); [|done].
    destruct (Hd eq_refl) as (-> & -> & [start Hs]). intros [= <-].
    repeat split. exists start. by rewrite Hs.
  - intros o ev. revert Hd. observe_cases d; intros Hd; try done.
    + intros [= <-]. done.
    + intros [= <-] _. destruct (Hd eq_refl) as (-> & -> & [start Hs]).
      repeat split. exists start. by rewrite Hs.
Qed.

(** The burst of the three completions starts at second 3; flushed at
    5.26 its duration is 2.2599999999999998 in binary64 and is reported
    as 2.3. *)
Example burst_duration_is_rounded :
  (5.26 - 3)%float = 2.2599999999999998%float
  ∧ Py.round1 2.26 = 2.3%float
  ∧ (burst_duration_secs
       <$> (CopilotBurstDetector.flush (at_time 5.26) (sample_env "ev-4")
              (copilot_final count_only_detector three_completions)).1)
    = Some (Some 2.3%float).
Proof. repeat split; vm_compute; reflexivity. Qed.

(** X7.  [flush] is idempotent and leaves the window in place: a second
    [flush] returns nothing and changes nothing, and an [observe] that
    follows a [flush] while the window still meets the trigger opens a new
    burst at once, under the newly drawn id. *)
Theorem flush_then_observe_reopens (clk : nat → float) (env : MakeEnv)
    (d : CopilotBurstDetector.t) :
  let d1 := (CopilotBurstDetector.flush clk env d).2 in
  CopilotBurstDetector._window d1 = CopilotBurstDetector._window d
  ∧ (∀ clk' env', CopilotBurstDetector.flush clk' env' d1 = (None, d1))
  ∧ (∀ o, let s := copilot_step d1 o in
          burst_condition (cs_after s) →
          ∃ ev, cs_emitted s = [ev]
                ∧ event_type ev = EventType.COPILOT_BURST_START
                ∧ burst_id ev = Some (co_uid o)
                ∧ CopilotBurstDetector.active_burst_id (cs_after s) = Some (co_uid o)).
Proof.
  cbv zeta.
  assert (Hidle : CopilotBurstDetector._active_burst_id
                    (CopilotBurstDetector.flush clk env d).2 = None).
  { unfold CopilotBurstDetector.flush.
    by destruct (CopilotBurstDetector._active_burst_id d) eqn:Ha. }
  split; [|split].
  - unfold CopilotBurstDetector.flush.
    by destruct (CopilotBurstDetector._active_burst_id d).
  - intros clk' env'. apply flush_idle.
    unfold CopilotBurstDetector.is_in_burst. by rewrite Hidle.
  - intros o Hcond.
    pose proof (copilot_observe_step (CopilotBurstDetector.flush clk env d).2 o) as [Hiff _].
    cbv zeta in Hiff. apply Hiff in Hcond.
    pose proof (copilot_step_pairing (CopilotBurstDetector.flush clk env d).2 o) as Hp.
    cbv zeta in Hp. unfold CopilotBurstDetector.active_burst_id in Hp at 1.
    rewrite Hidle in Hp. unfold CopilotBurstDetector.is_in_burst in Hcond.
    unfold CopilotBurstDetector.active_burst_id in *.
    destruct (CopilotBurstDetector._active_burst_id (cs_after _)) as [b|]; [|done].
    destruct Hp as (ev & He & Hty & Hid & ->). by exists ev.
Qed.

(** ** Confidence scorer *)

(** X8.  The version-control rule gives one of three scores: 0.8 when the
    commit carries a task id that is among the task ids recorded within
    the task horizon, else 0.7 when any task was recorded within the
    horizon, else 0.6; the final [min] never cuts. *)
Theorem git_score_follows_rule (clk : nat → float) (e : WorkflowEvent) (s : ConfidenceScorer.t) :
  let tasks1 :=
    if Py.truthy_str (task_id e)
    then evict (clk 0%nat) ConfidenceScorer.TASK_PROXIMITY_SECS
           (ConfidenceScorer._recent_tasks s)
    else ConfidenceScorer._recent_tasks s in
  let id_known :=
    Py.truthy_str (task_id e) && ConfidenceScorer.task_known (task_id e) tasks1 in
  let tasks2 :=
    evict (clk (if Py.truthy_str (task_id e) then 1 else 0)%nat)
      ConfidenceScorer.TASK_PROXIMITY_SECS tasks1 in
  (ConfidenceScorer._score_git clk e s).1
  = git_rule id_known (ConfidenceScorer.nonempty tasks2)
  ∧ git_rule true true = 0.8%float ∧ git_rule true false = 0.8%float
  ∧ git_rule false true = 0.7%float ∧ git_rule false false = 0.6%float.
Proof.
  cbv zeta. split; [|by repeat split].
  unfold ConfidenceScorer._score_git.
  destruct (Py.truthy_str (task_id e)); cbv zeta iota beta; cbn [andb].
  - destruct (ConfidenceScorer.task_known _ _); [reflexivity|].
    by destruct (ConfidenceScorer.nonempty _).
  - by destruct (ConfidenceScorer.nonempty _).
Qed.

(** X9.  The filesystem rule adds 0.2 to its base of 0.4 when a task was
    recorded within the task horizon and then 0.1 when a commit was
    recorded within the commit horizon, in binary64 and never cut by the
    final [min]: the four scores are 0.4, 0.5, 0.6000000000000001 and
    0.7000000000000001, so "0.4 + 0.2" is not scored 0.6. *)
Theorem filesystem_score_follows_rule (clk : nat → float) (e : WorkflowEvent)
    (s : ConfidenceScorer.t) :
  (ConfidenceScorer._score_filesystem clk e s).1
  = filesystem_rule
      (ConfidenceScorer.nonempty
         (evict (clk 0%nat) ConfidenceScorer.TASK_PROXIMITY_SECS
            (ConfidenceScorer._recent_tasks s)))
      (ConfidenceScorer.nonempty
         (evict (clk 1%nat) ConfidenceScorer.GIT_PROXIMITY_SECS
            (ConfidenceScorer._recent_git s)))
  ∧ filesystem_rule false false = 0.4%float
  ∧ filesystem_rule false true = 0.5%float
  ∧ filesystem_rule true false = 0.6000000000000001%float
  ∧ filesystem_rule true true = 0.7000000000000001%float
  ∧ PrimFloat.eqb (filesystem_rule true false) 0.6 = false.
Proof.
  split; [|by repeat split].
  unfold ConfidenceScorer._score_filesystem. cbv zeta.
  by destruct (ConfidenceScorer.nonempty _), (ConfidenceScorer.nonempty _).
Qed.

Lemma evict_app_nonempty {A} (now max_age : float) (w ext : list (float * A)) :
  evict now max_age w ≠ [] →
  evict now max_age (w ++ ext) = evict now max_age w ++ ext.
Proof.
  induction w as [|[t x] w IH]; [done|].
  cbn [app]. rewrite !evict_cons. by destruct (stale now max_age t).
Qed.

Lemma nonempty_true {A} (w : list A) : ConfidenceScorer.nonempty w = true ↔ w ≠ [].
Proof. by destruct w. Qed.

Lemma nonempty_evict_app {A} (now max_age : float) (w ext : list (float * A)) :
  ConfidenceScorer.nonempty (evict now max_age w) = true →
  ConfidenceScorer.nonempty (evict now max_age (w ++ ext)) = true.
Proof.
  rewrite !nonempty_true. intros Hne. rewrite evict_app_nonempty by done.
  by destruct (evict now max_age w).
Qed.

Lemma score_suffix (clk : nat → float) (e : WorkflowEvent) (s : ConfidenceScorer.t) :
  let s' := (ConfidenceScorer.score clk e s).2 in
  ConfidenceScorer._recent_fs s' `suffix_of` ConfidenceScorer._recent_fs s
  ∧ ConfidenceScorer._recent_git s' `suffix_of` ConfidenceScorer._recent_git s
  ∧ ConfidenceScorer._recent_tasks s' `suffix_of` ConfidenceScorer._recent_tasks s.
Proof.
  cbv zeta. unfold ConfidenceScorer.score.
  destruct (bool_decide (source e = "antigravity")); [done|].
  destruct (bool_decide (source e = "git")).
  { unfold ConfidenceScorer._score_git.
    destruct (Py.truthy_str (task_id e)); cbv zeta iota beta.
    - destruct (ConfidenceScorer.task_known _ _); cbn [snd ConfidenceScorer._recent_fs
        ConfidenceScorer._recent_git ConfidenceScorer._recent_tasks];
        repeat split; try done; try apply evict_suffix.
      etrans; apply evict_suffix.
    - cbn [snd ConfidenceScorer._recent_fs ConfidenceScorer._recent_git
           ConfidenceScorer._recent_tasks].
      repeat split; try done. apply evict_suffix. }
  destruct (bool_decide (source e = "copilot")).
  { unfold ConfidenceScorer._score_copilot. cbv zeta.
    destruct (Py.truthy_str (task_id e));
      cbn [snd ConfidenceScorer._recent_fs ConfidenceScorer._recent_git
           ConfidenceScorer._recent_tasks];
      repeat split; try done; apply evict_suffix. }
  destruct (bool_decide (source e = "filesystem")); [|done].
  unfold ConfidenceScorer._score_filesystem. cbv zeta.
  cbn [snd ConfidenceScorer._recent_fs ConfidenceScorer._recent_git
       ConfidenceScorer._recent_tasks].
  repeat split; try done; apply evict_suffix.
Qed.

(** X10.  Scoring never adds to the recency windows: each window after
    [score] is what is left of it after dropping entries from its old
    end (a suffix of the window before), and scoring a planning event or
    an event of a source without a rule leaves the scorer as it was. *)
Theorem score_only_forgets (clk : nat → float) (e : WorkflowEvent) (s : ConfidenceScorer.t) :
  let s' := (ConfidenceScorer.score clk e s).2 in
  ConfidenceScorer._recent_fs s' `suffix_of` ConfidenceScorer._recent_fs s
  ∧ ConfidenceScorer._recent_git s' `suffix_of` ConfidenceScorer._recent_git s
  ∧ ConfidenceScorer._recent_tasks s' `suffix_of` ConfidenceScorer._recent_tasks s
  ∧ (source e = "antigravity" ∨ scored_source e = false → s' = s).
Proof.
  cbv zeta. destruct (score_suffix clk e s) as (Hfs & Hgit & Htasks).
  repeat split; try done. intros [Ha|Hn].
  - unfold ConfidenceScorer.score. by rewrite bool_decide_eq_true_2.
  - by rewrite score_passthrough.
Qed.

Ltac grow now a w ext :=
  let H := fresh "Hne" in
  destruct (ConfidenceScorer.nonempty (evict now a w)) eqn:H;
  [ rewrite (nonempty_evict_app now a w ext H)
  | destruct (ConfidenceScorer.nonempty (evict now a (w ++ ext))) ].

Ltac compare_scores :=
  first [ left; reflexivity | right; reflexivity ].

Lemma scorer_extends_refl (s : ConfidenceScorer.t) : scorer_extends s s.
Proof. repeat split; exists []; by rewrite app_nil_r. Qed.

Lemma scorer_extends_trans (s1 s2 s3 : ConfidenceScorer.t) :
  scorer_extends s1 s2 → scorer_extends s2 s3 → scorer_extends s1 s3.
Proof.
  intros ([a Ha] & [b Hb] & [c Hc]) ([a' Ha'] & [b' Hb'] & [c' Hc']).
  repeat split; eexists.
  - by rewrite Ha', Ha, <- app_assoc.
  - by rewrite Hb', Hb, <- app_assoc.
  - by rewrite Hc', Hc, <- app_assoc.
Qed.

Lemma record_signal_extends (now : float) (e : WorkflowEvent) (s : ConfidenceScorer.t) :
  scorer_extends s (ConfidenceScorer.record_signal now e s).
Proof.
  unfold ConfidenceScorer.record_signal.
  destruct (_ || _); [|destruct (_ || _); [|destruct (_ && _)]];
    try apply scorer_extends_refl;
    repeat split; cbn [ConfidenceScorer._recent_fs ConfidenceScorer._recent_git
                       ConfidenceScorer._recent_tasks];
    first [ by eexists | exists []; by rewrite app_nil_r ].
Qed.

Lemma record_all_extends (signals : list (float * WorkflowEvent)) (s : ConfidenceScorer.t) :
  scorer_extends s (record_all signals s).
Proof.
  revert s. induction signals as [|[now e] signals IH]; intros s;
    [apply scorer_extends_refl|].
  cbn [record_all fold_left]. eapply scorer_extends_trans; [|apply IH].
  apply record_signal_extends.
Qed.

Lemma task_known_app (tid : option string) (w ext : list (float * string)) :
  ConfidenceScorer.task_known tid w = true →
  ConfidenceScorer.task_known tid (w ++ ext) = true.
Proof.
  unfold ConfidenceScorer.task_known. rewrite existsb_app. by intros ->.
Qed.

Lemma score_git_grows (clk : nat → float) (e : WorkflowEvent) (fs git fs' git' : list (float * string))
    (tasks ext : list (float * string)) :
  score_not_lower
    (ConfidenceScorer._score_git clk e
       {| ConfidenceScorer._recent_fs := fs; ConfidenceScorer._recent_git := git;
          ConfidenceScorer._recent_tasks := tasks |}).1
    (ConfidenceScorer._score_git clk e
       {| ConfidenceScorer._recent_fs := fs'; ConfidenceScorer._recent_git := git';
          ConfidenceScorer._recent_tasks := tasks ++ ext |}).1.
Proof.
  unfold ConfidenceScorer._score_git, score_not_lower.
  cbn [ConfidenceScorer._recent_tasks ConfidenceScorer._recent_fs
       ConfidenceScorer._recent_git].
  destruct (Py.truthy_str (task_id e)); cbv zeta iota beta.
  - set (T := ConfidenceScorer.TASK_PROXIMITY_SECS).
    destruct (evict (clk 0%nat) T tasks) as [|y w1] eqn:Hw1.
    + cbn [ConfidenceScorer.task_known existsb evict ConfidenceScorer.nonempty fst].
      destruct (ConfidenceScorer.task_known _ _); cbn [fst]; [compare_scores|].
      destruct (ConfidenceScorer.nonempty _); compare_scores.
    + rewrite (evict_app_nonempty (clk 0%nat) T tasks ext) by (by rewrite Hw1).
      rewrite Hw1.
      destruct (ConfidenceScorer.task_known (task_id e) (y :: w1)) eqn:Hk.
      * rewrite (task_known_app _ _ ext Hk). cbn [fst]. compare_scores.
      * destruct (ConfidenceScorer.task_known (task_id e) ((y :: w1) ++ ext));
          cbn [fst].
        { destruct (ConfidenceScorer.nonempty _); compare_scores. }
        grow (clk 1%nat) T (y :: w1) ext; compare_scores.
  - cbn [fst]. grow (clk 0%nat) ConfidenceScorer.TASK_PROXIMITY_SECS tasks ext;
      compare_scores.
Qed.

Lemma score_copilot_grows (clk : nat → float) (e : WorkflowEvent)
    (fs git tasks ext1 ext2 ext3 : list (float * string)) :
  score_not_lower
    (ConfidenceScorer._score_copilot clk e
       {| ConfidenceScorer._recent_fs := fs; ConfidenceScorer._recent_git := git;
          ConfidenceScorer._recent_tasks := tasks |}).1
    (ConfidenceScorer._score_copilot clk e
       {| ConfidenceScorer._recent_fs := fs ++ ext1;
          ConfidenceScorer._recent_git := git ++ ext2;
          ConfidenceScorer._recent_tasks := tasks ++ ext3 |}).1.
Proof.
  unfold ConfidenceScorer._score_copilot, score_not_lower. cbv zeta.
  cbn [ConfidenceScorer._recent_tasks ConfidenceScorer._recent_fs
       ConfidenceScorer._recent_git].
  destruct (Py.truthy_str (burst_id e));
    grow (clk 0%nat) ConfidenceScorer.FS_PROXIMITY_SECS fs ext1;
    grow (clk 1%nat) ConfidenceScorer.GIT_PROXIMITY_SECS git ext2;
    destruct (Py.truthy_str (task_id e)); cbn [fst]; try compare_scores;
    grow (clk 2%nat) ConfidenceScorer.TASK_PROXIMITY_SECS tasks ext3; compare_scores.
Qed.

Lemma score_filesystem_grows (clk : nat → float) (e : WorkflowEvent)
    (fs fs' git tasks ext2 ext3 : list (float * string)) :
  score_not_lower
    (ConfidenceScorer._score_filesystem clk e
       {| ConfidenceScorer._recent_fs := fs; ConfidenceScorer._recent_git := git;
          ConfidenceScorer._recent_tasks := tasks |}).1
    (ConfidenceScorer._score_filesystem clk e
       {| ConfidenceScorer._recent_fs := fs';
          ConfidenceScorer._recent_git := git ++ ext2;
          ConfidenceScorer._recent_tasks := tasks ++ ext3 |}).1.
Proof.
  unfold ConfidenceScorer._score_filesystem, score_not_lower. cbv zeta.
  cbn [ConfidenceScorer._recent_tasks ConfidenceScorer._recent_fs
       ConfidenceScorer._recent_git].
  grow (clk 0%nat) ConfidenceScorer.TASK_PROXIMITY_SECS tasks ext3;
    grow (clk 1%nat) ConfidenceScorer.GIT_PROXIMITY_SECS git ext2;
    cbn [fst]; compare_scores.
Qed.

Lemma score_grows (clk : nat → float) (e : WorkflowEvent) (s s' : ConfidenceScorer.t) :
  scorer_extends s s' →
  score_not_lower (ConfidenceScorer.score clk e s).1 (ConfidenceScorer.score clk e s').1.
Proof.
  destruct s as [fs git tasks], s' as [fs' git' tasks'].
  intros ([ext1 H1] & [ext2 H2] & [ext3 H3]). cbn in H1, H2, H3. subst.
  unfold ConfidenceScorer.score.
  destruct (bool_decide (source e = "antigravity")); [by left|].
  destruct (bool_decide (source e = "git")); [apply score_git_grows|].
  destruct (bool_decide (source e = "copilot")); [apply score_copilot_grows|].
  destruct (bool_decide (source e = "filesystem")); [apply score_filesystem_grows|].
  by left.
Qed.

(** X11.  Recorded signals only ever raise a score: for every event,
    clock and scorer state, the score computed after any number of
    further [record_signal] calls is the score computed before them or a
    greater one. *)
Theorem recorded_signals_never_lower_a_score (clk : nat → float) (e : WorkflowEvent)
    (s : ConfidenceScorer.t) (signals : list (float * WorkflowEvent)) :
  score_not_lower (ConfidenceScorer.score clk e s).1
    (ConfidenceScorer.score clk e (record_all signals s)).1.
Proof. apply score_grows, record_all_extends. Qed.

(** A window whose most recent entry is not stale is not emptied. *)
Lemma last_recent_nonempty {A} (now max_age : float) (w : list (float * A)) :
  last_is_recent now max_age w →
  ConfidenceScorer.nonempty (evict now max_age w) = true.
Proof.
  unfold last_is_recent. rewrite nonempty_true.
  intros (x & Hl & Hx). apply last_Some in Hl as [w' ->].
  intros He. pose proof (evict_split now max_age (w' ++ [x])) as (dropped & Hd & Hst).
  rewrite He, app_nil_r in Hd. rewrite <- Hd in Hst.
  apply Forall_app in Hst as [_ Hst]. rewrite Forall_singleton in Hst.
  congruence.
Qed.

Lemma nonempty_evict_last {A} (now max_age : float) (w : list (float * A)) :
  age_closed now max_age w →
  ConfidenceScorer.nonempty (evict now max_age w) = true ↔ last_is_recent now max_age w.
Proof.
  intros Hw. split; [|apply last_recent_nonempty].
  unfold last_is_recent. rewrite nonempty_true.
  intros Hne. destruct w as [|x w _] using rev_ind; [done|].
  exists x. rewrite last_snoc. split; [done|].
  destruct (evict_snoc_last now max_age w x) as [He|He]; [done|].
  apply last_Some_elem_of in He.
  rewrite evict_fresh in He by done. unfold fresh in He.
  by apply list_elem_of_filter in He as [Hx _].
Qed.

(** X12.  A proximity test of a scoring rule ("the window is non-empty"
    after its age eviction) is decided by the most recent signal: on
    windows that hold their signals in the order of their readings, the
    test holds at every reading exactly when the most recently recorded
    signal of that kind exists and is not stale for the test
    [(now - t) > horizon]. *)
Theorem proximity_is_decided_by_latest_signal (now : float) (s : ConfidenceScorer.t) :
  scorer_ordered s →
  (ConfidenceScorer.nonempty
     (evict now ConfidenceScorer.FS_PROXIMITY_SECS (ConfidenceScorer._recent_fs s)) = true
   ↔ last_is_recent now ConfidenceScorer.FS_PROXIMITY_SECS (ConfidenceScorer._recent_fs s))
  ∧ (ConfidenceScorer.nonempty
       (evict now ConfidenceScorer.GIT_PROXIMITY_SECS (ConfidenceScorer._recent_git s)) = true
     ↔ last_is_recent now ConfidenceScorer.GIT_PROXIMITY_SECS
         (ConfidenceScorer._recent_git s))
  ∧ (ConfidenceScorer.nonempty
       (evict now ConfidenceScorer.TASK_PROXIMITY_SECS (ConfidenceScorer._recent_tasks s))
     = true
     ↔ last_is_recent now ConfidenceScorer.TASK_PROXIMITY_SECS
         (ConfidenceScorer._recent_tasks s)).
Proof.
  intros (Hfs & Hgit & Htasks).
  split; [|split]; by apply nonempty_evict_last, clock_ordered_closed.
Qed.

Lemma proximity_is_decided_by_latest_signal_witness :
  scorer_ordered scorer_after_three
  ∧ (ConfidenceScorer.nonempty
       (evict 40 ConfidenceScorer.FS_PROXIMITY_SECS
          (ConfidenceScorer._recent_fs scorer_after_three)) = true
     ↔ last_is_recent 40 ConfidenceScorer.FS_PROXIMITY_SECS
         (ConfidenceScorer._recent_fs scorer_after_three))
  ∧ (ConfidenceScorer.nonempty
       (evict 40 ConfidenceScorer.GIT_PROXIMITY_SECS
          (ConfidenceScorer._recent_git scorer_after_three)) = true
     ↔ last_is_recent 40 ConfidenceScorer.GIT_PROXIMITY_SECS
         (ConfidenceScorer._recent_git scorer_after_three))
  ∧ (ConfidenceScorer.nonempty
       (evict 40 ConfidenceScorer.TASK_PROXIMITY_SECS
          (ConfidenceScorer._recent_tasks scorer_after_three)) = true
     ↔ last_is_recent 40 ConfidenceScorer.TASK_PROXIMITY_SECS
         (ConfidenceScorer._recent_tasks scorer_after_three)).
Proof.
  assert (H : scorer_ordered scorer_after_three).
  { unfold scorer_ordered, clock_ordered. vm_compute.
    repeat first [split | constructor]. }
  split; [exact H|].
  exact (proximity_is_decided_by_latest_signal 40 scorer_after_three H).
Defined.

(** In that scorer the filesystem signal of second 1 is stale for the
    30 s horizon at second 40, the commit and the task are not. *)
Example proximity_at_second_forty :
  ConfidenceScorer.nonempty
    (evict 40 ConfidenceScorer.FS_PROXIMITY_SECS
       (ConfidenceScorer._recent_fs scorer_after_three)) = false
  ∧ ConfidenceScorer.nonempty
      (evict 40 ConfidenceScorer.GIT_PROXIMITY_SECS
         (ConfidenceScorer._recent_git scorer_after_three)) = true.
Proof. split; vm_compute; reflexivity. Qed.

(** ** Temporal correlator *)

Lemma push_suffix (x : float * WorkflowEvent) (w : list (float * WorkflowEvent)) :
  TemporalCorrelator.push x w `suffix_of` w ++ [x]
  ∧ last (TemporalCorrelator.push x w) = Some x.
Proof.
  unfold TemporalCorrelator.push. case_bool_decide as Hlen.
  - destruct w as [|y w]; cbn [app tail].
    + unfold Py.len, TemporalCorrelator.MAX_EVENTS in Hlen. simpl in Hlen. lia.
    + split; [by apply suffix_cons_r|]. by rewrite last_snoc.
  - split; [done|]. by rewrite last_snoc.
Qed.

Lemma push_capped (x : float * WorkflowEvent) (w : list (float * WorkflowEvent)) :
  Py.len w ≤ TemporalCorrelator.MAX_EVENTS →
  Py.len (TemporalCorrelator.push x w) ≤ TemporalCorrelator.MAX_EVENTS.
Proof.
  unfold TemporalCorrelator.push, Py.len. intros Hw.
  case_bool_decide as Hlen; [|lia].
  destruct w as [|y w]; cbn [app tail]; rewrite ?length_app in *; simpl in *; lia.
Qed.

Lemma len_suffix {A} (w w' : list A) (n : Z) :
  w' `suffix_of` w → Py.len w ≤ n → Py.len w' ≤ n.
Proof. intros [pre ->]. unfold Py.len. rewrite length_app. lia. Qed.

Lemma push_routed (P : float * WorkflowEvent → Prop) (x : float * WorkflowEvent)
    (w : list (float * WorkflowEvent)) :
  P x → Forall P w → Forall P (TemporalCorrelator.push x w).
Proof.
  intros Hx Hw. eapply Forall_suffix; [apply push_suffix|].
  apply Forall_app. split; [done|]. by constructor.
Qed.

Lemma record_keeps (now : float) (e : WorkflowEvent) (c : TemporalCorrelator.t) :
  well_routed c ∧ capped c →
  well_routed (TemporalCorrelator.record now e c)
  ∧ capped (TemporalCorrelator.record now e c).
Proof.
  intros [(Rt & Rc & Rf & Rp) (Ct & Cc & Cf & Cp)].
  unfold TemporalCorrelator.record, well_routed, capped.
  destruct (bool_decide (source e = "antigravity") && Py.truthy_str (task_id e)) eqn:Ha.
  { apply andb_true_iff in Ha as [Hs Ht]. apply bool_decide_eq_true in Hs.
    cbn -[TemporalCorrelator.push TemporalCorrelator.MAX_EVENTS].
    repeat split; try done; [by apply push_routed|by apply push_capped]. }
  destruct (bool_decide (source e = "git")) eqn:Hg.
  { apply bool_decide_eq_true in Hg.
    cbn -[TemporalCorrelator.push TemporalCorrelator.MAX_EVENTS].
    repeat split; try done; [by apply push_routed|by apply push_capped]. }
  destruct (bool_decide (source e = "filesystem")) eqn:Hf.
  { apply bool_decide_eq_true in Hf.
    cbn -[TemporalCorrelator.push TemporalCorrelator.MAX_EVENTS].
    repeat split; try done; [by apply push_routed|by apply push_capped]. }
  destruct (bool_decide (source e = "copilot")) eqn:Hp; [|done].
  apply bool_decide_eq_true in Hp.
  cbn -[TemporalCorrelator.push TemporalCorrelator.MAX_EVENTS].
  repeat split; try done; [by apply push_routed|by apply push_capped].
Qed.

Lemma evicted_keeps (tasks commits fs cop : list (float * WorkflowEvent))
    (c : TemporalCorrelator.t) :
  tasks `suffix_of` TemporalCorrelator._tasks c →
  commits `suffix_of` TemporalCorrelator._commits c →
  fs `suffix_of` TemporalCorrelator._fs_events c →
  cop `suffix_of` TemporalCorrelator._copilot_events c →
  well_routed c ∧ capped c →
  well_routed (TemporalCorrelator.with_windows tasks commits fs cop c)
  ∧ capped (TemporalCorrelator.with_windows tasks commits fs cop c).
Proof.
  intros St Sc Sf Sp [(Rt & Rc & Rf & Rp) (Ct & Cc & Cf & Cp)].
  unfold well_routed, capped. cbn -[TemporalCorrelator.MAX_EVENTS].
  repeat split; first [ by eapply Forall_suffix | by eapply len_suffix ].
Qed.

Lemma correlate_commit_state (now : float) (env : MakeEnv) (commit : WorkflowEvent)
    (c : TemporalCorrelator.t) :
  (TemporalCorrelator._correlate_commit now env commit c).2
  = TemporalCorrelator.with_windows
      (evict now (TemporalCorrelator.TASK_COMMIT_WINDOW c) (TemporalCorrelator._tasks c))
      (TemporalCorrelator._commits c) (TemporalCorrelator._fs_events c)
      (TemporalCorrelator._copilot_events c) c.
Proof.
  unfold TemporalCorrelator._correlate_commit. cbv zeta.
  destruct (last _) as [[ts lt]|]; [|done].
  by destruct (TemporalCorrelator.choose_task _ _ _).
Qed.

Lemma check_cluster_state (now : float) (env : MakeEnv) (trigger : WorkflowEvent)
    (c : TemporalCorrelator.t) :
  (TemporalCorrelator._check_cluster now env trigger c).2
  = TemporalCorrelator._evict_all now (TemporalCorrelator.CLUSTER_WINDOW c) c.
Proof.
  unfold TemporalCorrelator._check_cluster. cbv zeta. by repeat case_bool_decide.
Qed.

Lemma correlate_state (nl nc : float) (el ec : MakeEnv) (e : WorkflowEvent)
    (c : TemporalCorrelator.t) :
  (TemporalCorrelator.correlate nl nc el ec e c).2
  = let c1 := if bool_decide (event_type e = EventType.GIT_COMMIT)
              then (TemporalCorrelator._correlate_commit nl el e c).2 else c in
    TemporalCorrelator._evict_all nc (TemporalCorrelator.CLUSTER_WINDOW c1) c1.
Proof.
  unfold TemporalCorrelator.correlate. cbv zeta.
  case_bool_decide.
  - destruct (TemporalCorrelator._correlate_commit nl el e c) as [[linked e1] c1].
    pose proof (check_cluster_state nc ec e1 c1) as Hs.
    destruct (TemporalCorrelator._check_cluster nc ec e1 c1). exact Hs.
  - pose proof (check_cluster_state nc ec e c) as Hs.
    destruct (TemporalCorrelator._check_cluster nc ec e c). exact Hs.
Qed.

Lemma correlate_keeps (nl nc : float) (el ec : MakeEnv) (e : WorkflowEvent)
    (c : TemporalCorrelator.t) :
  well_routed c ∧ capped c →
  well_routed (TemporalCorrelator.correlate nl nc el ec e c).2
  ∧ capped (TemporalCorrelator.correlate nl nc el ec e c).2.
Proof.
  intros Hc. rewrite correlate_state. cbv zeta.
  set (c1 := if bool_decide _ then _ else c).
  assert (H1 : well_routed c1 ∧ capped c1).
  { subst c1. case_bool_decide; [|done]. rewrite correlate_commit_state.
    apply evicted_keeps; try done. apply evict_suffix. }
  unfold TemporalCorrelator._evict_all.
  apply evicted_keeps; try done; apply evict_suffix.
Qed.

Lemma apply_cops_keeps (ops : list CorrelatorOp) (c : TemporalCorrelator.t) :
  well_routed c ∧ capped c →
  well_routed (apply_cops c ops) ∧ capped (apply_cops c ops).
Proof.
  revert c. induction ops as [|op ops IH]; intros c Hc; [done|].
  cbn [apply_cops fold_left]. apply IH. destruct op; cbn [apply_cop].
  - by apply record_keeps.
  - by apply correlate_keeps.
Qed.

Lemma init_keeps (tw cw : float) :
  well_routed (TemporalCorrelator.init tw cw) ∧ capped (TemporalCorrelator.init tw cw).
Proof.
  unfold well_routed, capped, Py.len, TemporalCorrelator.MAX_EVENTS.
  cbn [TemporalCorrelator.init TemporalCorrelator._tasks TemporalCorrelator._commits
       TemporalCorrelator._fs_events TemporalCorrelator._copilot_events length].
  repeat split; first [constructor | lia].
Qed.

(** X13.  After any sequence of [record] and [correlate] calls on a new
    correlator no window holds more than 200 entries; [record] drops at
    most the oldest entry of the window it appends to, and the event just
    recorded is always the newest entry of that window. *)
Theorem windows_stay_capped (tw cw : float) (ops : list CorrelatorOp) :
  capped (apply_cops (TemporalCorrelator.init tw cw) ops)
  ∧ ∀ x w, TemporalCorrelator.push x w `suffix_of` w ++ [x]
           ∧ last (TemporalCorrelator.push x w) = Some x
           ∧ (length w ≤ length (TemporalCorrelator.push x w))%nat.
Proof.
  split; [apply apply_cops_keeps, init_keeps|].
  intros x w. destruct (push_suffix x w) as [Hs Hl]. repeat split; try done.
  unfold TemporalCorrelator.push. case_bool_decide; [|rewrite length_app; lia].
  destruct w; cbn [app tail]; rewrite ?length_app; simpl; lia.
Qed.

Ltac link_shape :=
  repeat split;
  cbn [external_ref workspace_id task_id kw_task_id WorkflowEvent_.make];
  by destruct (Py.truthy_str _).

(** What [_correlate_commit] returns, in one of two shapes. *)
Lemma correlate_commit_result (now : float) (env : MakeEnv) (commit : WorkflowEvent)
    (c : TemporalCorrelator.t) :
  let tasks := evict now (TemporalCorrelator.TASK_COMMIT_WINDOW c)
                 (TemporalCorrelator._tasks c) in
  let r := TemporalCorrelator._correlate_commit now env commit c in
  (tasks = [] ∧ r.1.1 = None ∧ r.1.2 = commit)
  ∨ ∃ ts best cty link,
      (ts, best) ∈ tasks
      ∧ (cty = "task_match" ∨ cty = "file_overlap" ∨ cty = "time_proximity")
      ∧ r.1.1 = Some link
      ∧ task_id link = task_id best
      ∧ correlation_type link = Some cty
      ∧ confidence link = TemporalCorrelator._link_confidence cty
      ∧ correlated_events link = Some [id commit; id best]
      ∧ external_ref link
        = (if Py.truthy_str (task_id best)
           then (λ w, String.append w (String.append ":" (default "" (task_id best))))
                <$> workspace_id link
           else None)
      ∧ r.1.2 = WorkflowEvent_.set_link (task_id best) (task_title best) cty
                  [id best] commit.
Proof.
  cbv zeta. unfold TemporalCorrelator._correlate_commit. cbv zeta.
  set (tasks := evict now _ _).
  destruct (last tasks) as [[ts last_task]|] eqn:Hlast;
    [right|left; by apply last_None in Hlast].
  assert (Hsome : ∀ f, find f (reverse tasks) = None ∨
                       ∃ x, find f (reverse tasks) = Some x ∧ x ∈ tasks).
  { intros f. destruct (find f (reverse tasks)) as [x|] eqn:Hf; [right|by left].
    exists x. split; [done|]. apply find_some in Hf as [Hin _].
    apply elem_of_reverse, list_elem_of_In. exact Hin. }
  assert (Hl : (ts, last_task) ∈ tasks).
  { apply last_Some in Hlast as [l' ->]. apply elem_of_app. right. by left. }
  unfold TemporalCorrelator.choose_task, TemporalCorrelator.find_task_match,
    TemporalCorrelator.find_file_overlap.
  destruct (Py.truthy_str (task_id commit)).
  - match goal with |- context [find ?f (reverse tasks)] =>
      destruct (Hsome f) as [Hn|([ts1 b1] & Hf & Hin)] end.
    + rewrite Hn. cbn [fmap option_fmap option_map].
      destruct (Py.truthy_list (files_changed commit)).
      * match goal with |- context [find ?f (reverse tasks)] =>
          destruct (Hsome f) as [Hn2|([ts2 b2] & Hf2 & Hin2)] end.
        -- rewrite Hn2. cbn [fmap option_fmap option_map fst snd].
           exists ts, last_task, "time_proximity". eexists.
           split; [done|]. split; [tauto|]. link_shape.
        -- rewrite Hf2. cbn [fmap option_fmap option_map fst snd].
           exists ts2, b2, "file_overlap". eexists.
           split; [done|]. split; [tauto|]. link_shape.
      * cbn [fst snd]. exists ts, last_task, "time_proximity". eexists.
        split; [done|]. split; [tauto|]. link_shape.
    + rewrite Hf. cbn [fmap option_fmap option_map fst snd].
      exists ts1, b1, "task_match". eexists.
      split; [done|]. split; [tauto|]. link_shape.
  - destruct (Py.truthy_list (files_changed commit)).
    + match goal with |- context [find ?f (reverse tasks)] =>
        destruct (Hsome f) as [Hn2|([ts2 b2] & Hf2 & Hin2)] end.
      * rewrite Hn2. cbn [fmap option_fmap option_map fst snd].
        exists ts, last_task, "time_proximity". eexists.
        split; [done|]. split; [tauto|]. link_shape.
      * rewrite Hf2. cbn [fmap option_fmap option_map fst snd].
        exists ts2, b2, "file_overlap". eexists.
        split; [done|]. split; [tauto|]. link_shape.
    + cbn [fst snd]. exists ts, last_task, "time_proximity". eexists.
      split; [done|]. split; [tauto|]. link_shape.
Qed.

Lemma well_routed_sources (c : TemporalCorrelator.t) :
  well_routed c → window_sources c ⊆ routed_sources.
Proof.
  intros (Rt & Rc & Rf & Rp) x. unfold window_sources, TemporalCorrelator.window_events.
  rewrite elem_of_list_to_set. intros Hx.
  apply list_elem_of_In, in_map_iff in Hx as (ev & <- & Hev).
  apply in_map_iff in Hev as ([ts ev'] & <- & Hin). apply list_elem_of_In in Hin.
  cbn [snd]. unfold routed_sources.
  rewrite !elem_of_app in Hin. destruct Hin as [Hin|[Hin|[Hin|Hin]]].
  - rewrite Forall_forall in Rt. destruct (Rt _ Hin) as [Hs _].
    cbn [snd] in Hs. rewrite Hs. set_solver.
  - rewrite Forall_forall in Rc. pose proof (Rc _ Hin) as Hs.
    cbn [snd] in Hs. rewrite Hs. set_solver.
  - rewrite Forall_forall in Rf. pose proof (Rf _ Hin) as Hs.
    cbn [snd] in Hs. rewrite Hs. set_solver.
  - rewrite Forall_forall in Rp. pose proof (Rp _ Hin) as Hs.
    cbn [snd] in Hs. rewrite Hs. set_solver.
Qed.

(** X14.  After any sequence of [record] and [correlate] calls on a new
    correlator each window holds only events of its own source (the task
    window only planning events that carry a task id), so at most four
    distinct sources are ever present; and whenever a commit is linked,
    the link event and the annotated commit carry the non-empty task id
    of a planning event, and the link event has an external reference. *)
Theorem windows_hold_their_own_source (tw cw : float) (ops : list CorrelatorOp) :
  let c := apply_cops (TemporalCorrelator.init tw cw) ops in
  well_routed c
  ∧ window_sources c ⊆ routed_sources
  ∧ (size (window_sources c) ≤ 4)%nat
  ∧ ∀ now env commit link,
      (TemporalCorrelator._correlate_commit now env commit c).1.1 = Some link →
      Py.truthy_str (task_id link) = true
      ∧ is_Some (external_ref link)
      ∧ task_id (TemporalCorrelator._correlate_commit now env commit c).1.2
        = task_id link.
Proof.
  cbv zeta. set (c := apply_cops _ ops).
  assert (Hc : well_routed c) by apply apply_cops_keeps, init_keeps.
  split; [done|]. split; [by apply well_routed_sources|]. split.
  - etrans; [apply subseteq_size, (well_routed_sources c Hc)|].
    vm_compute. lia.
  - intros now env commit link Hlink.
    destruct (correlate_commit_result now env commit c)
      as [(_ & Hnone & _)|(ts & best & cty & link' & Hin & _ & Hsome & Htid & _ & _ & _
                            & Hext & Hcommit)];
      cbv zeta in *; [congruence|].
    rewrite Hsome in Hlink. injection Hlink as ->.
    assert (Hbest : Py.truthy_str (task_id best) = true).
    { destruct Hc as (Rt & _). rewrite Forall_forall in Rt.
      assert (Hin' : (ts, best) ∈ TemporalCorrelator._tasks c).
      { destruct (evict_suffix now (TemporalCorrelator.TASK_COMMIT_WINDOW c)
                    (TemporalCorrelator._tasks c)) as [pre Hpre].
        rewrite Hpre. apply elem_of_app. by right. }
      by destruct (Rt _ Hin'). }
    rewrite Hcommit, Htid, Hext, Hbest. repeat split.
    destruct (workspace_id link) eqn:Hw; [by eexists|].
    exfalso. revert Hsome Hw. unfold TemporalCorrelator._correlate_commit. cbv zeta.
    destruct (last _) as [[? ?]|]; [|done].
    destruct (TemporalCorrelator.choose_task _ _ _). cbn [fst]. by intros [= <-].
Qed.

Lemma evict_all_within (now max_age : float) (w : list (float * WorkflowEvent)) :
  age_closed now max_age w →
  Forall (λ x, stale now max_age x.1 = false) (evict now max_age w).
Proof.
  intros Hw. rewrite evict_fresh by done. unfold fresh.
  rewrite Forall_forall. intros x Hx. by apply list_elem_of_filter in Hx as [Hx _].
Qed.

(** X15.  On a correlator whose windows hold their events in the order
    of their readings, at every reading a commit is only ever linked to a
    task that the test [(now - t) > TASK_COMMIT_WINDOW] does not call
    stale, and the link lists the ids of the commit and of that task;
    after a cluster check no entry stale for [CLUSTER_WINDOW] is left in
    any window. *)
Theorem correlator_links_only_recent_tasks (now : float) (env : MakeEnv)
    (e : WorkflowEvent) (c : TemporalCorrelator.t) :
  correlator_ordered c →
  (∀ link, (TemporalCorrelator._correlate_commit now env e c).1.1 = Some link →
     ∃ ts best, (ts, best) ∈ TemporalCorrelator._tasks c
                ∧ stale now (TemporalCorrelator.TASK_COMMIT_WINDOW c) ts = false
                ∧ task_id link = task_id best
                ∧ correlated_events link = Some [id e; id best])
  ∧ all_within now (TemporalCorrelator.CLUSTER_WINDOW c)
      (TemporalCorrelator._check_cluster now env e c).2.
Proof.
  intros (Ht & Hc & Hf & Hp). split.
  - intros link Hlink.
    pose proof (clock_ordered_closed now (TemporalCorrelator.TASK_COMMIT_WINDOW c) _ Ht)
      as Htasks.
    destruct (correlate_commit_result now env e c)
      as [(_ & Hnone & _)|(ts & best & cty & link' & Hin & _ & Hsome & Htid & _ & _ & Hev & _)];
      cbv zeta in *; [congruence|].
    rewrite Hsome in Hlink. injection Hlink as ->.
    exists ts, best.
    rewrite evict_fresh in Hin by done. unfold fresh in Hin.
    apply list_elem_of_filter in Hin as [Hage Hin]. by repeat split.
  - rewrite check_cluster_state. unfold all_within, TemporalCorrelator._evict_all.
    cbn [TemporalCorrelator.with_windows TemporalCorrelator._tasks
         TemporalCorrelator._commits TemporalCorrelator._fs_events
         TemporalCorrelator._copilot_events].
    rewrite !Forall_app. repeat split; by apply evict_all_within, clock_ordered_closed.
Qed.

Lemma correlator_links_only_recent_tasks_witness :
  correlator_ordered two_tasks
  ∧ ((∀ link,
        (TemporalCorrelator._correlate_commit 302 (sample_env "ln-1") commit_both
           two_tasks).1.1 = Some link →
        ∃ ts best, (ts, best) ∈ TemporalCorrelator._tasks two_tasks
                   ∧ stale 302 (TemporalCorrelator.TASK_COMMIT_WINDOW two_tasks) ts = false
                   ∧ task_id link = task_id best
                   ∧ correlated_events link = Some [id commit_both; id best])
     ∧ all_within 302 (TemporalCorrelator.CLUSTER_WINDOW two_tasks)
         (TemporalCorrelator._check_cluster 302 (sample_env "ln-1") commit_both
            two_tasks).2).
Proof.
  assert (Ht : TemporalCorrelator._tasks two_tasks = [(1%float, task_one); (2%float, task_two)])
    by (vm_compute; reflexivity).
  assert (Hc : TemporalCorrelator._commits two_tasks = []) by reflexivity.
  assert (Hf : TemporalCorrelator._fs_events two_tasks = []) by reflexivity.
  assert (Hp : TemporalCorrelator._copilot_events two_tasks = []) by reflexivity.
  assert (H : correlator_ordered two_tasks).
  { unfold correlator_ordered, clock_ordered. rewrite Ht, Hc, Hf, Hp.
    repeat first [split | constructor]. }
  split; [exact H|].
  exact (correlator_links_only_recent_tasks 302 (sample_env "ln-1") commit_both
           two_tasks H).
Defined.

(** At second 302 the task of second 1 is stale for the 300 s horizon:
    the commit that names it is linked to the task of second 2. *)
Example stale_match_is_passed_over :
  (task_id <$> (TemporalCorrelator._correlate_commit 302 (sample_env "ln-1") commit_both
                  two_tasks).1.1)
  = Some (task_id task_two).
Proof. vm_compute. reflexivity. Qed.

(** X16.  A link event's confidence is 1.0, 0.8 or 0.5 and its
    correlation type "task_match", "file_overlap" or "time_proximity":
    the fall-back confidence 0.3 that [_link_confidence] gives any other
    type is never used by commit linking. *)
Theorem link_confidence_is_one_of_three (now : float) (env : MakeEnv)
    (commit : WorkflowEvent) (c : TemporalCorrelator.t) :
  (∀ link, (TemporalCorrelator._correlate_commit now env commit c).1.1 = Some link →
     (correlation_type link = Some "task_match" ∧ confidence link = 1.0%float)
     ∨ (correlation_type link = Some "file_overlap" ∧ confidence link = 0.8%float)
     ∨ (correlation_type link = Some "time_proximity" ∧ confidence link = 0.5%float))
  ∧ ∀ other : string,
      other ≠ "task_match" → other ≠ "file_overlap" → other ≠ "time_proximity" →
      TemporalCorrelator._link_confidence other = 0.3%float.
Proof.
  split.
  - intros link Hlink.
    destruct (correlate_commit_result now env commit c)
      as [(_ & Hnone & _)|(ts & best & cty & link' & _ & Hcty & Hsome & _ & Hty & Hconf & _)];
      cbv zeta in *; [congruence|].
    rewrite Hsome in Hlink. injection Hlink as ->. rewrite Hty, Hconf.
    destruct Hcty as [->|[->| ->]]; [left|right; left|right; right]; by split.
  - intros other H1 H2 H3. unfold TemporalCorrelator._link_confidence.
    by rewrite !bool_decide_eq_false_2 by done.
Qed.

(** X17.  [correlate] decides on the event kind alone whether to link: an
    event whose kind is not "git.commit" is returned untouched, with at
    most the cluster event, whatever its source; for a commit kind the
    result is the link event, if any, followed by the cluster event, if
    any, so never more than two events. *)
Theorem correlate_links_commit_kinds_only (now_link now_cluster : float)
    (env_link env_cluster : MakeEnv) (e : WorkflowEvent) (c : TemporalCorrelator.t) :
  let r := TemporalCorrelator.correlate now_link now_cluster env_link env_cluster e c in
  (length r.1.1 ≤ 2)%nat
  ∧ (event_type e ≠ EventType.GIT_COMMIT →
     r.1.2 = e
     ∧ r.1.1 = TemporalCorrelator.opt_to_list
                 (TemporalCorrelator._check_cluster now_cluster env_cluster e c).1
     ∧ r.2 = TemporalCorrelator._evict_all now_cluster (TemporalCorrelator.CLUSTER_WINDOW c) c)
  ∧ (event_type e = EventType.GIT_COMMIT →
     r.1.2 = (TemporalCorrelator._correlate_commit now_link env_link e c).1.2
     ∧ ∃ cluster,
         r.1.1 = TemporalCorrelator.opt_to_list
                   (TemporalCorrelator._correlate_commit now_link env_link e c).1.1
                 ++ TemporalCorrelator.opt_to_list cluster).
Proof.
  cbv zeta. unfold TemporalCorrelator.correlate.
  case_bool_decide as Hty.
  - destruct (TemporalCorrelator._correlate_commit now_link env_link e c)
      as [[linked e1] c1].
    destruct (TemporalCorrelator._check_cluster now_cluster env_cluster e1 c1)
      as [cluster c2].
    cbn [fst snd]. split; [destruct linked, cluster; simpl; lia|].
    split; [done|]. intros _. split; [done|]. by exists cluster.
  - pose proof (check_cluster_state now_cluster env_cluster e c) as Hs.
    destruct (TemporalCorrelator._check_cluster now_cluster env_cluster e c)
      as [cluster c2].
    cbn [fst snd] in *. split; [destruct cluster; simpl; lia|].
    split; [|done]. intros _. by repeat split.
Qed.

Lemma correlate_commit_task_match (now : float) (env : MakeEnv) (commit : WorkflowEvent)
    (c : TemporalCorrelator.t) :
  let tasks := evict now (TemporalCorrelator.TASK_COMMIT_WINDOW c)
                 (TemporalCorrelator._tasks c) in
  (∃ tk, tk ∈ tasks.*2 ∧ id_match commit tk) →
  ∃ link best,
    (TemporalCorrelator._correlate_commit now env commit c).1.1 = Some link
    ∧ correlation_type link = Some "task_match"
    ∧ confidence link = 1.0%float
    ∧ task_id link = task_id best
    ∧ id_match commit best.
Proof.
  cbv zeta. intros Hex. unfold TemporalCorrelator._correlate_commit. cbv zeta.
  set (tasks := evict now _ _) in *.
  destruct (last tasks) as [[ts last_task]|] eqn:Hlast.
  - pose proof (choose_task_precedence commit last_task tasks) as (HA & _).
    destruct (HA Hex) as [Hcty Hmr].
    destruct (TemporalCorrelator.choose_task commit tasks last_task) as [best cty].
    cbn [fst snd] in *. subst cty.
    eexists _, best. split; [reflexivity|].
    repeat split; try apply (most_recent_elem _ _ _ Hmr).
  - apply last_None in Hlast. destruct Hex as (tk & Hin & _).
    rewrite Hlast in Hin. by apply elem_of_nil in Hin.
Qed.

(** X18.  Linking is not idempotent on the commit: once a commit has been
    linked, by whatever strategy, it carries the task id of the linked
    task.  Correlating the annotated commit again, at any reading and on
    any state of the correlator, links it by "task_match" at confidence
    1.0 to the same task id whenever a task of that id is left in the
    task window after the eviction of that call; at the reading of the
    first call, on the state it left, there is one. *)
Theorem relinking_upgrades_to_task_match (now : float) (env : MakeEnv)
    (commit link : WorkflowEvent) (c : TemporalCorrelator.t) :
  well_routed c →
  (TemporalCorrelator._correlate_commit now env commit c).1.1 = Some link →
  let r1 := TemporalCorrelator._correlate_commit now env commit c in
  (∀ (now' : float) (env' : MakeEnv) (c' : TemporalCorrelator.t),
     (∃ tk, tk ∈ (evict now' (TemporalCorrelator.TASK_COMMIT_WINDOW c')
                    (TemporalCorrelator._tasks c')).*2
            ∧ task_id tk = task_id link) →
     ∃ link',
       (TemporalCorrelator._correlate_commit now' env' r1.1.2 c').1.1 = Some link'
       ∧ correlation_type link' = Some "task_match"
       ∧ confidence link' = 1.0%float
       ∧ task_id link' = task_id link)
  ∧ ∃ tk, tk ∈ (evict now (TemporalCorrelator.TASK_COMMIT_WINDOW r1.2)
                  (TemporalCorrelator._tasks r1.2)).*2
          ∧ task_id tk = task_id link.
Proof.
  intros Hc Hlink. cbv zeta.
  destruct (correlate_commit_result now env commit c)
    as [(_ & Hnone & _)|(ts & best & cty & link0 & Hin & _ & Hsome & Htid & _ & _ & _ & _
                          & Hcommit)];
    cbv zeta in *; [congruence|].
  rewrite Hsome in Hlink. injection Hlink as ->.
  set (tasks := evict now _ _) in *.
  assert (Hbest : Py.truthy_str (task_id best) = true).
  { destruct Hc as (Rt & _). rewrite Forall_forall in Rt.
    assert (Hin' : (ts, best) ∈ TemporalCorrelator._tasks c).
    { destruct (evict_suffix now (TemporalCorrelator.TASK_COMMIT_WINDOW c)
                  (TemporalCorrelator._tasks c)) as [pre Hpre].
      rewrite Hpre. apply elem_of_app. by right. }
    by destruct (Rt _ Hin'). }
  split.
  - intros now' env' c' (tk & Htk & Hid). rewrite Hcommit.
    destruct (correlate_commit_task_match now' env'
                (WorkflowEvent_.set_link (task_id best) (task_title best) cty [id best] commit)
                c') as (link' & best' & Hl' & Hty' & Hconf' & Htid' & [_ Hid']).
    { cbv zeta. exists tk. split; [done|]. split; [done|].
      cbn [task_id WorkflowEvent_.set_link]. by rewrite Hid, Htid. }
    exists link'. repeat split; try done. by rewrite Htid', Hid', Htid.
  - rewrite correlate_commit_state. fold tasks.
    cbn [TemporalCorrelator.with_windows TemporalCorrelator.TASK_COMMIT_WINDOW
         TemporalCorrelator._tasks].
    subst tasks. rewrite evict_idem. exists best. split; [|done].
    apply list_elem_of_fmap. by exists (ts, best).
Qed.

Lemma relinking_upgrades_to_task_match_witness :
  well_routed one_task
  ∧ (TemporalCorrelator._correlate_commit 3 (sample_env "ln-1")
       (commit_event None None) one_task).1.1
    = Some (default cluster_event
              (TemporalCorrelator._correlate_commit 3 (sample_env "ln-1")
                 (commit_event None None) one_task).1.1)
  ∧ (let link := default cluster_event
                   (TemporalCorrelator._correlate_commit 3 (sample_env "ln-1")
                      (commit_event None None) one_task).1.1 in
     let r1 := TemporalCorrelator._correlate_commit 3 (sample_env "ln-1")
                 (commit_event None None) one_task in
     (∀ (now' : float) (env' : MakeEnv) (c' : TemporalCorrelator.t),
        (∃ tk, tk ∈ (evict now' (TemporalCorrelator.TASK_COMMIT_WINDOW c')
                       (TemporalCorrelator._tasks c')).*2
               ∧ task_id tk = task_id link) →
        ∃ link',
          (TemporalCorrelator._correlate_commit now' env' r1.1.2 c').1.1 = Some link'
          ∧ correlation_type link' = Some "task_match"
          ∧ confidence link' = 1.0%float
          ∧ task_id link' = task_id link)
     ∧ ∃ tk, tk ∈ (evict 3 (TemporalCorrelator.TASK_COMMIT_WINDOW r1.2)
                     (TemporalCorrelator._tasks r1.2)).*2
             ∧ task_id tk = task_id link).
Proof.
  assert (H1 : well_routed one_task).
  { assert (Ht : TemporalCorrelator._tasks one_task = [(1%float, task_one)])
      by (vm_compute; reflexivity).
    unfold well_routed. rewrite Ht.
    repeat split; repeat constructor. }
  assert (H2 : (TemporalCorrelator._correlate_commit 3 (sample_env "ln-1")
                  (commit_event None None) one_task).1.1
               = Some (default cluster_event
                         (TemporalCorrelator._correlate_commit 3 (sample_env "ln-1")
                            (commit_event None None) one_task).1.1))
    by (vm_compute; reflexivity).
  split; [exact H1|]. split; [exact H2|].
  exact (relinking_upgrades_to_task_match 3 (sample_env "ln-1")
           (commit_event None None) _ one_task H1 H2).
Defined.

(** The commit linked at second 3 and correlated again at second 302,
    when the task is stale: no link. *)
Example relinking_after_the_horizon :
  (let r1 := TemporalCorrelator._correlate_commit 3 (sample_env "ln-1")
               (commit_event None None) one_task in
   (TemporalCorrelator._correlate_commit 302 (sample_env "ln-2") r1.1.2 r1.2).1.1)
  = None.
Proof. vm_compute. reflexivity. Qed.

(** The first link of that commit was by "time_proximity". *)
Example first_link_was_time_proximity :
  (correlation_type
     <$> (TemporalCorrelator._correlate_commit 3%float (sample_env "ln-1")
            (commit_event None None) one_task).1.1)
  = Some (Some "time_proximity").
Proof. vm_compute. reflexivity. Qed.

Lemma correlate_links_kinds (now_link now_cluster : float) (env_link env_cluster : MakeEnv)
    (e : WorkflowEvent) (c : TemporalCorrelator.t) :
  (event_type e ≠ EventType.GIT_COMMIT →
   (TemporalCorrelator.correlate now_link now_cluster env_link env_cluster e c).1.2 = e)
  ∧ (event_type e = EventType.GIT_COMMIT →
     (TemporalCorrelator.correlate now_link now_cluster env_link env_cluster e c).1.2
     = (TemporalCorrelator._correlate_commit now_link env_link e c).1.2).
Proof.
  unfold TemporalCorrelator.correlate. case_bool_decide as Hty.
  - destruct (TemporalCorrelator._correlate_commit now_link env_link e c)
      as [[linked e1] c1].
    destruct (TemporalCorrelator._check_cluster now_cluster env_cluster e1 c1).
    by split.
  - destruct (TemporalCorrelator._check_cluster now_cluster env_cluster e c).
    by split.
Qed.

(** X19.  The old API [TaskCommitCorrelator.correlate_commit] returns the
    commit it was given: untouched when its kind is not "git.commit" or
    when no recorded task is left within the commit-task horizon, and
    otherwise with the task id and title of a task event recorded before,
    a correlation type and the id of that task event written on it. *)
Theorem old_api_returns_the_annotated_commit (now_record now_link now_cluster : float)
    (env_link env_cluster : MakeEnv) (commit : WorkflowEvent) (w : TaskCommitCorrelator.t) :
  let r := TaskCommitCorrelator.correlate_commit now_record now_link now_cluster
             env_link env_cluster commit w in
  let recorded :=
    TemporalCorrelator._tasks
      (TemporalCorrelator.record now_record commit (TaskCommitCorrelator._engine w)) in
  let horizon := TemporalCorrelator.TASK_COMMIT_WINDOW (TaskCommitCorrelator._engine w) in
  (event_type commit ≠ EventType.GIT_COMMIT ∨ evict now_link horizon recorded = [] →
   r.1 = commit)
  ∧ (event_type commit = EventType.GIT_COMMIT → evict now_link horizon recorded ≠ [] →
     ∃ ts best cty,
       (ts, best) ∈ recorded
       ∧ r.1 = WorkflowEvent_.set_link (task_id best) (task_title best) cty [id best] commit).
Proof.
  cbv zeta. unfold TaskCommitCorrelator.correlate_commit.
  set (c1 := TemporalCorrelator.record now_record commit (TaskCommitCorrelator._engine w)).
  assert (Hw : TemporalCorrelator.TASK_COMMIT_WINDOW c1
               = TemporalCorrelator.TASK_COMMIT_WINDOW (TaskCommitCorrelator._engine w)).
  { subst c1. unfold TemporalCorrelator.record.
    destruct (_ && _); [done|].
    destruct (bool_decide (source commit = "git")); [done|].
    destruct (bool_decide (source commit = "filesystem")); [done|].
    by destruct (bool_decide (source commit = "copilot")). }
  rewrite <- Hw.
  pose proof (correlate_links_kinds now_link now_cluster env_link env_cluster commit c1)
    as [Hother Hcommit].
  destruct (TemporalCorrelator.correlate now_link now_cluster env_link env_cluster commit c1)
    as [[derived commit'] c2]. cbn [fst snd] in *.
  destruct (correlate_commit_result now_link env_link commit c1)
    as [(Hemp & _ & Hsame)|(ts & best & cty & link & Hin & _ & _ & _ & _ & _ & _ & _ & Hset)];
    cbv zeta in *.
  - split.
    + intros [Hty|_]; [by apply Hother|].
      destruct (decide (event_type commit = EventType.GIT_COMMIT)) as [Hty|Hty];
        [by rewrite Hcommit|by apply Hother].
    + intros _ Hne. by rewrite Hemp in Hne.
  - split.
    + intros [Hty|Hemp]; [by apply Hother|]. rewrite Hemp in Hin.
      by apply elem_of_nil in Hin.
    + intros Hty _. exists ts, best, cty. split.
      * destruct (evict_suffix now_link (TemporalCorrelator.TASK_COMMIT_WINDOW c1)
                    (TemporalCorrelator._tasks c1)) as [pre Hpre].
        rewrite Hpre. apply elem_of_app. by right.
      * by rewrite Hcommit.
Qed.

(** ** The closed taxonomy *)

Lemma correlate_commit_link_shape (now : float) (env : MakeEnv) (commit ev : WorkflowEvent)
    (c : TemporalCorrelator.t) :
  (TemporalCorrelator._correlate_commit now env commit c).1.1 = Some ev →
  event_type ev = EventType.GIT_COMMIT_LINKED ∧ source ev = "git".
Proof.
  unfold TemporalCorrelator._correlate_commit. cbv zeta.
  destruct (last _) as [[ts last_task]|]; [|done].
  destruct (TemporalCorrelator.choose_task _ _ _) as [best cty].
  cbn [fst]. by intros [= <-].
Qed.

Lemma check_cluster_shape (now : float) (env : MakeEnv) (trigger ev : WorkflowEvent)
    (c : TemporalCorrelator.t) :
  (TemporalCorrelator._check_cluster now env trigger c).1 = Some ev →
  event_type ev = EventType.WORKFLOW_ACTIVITY_CLUSTERED
  ∧ source ev = "agent" ∧ confidence ev = 0.7%float.
Proof.
  unfold TemporalCorrelator._check_cluster. cbv zeta.
  repeat case_bool_decide; cbn [fst]; by intros [= <-].
Qed.

(** The derived events of [correlate]: at most a link event, only for a
    commit, followed by at most a cluster event. *)
Lemma correlate_derived_shape (now_link now_cluster : float) (env_link env_cluster : MakeEnv)
    (e : WorkflowEvent) (c : TemporalCorrelator.t) :
  ∃ linked cluster,
    (TemporalCorrelator.correlate now_link now_cluster env_link env_cluster e c).1.1
    = TemporalCorrelator.opt_to_list linked ++ TemporalCorrelator.opt_to_list cluster
    ∧ (∀ ev, linked = Some ev →
         event_type e = EventType.GIT_COMMIT
         ∧ event_type ev = EventType.GIT_COMMIT_LINKED ∧ source ev = "git")
    ∧ (∀ ev, cluster = Some ev →
         event_type ev = EventType.WORKFLOW_ACTIVITY_CLUSTERED
         ∧ source ev = "agent" ∧ confidence ev = 0.7%float).
Proof.
  unfold TemporalCorrelator.correlate. case_bool_decide as Hty.
  - pose proof (correlate_commit_link_shape now_link env_link e) as Hl.
    specialize (λ ev, Hl ev c).
    destruct (TemporalCorrelator._correlate_commit now_link env_link e c)
      as [[linked e1] c1]. cbn [fst] in Hl.
    pose proof (λ ev, check_cluster_shape now_cluster env_cluster e1 ev c1) as Hc.
    destruct (TemporalCorrelator._check_cluster now_cluster env_cluster e1 c1)
      as [cluster c2]. cbn [fst] in *.
    exists linked, cluster. split; [done|]. split; [|done].
    intros ev Hev. split; [done|]. by apply Hl.
  - pose proof (λ ev, check_cluster_shape now_cluster env_cluster e ev c) as Hc.
    destruct (TemporalCorrelator._check_cluster now_cluster env_cluster e c)
      as [cluster c2]. cbn [fst] in *.
    exists None, cluster. split; [done|]. split; [done|]. exact Hc.
Qed.


(** X20.  The taxonomy of [EventType] has 21 kinds, no two constants
    coincide, and every event that the core mints itself is of one of
    them: the batch event of the file detector, the burst-start and
    burst-end events of [observe] and [flush], and the link and cluster
    events of [correlate].  The empty kind is not valid. *)
Theorem core_mints_only_taxonomy_kinds :
  size Taxonomy.all_types = 21%nat
  ∧ Taxonomy.is_valid "" = false
  ∧ (∀ now env p root d,
       all_valid (TemporalCorrelator.opt_to_list
                    (FileBurstDetector.observe now env p root d).1))
  ∧ (∀ now uid env e d, all_valid (CopilotBurstDetector.observe now uid env e d).1.1)
  ∧ (∀ clk env d,
       all_valid (TemporalCorrelator.opt_to_list (CopilotBurstDetector.flush clk env d).1))
  ∧ (∀ now_link now_cluster env_link env_cluster e c,
       all_valid (TemporalCorrelator.correlate now_link now_cluster env_link env_cluster
                    e c).1.1).
Proof.
  split; [by vm_compute|]. split; [by vm_compute|].
  assert (Hfs : Taxonomy.is_valid EventType.FS_BATCH_MODIFIED = true) by (by vm_compute).
  assert (Hbs : Taxonomy.is_valid EventType.COPILOT_BURST_START = true) by (by vm_compute).
  assert (Hbe : Taxonomy.is_valid EventType.COPILOT_BURST_END = true) by (by vm_compute).
  assert (Hln : Taxonomy.is_valid EventType.GIT_COMMIT_LINKED = true) by (by vm_compute).
  assert (Hcl : Taxonomy.is_valid EventType.WORKFLOW_ACTIVITY_CLUSTERED = true)
    by (by vm_compute).
  split; [|split; [|split]].
  - intros now env p root d. unfold all_valid, FileBurstDetector.observe. cbv zeta.
    case_bool_decide; cbn [fst TemporalCorrelator.opt_to_list]; by repeat constructor.
  - intros now uid env e d. unfold all_valid, CopilotBurstDetector.observe. cbv zeta.
    destruct (_ || _), (CopilotBurstDetector._active_burst_id d);
      cbn [fst]; by repeat constructor.
  - intros clk env d. unfold all_valid, CopilotBurstDetector.flush.
    destruct (CopilotBurstDetector._active_burst_id d);
      cbn [fst TemporalCorrelator.opt_to_list]; by repeat constructor.
  - intros now_link now_cluster env_link env_cluster e c.
    destruct (correlate_derived_shape now_link now_cluster env_link env_cluster e c)
      as (linked & cluster & -> & Hl & Hc).
    unfold all_valid. apply Forall_app. split.
    + destruct linked as [ev|]; cbn [TemporalCorrelator.opt_to_list]; [|constructor].
      destruct (Hl ev eq_refl) as (_ & Hty & _). constructor; [by rewrite Hty|constructor].
    + destruct cluster as [ev|]; cbn [TemporalCorrelator.opt_to_list]; [|constructor].
      destruct (Hc ev eq_refl) as (Hty & _). constructor; [by rewrite Hty|constructor].
Qed.

(** ** The emission pipeline *)

Lemma score_git_three_values (clk : nat → float) (e : WorkflowEvent) (s : ConfidenceScorer.t) :
  (ConfidenceScorer._score_git clk e s).1 = 0.8%float
  ∨ (ConfidenceScorer._score_git clk e s).1 = 0.7%float
  ∨ (ConfidenceScorer._score_git clk e s).1 = 0.6%float.
Proof.
  unfold ConfidenceScorer._score_git.
  destruct (Py.truthy_str (task_id e)); cbv zeta iota beta.
  - destruct (ConfidenceScorer.task_known _ _); [by left|].
    destruct (ConfidenceScorer.nonempty _); [right; by left|right; by right].
  - destruct (ConfidenceScorer.nonempty _); [right; by left|right; by right].
Qed.

(** Scoring and recording rewrites the confidence only. *)
Lemma score_and_record_event (clk : nat → float) (now_rec : float) (e : WorkflowEvent)
    (s : ConfidenceScorer.t) :
  (ConfidenceScorer.score_and_record clk now_rec e s).1
  = WorkflowEvent_.set_confidence (ConfidenceScorer.score clk e s).1 e.
Proof.
  unfold ConfidenceScorer.score_and_record.
  by destruct (ConfidenceScorer.score clk e s).
Qed.

Lemma emit_derived_rescored (tm : Watcher.PipelineClock) (trigger : WorkflowEvent)
    (derived : list WorkflowEvent) :
  Forall (λ d, (event_type trigger = EventType.GIT_COMMIT
                ∧ event_type d = EventType.GIT_COMMIT_LINKED ∧ source d = "git")
               ∨ (event_type d = EventType.WORKFLOW_ACTIVITY_CLUSTERED
                  ∧ source d = "agent" ∧ confidence d = 0.7%float)) derived →
  ∀ (i : nat) (s : ConfidenceScorer.t),
    Forall (emitted_derived trigger) (Watcher.emit_derived tm i derived s).1
    ∧ length (Watcher.emit_derived tm i derived s).1 = length derived.
Proof.
  induction 1 as [|d rest Hd _ IH]; intros i s; cbn [Watcher.emit_derived].
  - by split.
  - pose proof (score_and_record_event (Watcher.t_derived_score tm i)
                  (Watcher.t_derived_signal tm i) d s) as Hev.
    destruct (ConfidenceScorer.score_and_record _ _ d s) as [d' s1]. cbn [fst] in Hev.
    specialize (IH (S i) s1).
    destruct (Watcher.emit_derived tm (S i) rest s1) as [out s2]. cbn [fst] in *.
    destruct IH as [IH Hlen]. split; [|simpl; by rewrite Hlen].
    constructor; [|done]. subst d'. unfold emitted_derived.
    cbn [event_type source confidence WorkflowEvent_.set_confidence].
    destruct Hd as [(Htr & Hty & Hsrc)|(Hty & Hsrc & Hconf)].
    + left. repeat split; try done.
      unfold ConfidenceScorer.score. rewrite Hsrc.
      change (bool_decide ("git" = "antigravity")) with false.
      change (bool_decide ("git" = "git")) with true. cbv iota.
      apply score_git_three_values.
    + right. repeat split; try done.
      unfold ConfidenceScorer.score. rewrite Hsrc. exact Hconf.
Qed.

(** X21.  One call of the emission pipeline hands the emitter the input
    event first, with the score computed on the windows before the call,
    and then at most two derived events.  A derived link event appears
    only for a commit and is scored again by the version-control rule, so
    it leaves with 0.8, 0.7 or 0.6 whatever link confidence the correlator
    gave it, never with the 1.0 of a task match or the 0.5 of time
    proximity; a cluster event keeps its 0.7. *)
Theorem pipeline_rescores_derived_events (tm : Watcher.PipelineClock)
    (env_link env_cluster : MakeEnv) (event : WorkflowEvent) (h : Watcher.t) :
  ∃ primary derived,
    (Watcher._emit_pipeline tm env_link env_cluster event h).1 = primary :: derived
    ∧ id primary = id event
    ∧ source primary = source event
    ∧ event_type primary = event_type event
    ∧ confidence primary
      = (ConfidenceScorer.score (Watcher.t_score tm) event (Watcher.scorer h)).1
    ∧ (length derived ≤ 2)%nat
    ∧ Forall (emitted_derived event) derived.
Proof.
  unfold Watcher._emit_pipeline.
  pose proof (score_and_record_event (Watcher.t_score tm) (Watcher.t_signal tm) event
                (Watcher.scorer h)) as Hev.
  destruct (ConfidenceScorer.score_and_record _ _ event (Watcher.scorer h)) as [event1 s1].
  cbn [fst] in Hev.
  set (c1 := TemporalCorrelator.record _ event1 _).
  destruct (correlate_derived_shape (Watcher.t_link tm) (Watcher.t_cluster tm)
              env_link env_cluster event1 c1) as (linked & cluster & Hd & Hl & Hc).
  pose proof (correlate_links_kinds (Watcher.t_link tm) (Watcher.t_cluster tm)
                env_link env_cluster event1 c1) as [Hother Hcommit].
  assert (Hprimary :
            ∃ tid ttitle cev cty,
              (TemporalCorrelator.correlate (Watcher.t_link tm) (Watcher.t_cluster tm)
                 env_link env_cluster event1 c1).1.2
              = {| id := id event1; spec_version := spec_version event1;
                   source := source event1; event_type := event_type event1;
                   timestamp := timestamp event1; hostname := hostname event1;
                   workspace_id := workspace_id event1; confidence := confidence event1;
                   task_id := tid; task_title := ttitle;
                   external_ref := external_ref event1;
                   tokens_prompt := tokens_prompt event1;
                   tokens_completion := tokens_completion event1;
                   burst_id := burst_id event1;
                   burst_token_total := burst_token_total event1;
                   burst_duration_secs := burst_duration_secs event1;
                   burst_entry_count := burst_entry_count event1;
                   files_changed := files_changed event1;
                   workspace_root := workspace_root event1;
                   git_commit_sha := git_commit_sha event1;
                   git_branch := git_branch event1;
                   correlated_events := cev; correlation_type := cty |}).
  { destruct (decide (event_type event1 = EventType.GIT_COMMIT)) as [Hty|Hty].
    - rewrite (Hcommit Hty).
      destruct (correlate_commit_result (Watcher.t_link tm) env_link event1 c1)
        as [(_ & _ & ->)|(ts & best & cty & link & _ & _ & _ & _ & _ & _ & _ & _ & ->)];
        cbv zeta in *.
      + exists (task_id event1), (task_title event1), (correlated_events event1),
          (correlation_type event1). by destruct event1.
      + by eexists _, _, _, _.
    - rewrite (Hother Hty).
      exists (task_id event1), (task_title event1), (correlated_events event1),
        (correlation_type event1). by destruct event1. }
  destruct (TemporalCorrelator.correlate _ _ env_link env_cluster event1 c1)
    as [[derived event2] c2]. cbn [fst snd] in *.
  destruct Hprimary as (tid & ttitle & cev & cty & ->).
  assert (Hshape : Forall (λ d, (event_type event = EventType.GIT_COMMIT
                                 ∧ event_type d = EventType.GIT_COMMIT_LINKED
                                 ∧ source d = "git")
                                ∨ (event_type d = EventType.WORKFLOW_ACTIVITY_CLUSTERED
                                   ∧ source d = "agent" ∧ confidence d = 0.7%float))
                     derived).
  { rewrite Hd. apply Forall_app. split.
    - destruct linked as [ev|]; cbn [TemporalCorrelator.opt_to_list]; [|constructor].
      constructor; [|constructor]. left. destruct (Hl ev eq_refl) as (Hty & ? & ?).
      rewrite Hev in Hty. by repeat split.
    - destruct cluster as [ev|]; cbn [TemporalCorrelator.opt_to_list]; [|constructor].
      constructor; [|constructor]. right. by apply Hc. }
  destruct (emit_derived_rescored tm event derived Hshape 0%nat s1) as [Hout Hlen].
  destruct (Watcher.emit_derived tm 0 derived s1) as [out s2]. cbn [fst] in *.
  eexists _, out. split; [reflexivity|]. cbn [id source event_type confidence].
  rewrite Hev. cbn [id source event_type confidence WorkflowEvent_.set_confidence].
  repeat split; try done.
  rewrite Hlen, Hd, length_app.
  destruct linked, cluster; cbn; lia.
Qed.

(** A commit without task id, processed one second after task guid-1: the
    correlator links it by "time_proximity" with confidence 0.5, and the
    link event leaves the pipeline with 0.8. *)
Example weak_link_leaves_with_git_score :
  (confidence
     <$> (TemporalCorrelator._correlate_commit 2%float (sample_env "ln-1")
            (commit_event None None) (Watcher.correlator handler_after_task)).1.1)
  = Some 0.5%float
  ∧ map (λ e, (event_type e, correlation_type e, confidence e))
      (Watcher._emit_pipeline (frozen_clock 2%float) (sample_env "ln-1")
         (sample_env "cl-1") (commit_event None None) handler_after_task).1
    = [ (EventType.GIT_COMMIT, Some "time_proximity", 0.7%float);
        (EventType.GIT_COMMIT_LINKED, Some "time_proximity", 0.8%float) ].
Proof. split; vm_compute; reflexivity. Qed.

(** ** Debouncing *)

Lemma debounce_other_path (now : float) (path p : string) (ms : Z)
    (seen seen' : gmap string float) (answer : bool) :
  path ≠ p →
  Watcher._debounce now path ms seen = Some (answer, seen') →
  seen' !! p = seen !! p.
Proof.
  intros Hne. unfold Watcher._debounce.
  destruct (seen !! path) as [last|].
  - destruct (Py.int_truediv ms 1000) as [iv|]; [|done]. cbn.
    destruct (_ <? _)%float; intros [= <- <-]; [done|by rewrite lookup_insert_ne].
  - intros [= <- <-]. by rewrite lookup_insert_ne.
Qed.

(** An accepted call stores its reading, and came no sooner than the
    interval after the reading that the dict held for its path. *)
Lemma debounce_accepts (now : float) (p : string) (ms : Z) (seen seen' : gmap string float) :
  Watcher._debounce now p ms seen = Some (true, seen') →
  seen' !! p = Some now
  ∧ ∀ last, seen !! p = Some last →
      ∃ iv, Py.int_truediv ms 1000 = Some iv ∧ (now - last <? iv)%float = false.
Proof.
  unfold Watcher._debounce. destruct (seen !! p) as [last|] eqn:Hp.
  - destruct (Py.int_truediv ms 1000) as [iv|]; [|done]. cbn.
    destruct (_ <? _)%float eqn:Hlt; intros [= <-].
    rewrite lookup_insert_eq. split; [done|]. intros ? [= <-]. by exists iv.
  - intros [= <-]. rewrite lookup_insert_eq. by split.
Qed.

(** A rejected call leaves the dict as it was, and came sooner than the
    interval after the reading that the dict holds for its path. *)
Lemma debounce_rejects (now : float) (p : string) (ms : Z) (seen seen' : gmap string float) :
  Watcher._debounce now p ms seen = Some (false, seen') →
  seen' = seen
  ∧ ∃ last iv, seen !! p = Some last ∧ Py.int_truediv ms 1000 = Some iv
               ∧ (now - last <? iv)%float = true.
Proof.
  unfold Watcher._debounce. destruct (seen !! p) as [last|] eqn:Hp; [|done].
  destruct (Py.int_truediv ms 1000) as [iv|]; [|done]. cbn.
  destruct (_ <? _)%float eqn:Hlt; intros [= <-]. split; [done|]. by exists last, iv.
Qed.

(** What the dict holds for a path after one call of a run. *)
Lemma debounce_step_seen (t0 : float) (p0 p : string) (m0 : Z) (seen : gmap string float) :
  match Watcher._debounce t0 p0 m0 seen with
  | Some (true, seen') =>
      if bool_decide (p0 = p) then seen' !! p = Some t0 else seen' !! p = seen !! p
  | Some (false, seen') => seen' = seen
  | None => True
  end.
Proof.
  destruct (Watcher._debounce t0 p0 m0 seen) as [[[] seen']|] eqn:Hd; [| |done].
  - case_bool_decide as Hp.
    + subst p0. by apply debounce_accepts in Hd as [Hd _].
    + by eapply debounce_other_path.
  - by apply debounce_rejects in Hd as [Hd _].
Qed.

(** The next accepted call on a path lies no sooner than its interval
    after the reading that the dict holds for the path. *)
Lemma debounce_run_after_seen (calls : list (float * string * Z)) :
  ∀ (seen : gmap string float) (p : string) (last : float),
    seen !! p = Some last →
    ∀ (j : nat) (tj : float) (mj : Z),
      calls !! j = Some (tj, p, mj) →
      debounce_run calls seen !! j = Some (Some true) →
      (∀ (k : nat) (tk : float) (mk : Z),
         (k < j)%nat → calls !! k = Some (tk, p, mk) →
         debounce_run calls seen !! k ≠ Some (Some true)) →
      ∃ iv, Py.int_truediv mj 1000 = Some iv ∧ (tj - last <? iv)%float = false.
Proof.
  induction calls as [|[[t0 p0] m0] rest IH]; intros seen p last Hp j tj mj Hj Ha Hnone;
    [done|].
  pose proof (debounce_step_seen t0 p0 p m0 seen) as Hstep.
  destruct j as [|j].
  - injection Hj as -> -> ->. cbn [debounce_run] in Ha.
    destruct (Watcher._debounce tj p mj seen) as [[a seen1]|] eqn:Hd; [|done].
    injection Ha as ->. apply debounce_accepts in Hd as [_ Hd]. by apply Hd.
  - cbn in Hj.
    assert (Hfirst : debounce_run ((t0, p0, m0) :: rest) seen !! 0%nat ≠ Some (Some true)
                     ∨ p0 ≠ p).
    { destruct (decide (p0 = p)) as [->|Hne]; [left|by right].
      apply (Hnone 0%nat t0 m0); [lia|done]. }
    assert (Hrest : ∀ (k : nat) (tk : float) (mk : Z) (seen1 : gmap string float),
               (k < j)%nat → rest !! k = Some (tk, p, mk) →
               debounce_run ((t0, p0, m0) :: rest) seen !! S k
               = debounce_run rest seen1 !! k →
               debounce_run rest seen1 !! k ≠ Some (Some true)).
    { intros k tk mk seen1 Hk Hck Heq. rewrite <- Heq.
      apply (Hnone (S k) tk mk); [lia|done]. }
    cbn [debounce_run] in Ha, Hfirst, Hrest.
    destruct (Watcher._debounce t0 p0 m0 seen) as [[[] seen1]|] eqn:Hd.
    + case_bool_decide as Hp0; [destruct Hfirst as [Hf|Hf]; [by destruct Hf|done]|].
      refine (IH seen1 p last _ j tj mj Hj Ha _); [by rewrite Hstep|].
      intros k tk mk Hk Hck. by eapply Hrest.
    + subst seen1. refine (IH seen p last Hp j tj mj Hj Ha _).
      intros k tk mk Hk Hck. by eapply Hrest.
    + refine (IH seen p last Hp j tj mj Hj Ha _).
      intros k tk mk Hk Hck. by eapply Hrest.
Qed.

(** A rejected call lies sooner than its interval after an accepted call
    on its path earlier in the run, or after the reading that the dict
    held for the path at the start. *)
Lemma debounce_run_rejected (calls : list (float * string * Z)) :
  ∀ (seen : gmap string float) (p : string) (j : nat) (tj : float) (mj : Z),
    calls !! j = Some (tj, p, mj) →
    debounce_run calls seen !! j = Some (Some false) →
    ∃ iv, Py.int_truediv mj 1000 = Some iv
          ∧ ((∃ (i : nat) (ti : float) (mi : Z),
                (i < j)%nat ∧ calls !! i = Some (ti, p, mi)
                ∧ debounce_run calls seen !! i = Some (Some true)
                ∧ (tj - ti <? iv)%float = true)
             ∨ (∃ last, seen !! p = Some last ∧ (tj - last <? iv)%float = true)).
Proof.
  induction calls as [|[[t0 p0] m0] rest IH]; intros seen p j tj mj Hj Ha; [done|].
  pose proof (debounce_step_seen t0 p0 p m0 seen) as Hstep.
  destruct j as [|j].
  - injection Hj as -> -> ->. cbn [debounce_run] in Ha.
    destruct (Watcher._debounce tj p mj seen) as [[a seen1]|] eqn:Hd; [|done].
    injection Ha as ->. apply debounce_rejects in Hd as (_ & last & iv & Hl & Hiv & Hlt).
    exists iv. split; [done|]. right. by exists last.
  - cbn in Hj. cbn [debounce_run] in Ha |- *.
    destruct (Watcher._debounce t0 p0 m0 seen) as [[a seen1]|] eqn:Hd.
    + destruct (IH seen1 p j tj mj Hj Ha) as (iv & Hiv & Hcase).
      exists iv. split; [done|].
      destruct Hcase as [(i & ti & mi & Hi & Hci & Hai & Hlt)|(last & Hl & Hlt)].
      * left. exists (S i), ti, mi. repeat split; [lia|done..].
      * destruct a.
        -- case_bool_decide as Hp0.
           ++ subst p0. rewrite Hstep in Hl. injection Hl as <-.
              left. exists 0%nat, t0, m0. repeat split; [lia|done..].
           ++ right. exists last. by rewrite <- Hstep.
        -- subst seen1. right. by exists last.
    + destruct (IH seen p j tj mj Hj Ha) as (iv & Hiv & Hcase).
      exists iv. split; [done|].
      destruct Hcase as [(i & ti & mi & Hi & Hci & Hai & Hlt)|(last & Hl & Hlt)].
      * left. exists (S i), ti, mi. repeat split; [lia|done..].
      * right. by exists last.
Qed.

(** X22.  Over any run of [_debounce] calls, from any dict: two accepted
    calls on one path with no accepted call on that path between them are
    at least the interval of the later call apart, as the code measures
    it (the binary64 difference of the readings is not below
    [ms / 1000]); a rejected call comes sooner than its interval after an
    earlier accepted call on its path or after the reading the dict held
    at the start; and a call on a path that the dict does not hold and
    that no earlier call of the run named is accepted. *)
Theorem debounce_spaces_accepted_calls (calls : list (float * string * Z))
    (seen : gmap string float) :
  (∀ (i j : nat) (ti tj : float) (mi mj : Z) (p : string),
     (i < j)%nat →
     calls !! i = Some (ti, p, mi) → calls !! j = Some (tj, p, mj) →
     debounce_run calls seen !! i = Some (Some true) →
     debounce_run calls seen !! j = Some (Some true) →
     (∀ (k : nat) (tk : float) (mk : Z),
        (i < k < j)%nat → calls !! k = Some (tk, p, mk) →
        debounce_run calls seen !! k ≠ Some (Some true)) →
     ∃ iv, Py.int_truediv mj 1000 = Some iv ∧ (tj - ti <? iv)%float = false)
  ∧ (∀ (j : nat) (tj : float) (mj : Z) (p : string),
       calls !! j = Some (tj, p, mj) →
       debounce_run calls seen !! j = Some (Some false) →
       ∃ iv, Py.int_truediv mj 1000 = Some iv
             ∧ ((∃ (i : nat) (ti : float) (mi : Z),
                   (i < j)%nat ∧ calls !! i = Some (ti, p, mi)
                   ∧ debounce_run calls seen !! i = Some (Some true)
                   ∧ (tj - ti <? iv)%float = true)
                ∨ (∃ last, seen !! p = Some last ∧ (tj - last <? iv)%float = true)))
  ∧ (∀ (j : nat) (tj : float) (mj : Z) (p : string),
       calls !! j = Some (tj, p, mj) →
       seen !! p = None →
       (∀ (i : nat) c, (i < j)%nat → calls !! i = Some c → c.1.2 ≠ p) →
       debounce_run calls seen !! j = Some (Some true)).
Proof.
  split; [|split].
  - revert seen.
    induction calls as [|[[t0 p0] m0] rest IH];
      intros seen i j ti tj mi mj p Hij Hi Hj Hai Haj Hnone; [done|].
    destruct j as [|j]; [lia|]. cbn in Hj.
    destruct i as [|i].
    + injection Hi as -> -> ->.
      assert (Hrest : ∀ (k : nat) (tk : float) (mk : Z) (seen1 : gmap string float),
                 (k < j)%nat → rest !! k = Some (tk, p, mk) →
                 debounce_run ((ti, p, mi) :: rest) seen !! S k
                 = debounce_run rest seen1 !! k →
                 debounce_run rest seen1 !! k ≠ Some (Some true)).
      { intros k tk mk seen1 Hk Hck Heq. rewrite <- Heq.
        apply (Hnone (S k) tk mk); [lia|done]. }
      cbn [debounce_run] in Hai, Haj, Hrest.
      destruct (Watcher._debounce ti p mi seen) as [[a seen1]|] eqn:Hd; [|done].
      injection Hai as ->. apply debounce_accepts in Hd as [Hnew _].
      refine (debounce_run_after_seen rest seen1 p ti Hnew j tj mj Hj Haj _).
      intros k tk mk Hk Hck. by eapply Hrest.
    + cbn in Hi.
      assert (Hrest : ∀ (k : nat) (tk : float) (mk : Z) (seen1 : gmap string float),
                 (i < k < j)%nat → rest !! k = Some (tk, p, mk) →
                 debounce_run ((t0, p0, m0) :: rest) seen !! S k
                 = debounce_run rest seen1 !! k →
                 debounce_run rest seen1 !! k ≠ Some (Some true)).
      { intros k tk mk seen1 Hk Hck Heq. rewrite <- Heq.
        apply (Hnone (S k) tk mk); [lia|done]. }
      cbn [debounce_run] in Hai, Haj, Hrest.
      destruct (Watcher._debounce t0 p0 m0 seen) as [[a seen1]|] eqn:Hd.
      * refine (IH seen1 i j ti tj mi mj p _ Hi Hj Hai Haj _); [lia|].
        intros k tk mk Hk Hck. by eapply Hrest.
      * refine (IH seen i j ti tj mi mj p _ Hi Hj Hai Haj _); [lia|].
        intros k tk mk Hk Hck. by eapply Hrest.
  - intros j tj mj p. apply debounce_run_rejected.
  - revert seen.
    induction calls as [|[[t0 p0] m0] rest IH]; intros seen j tj mj p Hj Hp Hnone; [done|].
    destruct j as [|j]; cbn [debounce_run].
    + injection Hj as -> -> ->.
      unfold Watcher._debounce. by rewrite Hp.
    + cbn in Hj.
      assert (Hne : p0 ≠ p) by (apply (Hnone 0%nat (t0, p0, m0)); [lia|done]).
      assert (Hnone' : ∀ (i : nat) c, (i < j)%nat → rest !! i = Some c → c.1.2 ≠ p).
      { intros i c Hi Hc. apply (Hnone (S i) c); [lia|done]. }
      destruct (Watcher._debounce t0 p0 m0 seen) as [[a seen1]|] eqn:Hd.
      * apply (IH seen1 j tj mj p Hj); [|done].
        by rewrite (debounce_other_path _ _ _ _ _ _ _ Hne Hd).
      * by apply (IH seen j tj mj p Hj).
Qed.

(** The second save is dropped and does not restart the interval: the
    third is accepted 0.2 s after the second, 0.6 s after the first. *)
Example debounce_three_saves :
  debounce_run three_saves ∅ = [Some true; Some false; Some true].
Proof. vm_compute. reflexivity. Qed.

(** Intervals are binary64 differences: at the readings 0.2 and 0.7 the
    second call is rejected for a 500 ms interval, 0.7 - 0.2 being
    0.49999999999999994 in binary64. *)
Example debounce_half_second :
  (0.7 - 0.2)%float = 0.49999999999999994%float
  ∧ Py.int_truediv 500 1000 = Some 0.5%float
  ∧ debounce_run half_second_apart ∅ = [Some true; Some false].
Proof. repeat split; vm_compute; reflexivity. Qed.
